(* ===== verification/_CoqProject ===== *)
-Q . S2P
Prelude.v
Float64.v
PyStdlib.v
Orm.v
SessionModel.v
ModuleModel.v
EventModel.v
CloneWizard.v
ParticipantModel.v
Report.v
ExcelExport.v
ExportAction.v
System.v
Integrity.v
