(* ===== verification/Prelude.v ===== *)
(** * A verification development of the [training_event] Odoo addon

    The addon ([src/addons/training_event/]) keeps training events, their
    modules and their sessions, and the participants enrolled in them, on
    top of the Odoo ORM.  Its logic is in four models and one wizard:
    - [models/training_session.py]: the stored compute [duration_hours]
      and the two constraints [_check_dates] (end after start) and
      [_check_overlap] (no two sessions of one event overlap);
    - [models/training_module.py]: the module's sessions and their count;
    - [models/training_event.py]: [duration_days], [_check_dates], the
      session count over all modules, the unique event code, the clone
      action, the day report [_get_sessions_grouped_by_day] and the calendar
      colours;
    - [models/training_participant.py]: the unique (partner, role) pair and
      the rule "a trainer has a user, a student has none";
    - [wizard/training_event_clone_wizard.py]: the clone wizard, with its
      two constraints and [action_clone].
    A migration ([migrations/18.0.1.0.0/pre-migrate.py]) runs on module
    upgrade.
    The models interact through the database: a session's [event_id] is
    its module's, an event's sessions are its modules' sessions, and the
    clone copies an event through [event.copy].

    ** How the development models it

    The ORM is modelled as the code uses it.  A database ([Orm.db]) holds
    one list of rows per table, in id order, the id sequences and the event
    code sequence.  Each operation is a function from a database to
    [result error (... * db)]: [Ok] is a committed transaction, [Err] a
    raise, after which the transaction is rolled back and no database is
    returned.  Each [create] and [write] runs the SQL checks (foreign keys,
    [unique] constraints, which see archived rows too) and then the Python
    constraints, in the order Odoo runs them.  A constraint runs only when
    one of its fields is written, or when a stored field it depends on is
    recomputed.  A [search] adds the ORM's implicit [active = True] filter.
    One2many fields are the active rows that point back, in the comodel's
    [_order] (a stable sort).  [mapped] is a de-duplicating union.
    - [Prelude.v]: the result monad and [raise_if] (the code's
      [if ...: raise]), the [training_scope] notations, the [training]
      hint databases and tactics, stable sorting ([sort_by], for Python's
      [sorted], [recordset.sorted(key)] and SQL [ORDER BY]), and list
      lemmas.
    - [Float64.v]: Python floats (binary64, round half to even) as [F m e].
      Covers [/], [+], [round(x, 2)], [sum], and the error bound of
      rounding.
    - [PyStdlib.v]: the two library functions the export action calls, as
      CPython computes them: [base64.b64encode] (Module [Base64], the loop
      of [binascii.b2a_base64]) and the date of [fields.Datetime.now()]
      with [strftime] (Module [PyDatetime], the ordinal algorithm
      [_ord2ymd] of [datetime]).  These model CPython, not the addon, and
      are not in the manifest's map.
    - [Orm.v]: the models' records and selection types (Modules
      [TrainingEvent], [TrainingModule], [TrainingSession],
      [TrainingParticipant]), the errors, the database, and the class
      [OrmRecord]: the interface of the generic [browse], [search] and
      [update_row].
    - [SessionModel.v] (Module [Session]): [_compute_duration_hours],
      [_check_dates], [_check_overlap], [create], [write], [unlink], the
      invariant [no_overlap] and the step relation of session operations.
      Its Module [Duration] checks [duration_hours] against the spec's
      "hours rounded to 2 decimals".
    - [ModuleModel.v] (Module [TModule]): [session_ids],
      [_compute_session_count], [_order], [create], [write] (moving a
      module recomputes its sessions' stored [event_id], which re-runs
      their [_check_overlap]), [unlink] with its cascade.
    - [EventModel.v] (Module [Event]): [_compute_duration_days],
      [_check_dates], [module_ids], [_compute_session_count], the code
      default, [create], [write], [unlink] (cascading),
      [_get_calendar_state_colors].
    - [CloneWizard.v] (Module [CloneWizard]): the wizard's fields,
      constraints and [create], [action_clone] as [copy], and the defaults
      of [action_clone_event].
    - [ParticipantModel.v] (Module [Participant]):
      [_check_trainer_user], the unique index, [create], [write],
      [unlink].
    - [Report.v] (Module [Report]): [_get_sessions_grouped_by_day].
    - [ExcelExport.v] (Module [Excel], a Section over the partner and
      user fields): the four sheets of [_create_excel_workbook] as the
      sequences of [sheet.write] calls.
    - [ExportAction.v] (Module [ExportAction]): [action_export_excel], the
      [data:] URL of the encoded workbook and the file name.
    - [System.v] (Module [System]): every operation of every model as a
      transaction ([op], [run]), the module upgrade with the migration
      [pre-migrate.py] ([migrate]), and histories of transactions with
      rollback ([run_all]).
    - [Integrity.v] (Module [Integrity]): the foreign keys of modules and
      sessions and the stored related field [event_id] of sessions
      ([links_ok]) over every history.
    Each component file ends with a [...Demo] Module: a concrete database
    and the witnesses that apply the theorems to it.

    ** What the theorems show

    - The system: over every history of transactions, no two active
      sessions of one event overlap and the participant table stays well
      formed ([system_invariant]), unless a write re-activates a session
      without re-checking it.  The overlap constraint never blocks a
      session for good: archiving the sessions it overlaps lets it be
      created ([overlap_never_blocks]).  Every session's stored
      [event_id] stays its module's, every module's event existing
      ([system_links_ok]), over every history that does not write a
      session's [event_id] directly; such a write commits and breaks the
      link ([session_event_write_breaks_links]).
    - Sessions: [create] succeeds exactly when the module exists, the
      dates are in order and no active session of the event overlaps
      ([create_ok_iff], [check_overlap_ok_iff], [create_errors]), and
      [write] commits exactly when its foreign keys hold and the
      constraints its written fields trigger pass ([write_ok_iff]).  Every
      database reached by creates, unlinks and writes keeps [no_overlap]
      ([reachable_no_overlap]), provided a write that re-activates a
      session also writes a field of [_check_overlap] (a date, the event
      or the module), so that the constraint runs.  Without that proviso
      the invariant fails on every database with an archived session
      overlapping an active one of its event
      ([unarchive_breaks_no_overlap]).
    - Durations: [duration_hours] is the float literal of the nearest
      hundredth of an hour ([duration_hours_nearest]); [duration_days] is
      the inclusive day count ([duration_days_spec]).
    - Events and modules: moving a module re-checks all its sessions,
      archived ones included, and carries them to the new event
      ([module_move_spec]); unlinking an event removes exactly its
      modules and sessions ([event_unlink_cascade]).  The error paths and
      the invariant of events
      ([event_create_errors], [event_ops_preserve_ok]); a write of the
      stored [duration_days] itself breaks that invariant
      ([duration_days_write_breaks_ok]).  An event's code can be
      rewritten after creation whenever the new code is free
      ([event_code_rewritable]).  The session count counts the active
      sessions of the active modules ([session_count_spec]).
    - Cloning: the wizard's guards ([create_wizard_spec]), the defaults
      it opens with ([default_wizard_accepted]) and what the clone
      produces ([action_clone_spec]): a new event without modules or
      sessions, unlike what the spec and the test [test_clone_wizard.py]
      say.
    - Participants: [create] and its errors
      ([participant_create_ok_iff], [participant_create_errors]),
      [write] ([participant_write_ok_iff]), and the
      table invariant under every operation
      ([reachable_participants_ok]).
    - Report: the groups partition the sorted sessions by calendar day, in
      increasing days ([grouped_by_day_spec]).
    - Export: the workbook's counts agree across its sheets and with the
      report ([export_consistent]).  The downloaded URL decodes to
      exactly the workbook's bytes, and the file name carries the code and
      a stamp that parses back to the export time
      ([export_action_roundtrip]).

    ** Bounds and fuel

    Dates are day numbers and date-times are seconds (naive UTC), as
    unbounded [Z]: Python's dates have no overflow the code could reach.
    Floats: overflow and subnormals are not modelled, since every value
    is a positive duration far below [2^1023] or zero.  The duration
    theorem assumes durations below [2^40] seconds.  Its proof needs
    [2^40 < 2^52 / 3600] of headroom for the relative error [2^-52] of
    two roundings.  [Event.digits] prints the sequence number with fuel
    20, enough for every [Z] below [10^20] (a sequence is a 64-bit
    integer).  No other definition uses fuel: every recursion is
    structural.  The stamp theorems assume a year of four digits (1000 to
    9999): [Datetime.now()] is in that range, and CPython pads the years
    below 1000.  A few facts are checked by [vm_compute] over a finite
    range, then used as lemmas ([forallb_zseq]): the 64 characters of the
    base64 alphabet, the 10 digits, the 365 days of the month table in
    either kind of year, and the leap rule on the 400 years of a cycle.
    The calendar algorithm is inverted on every ordinal by the cycle
    arithmetic, not by enumeration, which would take minutes in the
    kernel checker.

    ** What is not modelled

    - Of the Excel export, the cell formats and the column widths
      (presentation: they carry no value).  The bytes [xlsxwriter] writes
      for the sheets are a parameter of [ExportAction]: that serialisation
      is a library outside the addon.
    - [mail.thread] tracking, the views, and the menus
      (XML, not Python).  The [ir.sequence] record is XML data: the code
      it yields is modelled from the spec ([Event.next_by_code]).
    - [res.partner] and [res.users], models outside the addon: a partner
      or a user is its id, and the export takes their names, e-mails and
      phones as parameters.
    - The window actions [action_clone] and [action_clone_event] return
      to the web client; [action_clone] is modelled by the event it
      creates.  The download action of the export is modelled.
    - The tests [tests/*.py]: their scenarios are restated by the Demo
      modules.
    - How [xlsxwriter]'s [sheet.write] turns a Python value into a cell
      (an empty string as a blank cell, a string starting with [=] as a
      formula, a URL as a link): a [cell] of [ExcelExport] is the value
      the call receives.
    - The record rules and access rights (spec 6: a trainer sees the
      sessions they train and the events of those sessions): their XML
      and CSV data are not part of the repository, and every operation
      here runs as the superuser would.
    - CPython's [list.sort] itself: [sort_by] is a stable sort, which is
      what [sorted] and [recordset.sorted] are documented to be.
    - Concurrent transactions: every operation runs alone, as a whole
      transaction, one after the other.
    - A write of [False] to a session's [event_id] (the row's [event_id]
      is an id), and the HTML sanitiser of [description] (a written
      description is stored as given). *)

From Stdlib Require Import ZArith String List Sorted Permutation.
From stdpp Require Import base list option.
Import ListNotations.

(** ** Errors as values

    Every write of the addon either commits or raises; Odoo rolls the
    enclosing transaction back on a raise.  The models return a
    [result E A]: [Ok a] for a committed write, [Err e] for a raise. *)

Inductive result (E A : Type) : Type :=
| Ok (a : A)
| Err (e : E).
Arguments Ok {E A} a.
Arguments Err {E A} e.

#[export] Instance result_ret E : MRet (result E) := fun _ a => Ok a.
#[export] Instance result_bind E : MBind (result E) :=
  fun _ _ k c => match c with Ok a => k a | Err e => Err e end.
#[export] Instance result_fmap E : FMap (result E) :=
  fun _ _ f c => match c with Ok a => Ok (f a) | Err e => Err e end.

(** [raise_if b e] is the code's [if b: raise e]. *)
Definition raise_if {E} (b : bool) (e : E) : result E unit :=
  if b then Err e else Ok tt.

Definition is_ok {E A} (r : result E A) : bool :=
  match r with Ok _ => true | Err _ => false end.

Declare Scope training_scope.
Delimit Scope training_scope with training.
Notation "'raise!' e" := (Err e) (at level 10, e at level 9) : training_scope.
Notation "'check!' b 'or' e ;; k" := (mbind (fun _ : unit => k) (raise_if b e))
  (at level 100, b at level 9, e at level 9, k at level 200, right associativity)
  : training_scope.

Lemma bind_Ok_inv {E A B} (c : result E A) (k : A -> result E B) (b : B) :
  mbind k c = Ok b -> exists a, c = Ok a /\ k a = Ok b.
Proof. destruct c; simpl; [eauto | discriminate]. Qed.

Lemma bind_Err_inv {E A B} (c : result E A) (k : A -> result E B) (e : E) :
  mbind k c = Err e -> c = Err e \/ exists a, c = Ok a /\ k a = Err e.
Proof. destruct c as [a|e']; simpl; intros H; [right; eauto | left; congruence]. Qed.

Lemma raise_if_Ok {E} (b : bool) (e : E) u : raise_if b e = Ok u <-> b = false.
Proof. destruct b, u; simpl; split; congruence. Qed.

Lemma raise_if_false {E} (e : E) : raise_if false e = Ok tt.
Proof. reflexivity. Qed.

Lemma raise_if_true {E} (e : E) : raise_if true e = Err e.
Proof. reflexivity. Qed.

Lemma fmap_Ok_inv {E A B} (f : A -> B) (c : result E A) (b : B) :
  f <$> c = Ok b -> exists a, c = Ok a /\ b = f a.
Proof. destruct c; simpl; [intros [= <-]; eauto | discriminate]. Qed.

Lemma bind_Ok {E A B} (a : A) (k : A -> result E B) : mbind k (Ok a) = k a.
Proof. reflexivity. Qed.

Lemma bind_Err {E A B} (e : E) (k : A -> result E B) : mbind k (Err e) = Err e.
Proof. reflexivity. Qed.

Create HintDb training.
Create Rewrite HintDb training_rw.
#[export] Hint Rewrite @raise_if_false @raise_if_true @bind_Ok @bind_Err : training_rw.

(** Decompose a successful chain of binds in a hypothesis. *)
Ltac inv_ok :=
  repeat match goal with
  | H : Ok _ = Ok _ |- _ => injection H as H; try subst
  | H : Err _ = Ok _ |- _ => discriminate H
  | H : Ok _ = Err _ |- _ => discriminate H
  | H : raise_if _ _ = Ok _ |- _ => apply raise_if_Ok in H
  | H : fmap _ _ = Ok _ |- _ =>
      let a := fresh "a" in let Ha := fresh "Ha" in
      apply fmap_Ok_inv in H as (a & Ha & H); try subst
  | H : mbind _ _ = Ok _ |- _ =>
      let a := fresh "a" in let Ha := fresh "Ha" in
      apply bind_Ok_inv in H as (a & Ha & H);
      lazymatch type of a with unit => destruct a | _ => idtac end
  end.

(** ** Booleans and integers *)

Lemma negb_true_iff' (b : bool) : negb b = true <-> b = false.
Proof. destruct b; simpl; split; congruence. Qed.

Lemma Z_ltb_ge (x y : Z) : (x <? y)%Z = false <-> (y <= x)%Z.
Proof. rewrite Z.ltb_ge. reflexivity. Qed.

Lemma Z_leb_gt (x y : Z) : (x <=? y)%Z = false <-> (y < x)%Z.
Proof. rewrite Z.leb_gt. reflexivity. Qed.

(** Turn the boolean comparisons of the code into arithmetic facts. *)
Ltac zbool :=
  repeat match goal with
  | H : (_ <? _)%Z = true |- _ => apply Z.ltb_lt in H
  | H : (_ <? _)%Z = false |- _ => apply Z.ltb_ge in H
  | H : (_ <=? _)%Z = true |- _ => apply Z.leb_le in H
  | H : (_ <=? _)%Z = false |- _ => apply Z.leb_gt in H
  | H : (_ =? _)%Z = true |- _ => apply Z.eqb_eq in H
  | H : (_ =? _)%Z = false |- _ => apply Z.eqb_neq in H
  | H : (_ && _) = true |- _ => apply andb_prop in H as [? ?]
  | H : (_ || _) = false |- _ => apply orb_false_iff in H as [? ?]
  | H : negb _ = true |- _ => apply negb_true_iff' in H
  end.

(** ** Sorting by a key: Python's [sorted(key=...)] and SQL [ORDER BY]

    Both are stable: records with equal keys keep their input order.
    [sort_by le] is an insertion sort that inserts an element before the
    first one it is [le] to, which is stable for a total preorder. *)

Section SortBy.
Context {A : Type} (le : A -> A -> bool).

Fixpoint insert_by (x : A) (l : list A) : list A :=
  match l with
  | [] => [x]
  | y :: l' => if le x y then x :: y :: l' else y :: insert_by x l'
  end.

Fixpoint sort_by (l : list A) : list A :=
  match l with
  | [] => []
  | x :: l' => insert_by x (sort_by l')
  end.

Lemma insert_by_Permutation x l : Permutation (insert_by x l) (x :: l).
Proof.
  induction l as [|y l IH]; simpl; [done|].
  destruct (le x y); [done|].
  rewrite IH. apply perm_swap.
Qed.

Lemma sort_by_Permutation l : Permutation (sort_by l) l.
Proof.
  induction l as [|x l IH]; simpl; [done|].
  rewrite insert_by_Permutation, IH. done.
Qed.

Lemma In_sort_by x l : In x (sort_by l) <-> In x l.
Proof. split; apply Permutation_in; [|symmetry]; apply sort_by_Permutation. Qed.

Lemma length_sort_by l : length (sort_by l) = length l.
Proof. apply Permutation_length, sort_by_Permutation. Qed.

Hypothesis le_total : forall x y, le x y = false -> le y x = true.

Lemma insert_by_Sorted x l :
  Sorted (fun a b => le a b = true) l ->
  Sorted (fun a b => le a b = true) (insert_by x l).
Proof.
  induction 1 as [|y l Hs IH Hhd]; simpl; [constructor; auto|].
  destruct (le x y) eqn:Hxy; [constructor; auto|].
  constructor; [exact IH|].
  destruct l as [|z l]; simpl; [constructor; auto|].
  inversion Hhd; subst. destruct (le x z); constructor; auto.
Qed.

Lemma sort_by_Sorted l : Sorted (fun a b => le a b = true) (sort_by l).
Proof. induction l; simpl; [constructor|]. by apply insert_by_Sorted. Qed.
End SortBy.

#[export] Hint Resolve sort_by_Permutation sort_by_Sorted : training.

(** Lexicographic order on the key tuples of [_order] and of Python's
    [sorted(key=lambda r: (k1, k2))]. *)
Definition lex2_le (k1 k2 : Z * Z) : bool :=
  (fst k1 <? fst k2)%Z || ((fst k1 =? fst k2)%Z && (snd k1 <=? snd k2)%Z).

Lemma lex2_le_total k1 k2 : lex2_le k1 k2 = false -> lex2_le k2 k1 = true.
Proof.
  unfold lex2_le. destruct k1 as [a b], k2 as [c d]; simpl.
  destruct (Z.ltb_spec a c), (Z.ltb_spec c a), (Z.eqb_spec a c), (Z.eqb_spec c a),
    (Z.leb_spec b d), (Z.leb_spec d b); simpl; intros; try done; lia.
Qed.

(** ** Lists of records *)

Lemma Forall_filter_In {A} (P : A -> Prop) (f : A -> bool) l :
  (forall x, In x l -> f x = true -> P x) -> Forall P (List.filter f l).
Proof.
  intros H. apply Forall_forall. intros x Hx.
  apply filter_In in Hx as [? ?]. auto.
Qed.

Lemma filter_app' {A} (f : A -> bool) l1 l2 :
  List.filter f (l1 ++ l2) = List.filter f l1 ++ List.filter f l2.
Proof. apply List.filter_app. Qed.

#[export] Hint Rewrite @filter_app' @length_app @app_nil_r : training_rw.

(** Filtering by a disjunction of two exclusive tests is, up to order,
    filtering by each. *)
Lemma filter_orb_disjoint {A} (f g : A -> bool) l :
  (forall x, f x = true -> g x = false) ->
  Permutation (List.filter (fun x => f x || g x) l) (List.filter f l ++ List.filter g l).
Proof.
  intros Hfg. induction l as [|x l IH]; simpl; [done|].
  destruct (f x) eqn:Hf; simpl.
  - rewrite (Hfg x Hf). by constructor.
  - destruct (g x); simpl; [|done]. rewrite IH. apply Permutation_middle.
Qed.

Lemma existsb_Permutation {A} (f : A -> bool) l1 l2 :
  Permutation l1 l2 -> existsb f l1 = existsb f l2.
Proof.
  intros Hp. destruct (existsb f l2) eqn:E2.
  - apply existsb_exists in E2 as (x & Hx & Hfx). apply existsb_exists.
    exists x. split; [|done]. by apply (Permutation_in _ (Permutation_sym Hp)).
  - apply not_true_iff_false. intros E1. apply existsb_exists in E1 as (x & Hx & Hfx).
    assert (existsb f l2 = true) as E by
      (apply existsb_exists; exists x; split; [by apply (Permutation_in _ Hp)|done]).
    congruence.
Qed.

Lemma existsb_filter {A} (f g : A -> bool) l :
  existsb f (List.filter g l) = existsb (fun x => g x && f x) l.
Proof. induction l as [|x l IH]; simpl; [done|]. destruct (g x); simpl; by rewrite IH. Qed.

Lemma NoDup_map_filter {A B} (h : A -> B) (f : A -> bool) l :
  List.NoDup (map h l) -> List.NoDup (map h (List.filter f l)).
Proof.
  induction l as [|x l IH]; simpl; [done|]. intros Hnd.
  apply NoDup_cons_iff in Hnd as [Hx Hnd]. destruct (f x); simpl; [|by apply IH].
  constructor; [|by apply IH]. intros Hin. apply Hx.
  apply in_map_iff in Hin as (y & Hy & Hyin). apply filter_In in Hyin as [Hyin _].
  apply in_map_iff. by exists y.
Qed.

(** Two members of a list with injective [map h] and equal images are equal. *)
Lemma NoDup_map_eq {A B} (h : A -> B) l a b :
  List.NoDup (map h l) -> In a l -> In b l -> h a = h b -> a = b.
Proof.
  induction l as [|x l IH]; simpl; [done|]. intros Hnd Ha Hb Hab.
  apply NoDup_cons_iff in Hnd as [Hx Hnd].
  destruct Ha as [<-|Ha], Hb as [<-|Hb]; auto.
  - exfalso. apply Hx. rewrite Hab. by apply in_map.
  - exfalso. apply Hx. rewrite <- Hab. by apply in_map.
Qed.

Lemma filter_false {A} (l : list A) : List.filter (fun _ => false) l = [].
Proof. by induction l. Qed.

Lemma filter_nil_In {A} (f : A -> bool) l :
  (forall x, In x l -> f x = false) -> List.filter f l = [].
Proof.
  induction l as [|x l IH]; intros H; simpl; [done|].
  rewrite (H x (or_introl eq_refl)). apply IH. intros y Hy. apply H. by right.
Qed.

Lemma Sorted_weaken {A} (R R' : A -> A -> Prop) l :
  (forall a b, R a b -> R' a b) -> Sorted R l -> Sorted R' l.
Proof.
  intros Himp Hs. induction Hs as [|a l Hs IH Hhd]; constructor; [done|].
  destruct Hhd; constructor. by apply Himp.
Qed.

(** Appending an element above every element keeps a list sorted. *)
Lemma Sorted_snoc_Forall {A} (R : A -> A -> Prop) l y :
  Sorted R l -> Forall (fun x => R x y) l -> Sorted R (l ++ [y]).
Proof.
  induction 1 as [|a l Hs IH Hhd]; intros Hall; simpl; [repeat constructor|].
  apply Forall_cons_iff in Hall as [Hay Hall]. constructor; [by apply IH|].
  destruct l as [|b l]; simpl; constructor; [done|]. by inversion Hhd.
Qed.

(** ** Checking a property on a range of integers by computation

    [zseq lo n] is [lo, lo+1, ..., lo+n-1].  A decidable property checked
    by [forallb] on it, by [vm_compute], holds on the whole range. *)
Fixpoint zseq (lo : Z) (n : nat) : list Z :=
  match n with O => [] | S n' => lo :: zseq (lo + 1)%Z n' end.

Lemma forallb_zseq (f : Z -> bool) lo n :
  forallb f (zseq lo n) = true -> forall i, (lo <= i < lo + Z.of_nat n)%Z -> f i = true.
Proof.
  revert lo. induction n as [|n IH]; intros lo H i Hi; simpl in *; [lia|].
  apply andb_true_iff in H as [Hlo H].
  destruct (Z.eq_dec i lo) as [->|Hne]; [done|]. apply (IH (lo + 1)%Z); [done|lia].
Qed.

(** ** Bits *)

Local Open Scope Z_scope.

(** [lia] over [/] and [mod] by constants: name the quotients and
    remainders first. *)
Ltac lia_div := Z.div_mod_to_equations; lia.

(** An [|] of a shifted value and a value below the shift is a sum. *)
Lemma lor_shiftl_small x k y :
  (0 <= k -> 0 <= y < 2 ^ k -> Z.lor (Z.shiftl x k) y = x * 2 ^ k + y)%Z.
Proof.
  intros Hk Hy. rewrite Z.shiftl_mul_pow2 by done.
  assert (Hl : Z.land (x * 2 ^ k) y = 0).
  { apply Z.bits_inj_0. intros i. rewrite Z.land_spec.
    destruct (Z.lt_ge_cases i k) as [Hi|Hi].
    - destruct (Z.lt_ge_cases i 0); [by rewrite Z.testbit_neg_r|].
      by rewrite Z.mul_pow2_bits_low.
    - rewrite <- (Z.mod_small y (2 ^ k)) by lia.
      rewrite Z.mod_pow2_bits_high by lia. apply andb_false_r. }
  by rewrite <- Z.lxor_lor, <- Z.add_nocarry_lxor.
Qed.

Lemma land_ones_mod x k : (0 <= k -> Z.land x (2 ^ k - 1) = x mod 2 ^ k)%Z.
Proof. intros Hk. rewrite <- Z.land_ones by done. f_equal. rewrite Z.ones_equiv. lia. Qed.
