(* ===== verification/Float64.v ===== *)
(** * Python floats: IEEE-754 binary64 with round-to-nearest-even

    The addon computes [duration_hours] as
    [round(delta.total_seconds() / 3600.0, 2)] and the day report adds
    these floats with [sum].  This file models the three Python float
    operations involved, each as the correctly rounded result of the exact
    rational operation, which is what CPython (and IEEE-754) guarantees:
    - true division [a / b] and addition [a + b] of floats;
    - [round(x, 2)]: the exact binary value of [x] is rounded half-even
      to a multiple of 1/100, then converted back to the nearest float.
    A float is [F m e] with value [m * 2^e]; [round_q] always returns the
    canonical form [2^52 <= |m| < 2^53] (or [F 0 0]), so two results of
    [round_q] are equal as floats exactly when they are equal as terms.
    Overflow and subnormals are not modelled: every value the addon
    produces (durations of sessions, in hours) is a normal float. *)

From Stdlib Require Import ZArith Lia List.
From S2P Require Import Prelude.

Open Scope Z_scope.
Open Scope bool_scope.

Record float64 := F { mant : Z; exp : Z }.

(** Half-even rounding of the rational [n / d] ([d > 0]) to an integer. *)
Definition rhe (n d : Z) : Z :=
  let q := n / d in
  let r := n mod d in
  if (d <? 2 * r) || ((2 * r =? d) && Z.odd q) then q + 1 else q.

(** The scaled quotient [n / (d * 2^e)] as a fraction of integers. *)
Definition scaled (n d e : Z) : Z * Z :=
  if e <? 0 then (n * 2 ^ (- e), d) else (n, d * 2 ^ e).

(** Nearest float to [n / d] for [n > 0], [d > 0]: choose [e] so that the
    scaled quotient lies in [[2^52, 2^53)], round it half-even. *)
Definition round_pos (n d : Z) : float64 :=
  let e0 := Z.log2 n - Z.log2 d - 52 in
  let e := if 2 ^ 52 <=? fst (scaled n d e0) / snd (scaled n d e0)
           then e0 else e0 - 1 in
  let m := rhe (fst (scaled n d e)) (snd (scaled n d e)) in
  if m =? 2 ^ 53 then F (2 ^ 52) (e + 1) else F m e.

Definition fneg (x : float64) : float64 := F (- mant x) (exp x).

(** Nearest float to the rational [n / d], [d > 0]. *)
Definition round_q (n d : Z) : float64 :=
  if n =? 0 then F 0 0
  else if n <? 0 then fneg (round_pos (- n) d) else round_pos n d.

(** The exact value of a float as a fraction [(num, den)], [den > 0]. *)
Definition to_q (x : float64) : Z * Z :=
  if exp x <? 0 then (mant x, 2 ^ (- exp x)) else (mant x * 2 ^ exp x, 1).

(** [float(k)] for an integer [k]. *)
Definition of_Z (k : Z) : float64 := round_q k 1.

(** [k1 / k2] for a Python float literal written [k1 / k2] in decimal,
    e.g. [1.5 = lit 15 10]: the literal denotes the nearest float. *)
Definition lit (k1 k2 : Z) : float64 := round_q k1 k2.

Definition fzero : float64 := F 0 0.

(** [a / b] on floats, [b <> 0]. *)
Definition fdiv (a b : float64) : float64 :=
  let '(n1, d1) := to_q a in
  let '(n2, d2) := to_q b in
  if n2 <? 0 then round_q (- (n1 * d2)) (d1 * - n2) else round_q (n1 * d2) (d1 * n2).

(** [a + b] on floats. *)
Definition fadd (a b : float64) : float64 :=
  let '(n1, d1) := to_q a in
  let '(n2, d2) := to_q b in
  round_q (n1 * d2 + n2 * d1) (d1 * d2).

(** Python's [round(x, 2)] on a float. *)
Definition py_round2 (x : float64) : float64 :=
  let '(n, d) := to_q x in
  round_q (rhe (n * 100) d) 100.

(** Python's [sum(xs)] over floats: [0 + x1 + x2 + ...], left to right;
    [0 + x1] is [x1] exactly. *)
Definition py_sum (xs : list float64) : float64 :=
  fold_left fadd xs fzero.

(** ** Basic facts about the rounding functions *)

Lemma rhe_spec n d : 0 < d ->
  2 * Z.abs (rhe n d * d - n) <= d.
Proof.
  intros Hd. unfold rhe.
  pose proof (Z.div_mod n d ltac:(lia)) as Hdm.
  pose proof (Z.mod_pos_bound n d Hd) as Hb.
  set (q := n / d) in *. set (r := n mod d) in *.
  destruct (Z.ltb_spec d (2 * r)); simpl.
  - lia.
  - destruct (Z.eqb_spec (2 * r) d); simpl; [destruct (Z.odd q)|]; lia.
Qed.

(** If [n / d] is within less than a half of the integer [k], rounding
    gives [k]. *)
Lemma rhe_near n d k : 0 < d -> 2 * Z.abs (k * d - n) < d -> rhe n d = k.
Proof.
  intros Hd Hk. pose proof (rhe_spec n d Hd) as Hr.
  assert (Hlt : Z.abs ((rhe n d - k) * d) < d) by (rewrite Z.mul_sub_distr_r; lia).
  rewrite Z.abs_mul, (Z.abs_eq d) in Hlt by lia.
  assert (Z.abs (rhe n d - k) < 1) by nia. lia.
Qed.

Lemma rhe_exact k d : 0 < d -> rhe (k * d) d = k.
Proof. intros Hd. apply rhe_near; [lia|]. rewrite Z.sub_diag. simpl. lia. Qed.

(** ** The error of [round_pos]

    The exponent [round_pos] chooses puts the scaled quotient at or above
    [2^52]; rounding it then leaves an error of at most half a unit in
    the last place. *)

Lemma snd_scaled_pos n d e : 0 < d -> 0 < snd (scaled n d e).
Proof.
  intros Hd. unfold scaled. destruct (Z.ltb_spec e 0); simpl; [lia|].
  apply Z.mul_pos_pos; [lia|]. apply Z.pow_pos_nonneg; lia.
Qed.

(** With [e + j = log2 n - log2 d - 1], the scaled quotient is at least
    [2^j]. *)
Lemma scaled_lower n d e j :
  0 < n -> 0 < d -> 0 <= j -> e + j = Z.log2 n - Z.log2 d - 1 ->
  2 ^ j * snd (scaled n d e) <= fst (scaled n d e).
Proof.
  intros Hn Hd Hj He. destruct (Z.log2_spec n Hn) as [Hn1 _].
  destruct (Z.log2_spec d Hd) as [_ Hd2].
  pose proof (Z.log2_nonneg n). pose proof (Z.log2_nonneg d).
  unfold scaled. destruct (Z.ltb_spec e 0); simpl.
  - assert (Hp : 2 ^ j * 2 ^ Z.succ (Z.log2 d) = 2 ^ Z.log2 n * 2 ^ (- e)).
    { rewrite <- !Z.pow_add_r by lia. f_equal. lia. }
    assert (0 < 2 ^ j) by (apply Z.pow_pos_nonneg; lia).
    assert (0 < 2 ^ (- e)) by (apply Z.pow_pos_nonneg; lia).
    nia.
  - assert (Hp : 2 ^ j * 2 ^ e * 2 ^ Z.succ (Z.log2 d) = 2 ^ Z.log2 n).
    { rewrite <- !Z.pow_add_r by lia. f_equal. lia. }
    assert (0 < 2 ^ j * 2 ^ e) by (apply Z.mul_pos_pos; apply Z.pow_pos_nonneg; lia).
    nia.
Qed.

Lemma round_pos_norm n d : 0 < n -> 0 < d ->
  exists e, 2 ^ 52 * snd (scaled n d e) <= fst (scaled n d e) /\
    round_pos n d =
      (let m := rhe (fst (scaled n d e)) (snd (scaled n d e)) in
       if m =? 2 ^ 53 then F (2 ^ 52) (e + 1) else F m e).
Proof.
  intros Hn Hd. unfold round_pos.
  set (e0 := Z.log2 n - Z.log2 d - 52).
  destruct (Z.leb_spec (2 ^ 52) (fst (scaled n d e0) / snd (scaled n d e0))) as [Hg|Hg].
  - exists e0. split; [|reflexivity].
    pose proof (snd_scaled_pos n d e0 Hd).
    pose proof (Z.mul_div_le (fst (scaled n d e0)) (snd (scaled n d e0)) ltac:(lia)). nia.
  - exists (e0 - 1). split; [|reflexivity].
    apply scaled_lower; [lia|lia|lia|]. unfold e0. lia.
Qed.

(** The result [(a, b)] of [to_q (round_pos n d)] is within half of
    [2^k / b] of [n / d], and [a >= 2^52 * 2^k]; [2^k / b] is the unit
    in the last place, [k = 0] unless [b = 1]. *)
Lemma round_pos_spec n d : 0 < n -> 0 < d ->
  let '(a, b) := to_q (round_pos n d) in
  exists k, 0 <= k /\ (b = 1 \/ k = 0) /\ 0 < b /\
    2 * Z.abs (a * d - n * b) <= 2 ^ k * d /\ 2 ^ 52 * 2 ^ k <= a.
Proof.
  intros Hn Hd. destruct (round_pos_norm n d Hn Hd) as (e & Hlow & ->). cbv zeta.
  pose proof (rhe_spec (fst (scaled n d e)) _ (snd_scaled_pos n d e Hd)) as Hr.
  set (m := rhe (fst (scaled n d e)) (snd (scaled n d e))) in *.
  assert (H52 : 0 < 2 ^ 52) by lia.
  unfold scaled in *. destruct (Z.ltb_spec e 0) as [He|He]; simpl in *.
  - assert (HP : 2 ^ (- e) = 2 * 2 ^ (- (e + 1))).
    { rewrite <- Z.pow_succ_r by lia. f_equal. lia. }
    assert (0 < 2 ^ (- (e + 1))) by (apply Z.pow_pos_nonneg; lia).
    assert (2 ^ 52 <= m) by nia.
    destruct (Z.eqb_spec m (2 ^ 53)) as [Hm|Hm]; unfold to_q; simpl.
    + rewrite Hm in Hr. change (2 ^ 53) with (2 * 2 ^ 52) in Hr.
      destruct (Z.ltb_spec (e + 1) 0); exists 0; simpl.
      * rewrite HP in Hr. nia.
      * replace (e + 1) with 0 in * by lia. simpl in *. nia.
    + rewrite (proj2 (Z.ltb_lt e 0) He). exists 0. simpl.
      assert (0 < 2 ^ (- e)) by lia. nia.
  - assert (0 < 2 ^ e) by (apply Z.pow_pos_nonneg; lia).
    assert (2 ^ 52 <= m) by nia.
    destruct (Z.eqb_spec m (2 ^ 53)) as [Hm|Hm]; unfold to_q; simpl.
    + rewrite (proj2 (Z.ltb_ge (e + 1) 0)) by lia. exists e.
      rewrite Z.pow_add_r by lia. rewrite Hm in Hr. change (2 ^ 53) with (2 * 2 ^ 52) in Hr.
      simpl. nia.
    + rewrite (proj2 (Z.ltb_ge e 0)) by lia. exists e. nia.
Qed.

(** [float(s)] is exact for a positive integer below [2^52]. *)
Lemma of_Z_exact s : 0 < s < 2 ^ 52 ->
  let '(a, b) := to_q (of_Z s) in 0 < b /\ a = s * b.
Proof.
  intros Hs. unfold of_Z, round_q.
  rewrite (proj2 (Z.eqb_neq s 0)), (proj2 (Z.ltb_ge s 0)) by lia.
  pose proof (round_pos_spec s 1 ltac:(lia) ltac:(lia)) as Hspec.
  destruct (to_q (round_pos s 1)) as [a b].
  destruct Hspec as (k & Hk & [->| ->] & Hb & Herr & Hlow); split; lia.
Qed.
