(* ===== verification/PyStdlib.v ===== *)
(** * The Python library functions [action_export_excel] calls

    [action_export_excel] ([models/training_event.py], lines 123-143)
    encodes the workbook with [base64.b64encode] and names the file with
    [fields.Datetime.now().strftime("%Y%m%d_%H%M%S")].  This file models
    the two as CPython computes them:
    - Module [Base64]: [b64encode] as the loop of CPython's
      [binascii.b2a_base64] (three bytes to four characters, then the
      padded tail), and a decoder [b64decode] of its canonical output,
      which is the reference the round trip is stated against;
    - Module [PyDatetime]: the ordinal algorithm [_ord2ymd] of CPython's
      [datetime] (400-, 100- and 4-year cycles), its inverse [_ymd2ord],
      the split of a naive UTC timestamp into date and time, the fields of
      [strftime] the code uses and a parser of the stamp it writes.

    These are models of CPython, not of the addon; [ExportAction.v] uses
    them and their lemmas: [b64decode] inverts [b64encode]; [_ymd2ord]
    inverts [_ord2ymd] on every ordinal (checked on one 400-year cycle by
    computation, then carried to every cycle); the stamp has 15
    characters and parses back to the timestamp for every year from 1000
    to 9999. *)

From Stdlib Require Import ZArith String Ascii List Lia.
From stdpp Require Import base list option.
From S2P Require Import Prelude.
Import ListNotations.

Open Scope Z_scope.

Module Base64.

(** The value of a byte, [bin_data[i]] in [binascii.c]. *)
Definition bval (b : Byte.byte) : Z := Z.of_N (Byte.to_N b).

(** [table_b2a_base64]: [A-Z], [a-z], [0-9], [+], [/]. *)
Definition table_b2a (i : Z) : ascii :=
  ascii_of_N (Z.to_N
    (if i <? 26 then 65 + i
     else if i <? 52 then 71 + i
     else if i <? 62 then i - 4
     else if i =? 62 then 43 else 47)).

Definition pad : ascii := ascii_of_N 61.

(** [binascii.b2a_base64] without the trailing newline ([b64encode]
    passes [newline=False]): each group of three bytes gives four
    characters; a tail of one or two bytes is padded with [=]. *)
Fixpoint b64encode (bin : list Byte.byte) : string :=
  match bin with
  | b0 :: b1 :: b2 :: rest =>
      String (table_b2a (Z.shiftr (bval b0) 2))
      (String (table_b2a (Z.lor (Z.shiftl (Z.land (bval b0) 3) 4) (Z.shiftr (bval b1) 4)))
      (String (table_b2a (Z.lor (Z.shiftl (Z.land (bval b1) 15) 2) (Z.shiftr (bval b2) 6)))
      (String (table_b2a (Z.land (bval b2) 63)) (b64encode rest))))
  | [b0; b1] =>
      String (table_b2a (Z.shiftr (bval b0) 2))
      (String (table_b2a (Z.lor (Z.shiftl (Z.land (bval b0) 3) 4) (Z.shiftr (bval b1) 4)))
      (String (table_b2a (Z.shiftl (Z.land (bval b1) 15) 2)) (String pad EmptyString)))
  | [b0] =>
      String (table_b2a (Z.shiftr (bval b0) 2))
      (String (table_b2a (Z.shiftl (Z.land (bval b0) 3) 4))
      (String pad (String pad EmptyString)))
  | [] => EmptyString
  end.

(** The reference decoder: the index of a character of the alphabet. *)
Definition index (c : ascii) : option Z :=
  let n := Z.of_N (N_of_ascii c) in
  if (65 <=? n) && (n <=? 90) then Some (n - 65)
  else if (97 <=? n) && (n <=? 122) then Some (n - 71)
  else if (48 <=? n) && (n <=? 57) then Some (n + 4)
  else if n =? 43 then Some 62
  else if n =? 47 then Some 63
  else None.

Definition byte_of (z : Z) : Byte.byte := default Byte.x00 (Byte.of_N (Z.to_N z)).

(** Four characters of the alphabet give 24 bits, three bytes. *)
Fixpoint b64decode (s : string) : option (list Byte.byte) :=
  match s with
  | EmptyString => Some []
  | String c0 (String c1 (String c2 (String c3 rest))) =>
      i0 ← index c0; i1 ← index c1;
      if Ascii.eqb c2 pad then
        (if Ascii.eqb c3 pad && String.eqb rest EmptyString
         then Some [byte_of (i0 * 4 + i1 / 16)] else None)
      else
        i2 ← index c2;
        if Ascii.eqb c3 pad then
          (if String.eqb rest EmptyString
           then Some [byte_of (i0 * 4 + i1 / 16); byte_of ((i1 mod 16) * 16 + i2 / 4)]
           else None)
        else
          i3 ← index c3;
          bs ← b64decode rest;
          Some (byte_of (i0 * 4 + i1 / 16) :: byte_of ((i1 mod 16) * 16 + i2 / 4) ::
                byte_of ((i2 mod 4) * 64 + i3) :: bs)
  | _ => None
  end.

(** ** Lemmas *)

Lemma bval_range b : 0 <= bval b < 256.
Proof. unfold bval. pose proof (Byte.to_N_bounded b). lia. Qed.

Lemma byte_of_bval b : byte_of (bval b) = b.
Proof. unfold byte_of, bval. by rewrite N2Z.id, Byte.of_to_N. Qed.

Lemma index_table i : 0 <= i < 64 -> index (table_b2a i) = Some i.
Proof.
  intros Hi.
  pose proof (forallb_zseq (fun i => match index (table_b2a i) with Some j => j =? i | None => false end) 0 64
                ltac:(vm_compute; reflexivity) i Hi) as H.
  cbv beta in H. destruct (index (table_b2a i)) as [j|]; [|discriminate].
  apply Z.eqb_eq in H. by subst.
Qed.

Lemma table_not_pad i : 0 <= i < 64 -> Ascii.eqb (table_b2a i) pad = false.
Proof.
  intros Hi. apply (forallb_zseq (fun i => negb (Ascii.eqb (table_b2a i) pad)) 0 64) in Hi;
    [by destruct (Ascii.eqb _ _)|by vm_compute].
Qed.

(** The four sextets of three bytes, as [binascii.c] computes them. *)
Lemma sextets a b c :
  0 <= a < 256 -> 0 <= b < 256 -> 0 <= c < 256 ->
  Z.shiftr a 2 = a / 4 /\
  Z.lor (Z.shiftl (Z.land a 3) 4) (Z.shiftr b 4) = a mod 4 * 16 + b / 16 /\
  Z.lor (Z.shiftl (Z.land b 15) 2) (Z.shiftr c 6) = b mod 16 * 4 + c / 64 /\
  Z.land c 63 = c mod 64 /\
  Z.shiftl (Z.land a 3) 4 = a mod 4 * 16 /\ Z.shiftl (Z.land b 15) 2 = b mod 16 * 4.
Proof.
  intros Ha Hb Hc.
  rewrite (lor_shiftl_small _ 4), (lor_shiftl_small _ 2)
    by (rewrite ?Z.shiftr_div_pow2 by lia; simpl; lia_div).
  rewrite !Z.shiftr_div_pow2, !Z.shiftl_mul_pow2 by lia.
  change 3 with (2 ^ 2 - 1). change 15 with (2 ^ 4 - 1). change 63 with (2 ^ 6 - 1).
  rewrite !land_ones_mod by lia. simpl. lia_div.
Qed.

Lemma byte_of_eq z b : z = bval b -> byte_of z = b.
Proof. intros ->. apply byte_of_bval. Qed.

(** Decoding one group: the characters are in the alphabet, none is the
    padding. *)
Ltac b64_group :=
  simpl; rewrite ?index_table, ?table_not_pad by lia_div; simpl.

(** ** Theorems *)

(** [b64encode] loses nothing: the reference decoder gives the bytes
    back. *)
Theorem b64decode_encode bs : b64decode (b64encode bs) = Some bs.
Proof.
  induction bs as [bs IH] using (induction_ltof1 _ (@length _)). unfold ltof in IH.
  destruct bs as [|b0 [|b1 [|b2 rest]]]; [done|..]; cbn [b64encode];
    pose proof (bval_range b0) as H0.
  - destruct (sextets (bval b0) 0 0) as (-> & _ & _ & _ & -> & _); [lia..|].
    b64_group. do 2 f_equal. apply byte_of_eq. lia_div.
  - pose proof (bval_range b1) as H1.
    destruct (sextets (bval b0) (bval b1) 0) as (-> & -> & _ & _ & _ & ->); [lia..|].
    b64_group. do 2 f_equal; [|f_equal]; apply byte_of_eq; lia_div.
  - pose proof (bval_range b1) as H1. pose proof (bval_range b2) as H2.
    destruct (sextets (bval b0) (bval b1) (bval b2)) as (-> & -> & -> & -> & _ & _); [lia..|].
    b64_group. rewrite IH by (simpl; lia). simpl.
    do 2 f_equal; [|f_equal; [|f_equal]]; apply byte_of_eq; lia_div.
Qed.

End Base64.

Module PyDatetime.

(** [_DAYS_IN_MONTH] and [_DAYS_BEFORE_MONTH], indexed from 1. *)
Definition _DAYS_IN_MONTH : list Z := [-1; 31; 28; 31; 30; 31; 30; 31; 31; 30; 31; 30; 31].
Definition _DAYS_BEFORE_MONTH : list Z := [-1; 0; 31; 59; 90; 120; 151; 181; 212; 243; 273; 304; 334].

Definition at_ (l : list Z) (i : Z) : Z := nth (Z.to_nat i) l (-1).

Definition _is_leap (year : Z) : bool :=
  (year mod 4 =? 0) && (negb (year mod 100 =? 0) || (year mod 400 =? 0)).

Definition _days_before_year (year : Z) : Z :=
  let y := year - 1 in y * 365 + y / 4 - y / 100 + y / 400.

Definition _days_before_month (year month : Z) : Z :=
  at_ _DAYS_BEFORE_MONTH month + (if (month >? 2) && _is_leap year then 1 else 0).

(** [_ymd2ord]: the ordinal of a date, day 1 being 0001-01-01. *)
Definition _ymd2ord (year month day : Z) : Z :=
  _days_before_year year + _days_before_month year month + day.

Definition _DI400Y : Z := 146097.
Definition _DI100Y : Z := 36524.
Definition _DI4Y : Z := 1461.

(** The month and day of the [n]-th day (from 0) of a year, the end of
    [_ord2ymd]: the estimate [(n + 50) >> 5] is the month or the one
    after it. *)
Definition _month_day (n : Z) (leapyear : bool) : Z * Z :=
  let month := Z.shiftr (n + 50) 5 in
  let preceding := at_ _DAYS_BEFORE_MONTH month + (if (month >? 2) && leapyear then 1 else 0) in
  let '(month, preceding) :=
    if preceding >? n then
      (month - 1, preceding - (at_ _DAYS_IN_MONTH (month - 1) +
                               (if (month - 1 =? 2) && leapyear then 1 else 0)))
    else (month, preceding) in
  (month, n - preceding + 1).

(** [_ord2ymd]: the date of an ordinal, through the 400-, 100-, 4- and
    1-year cycles; [divmod] is [/] and [mod] (floor division). *)
Definition _ord2ymd (n : Z) : Z * Z * Z :=
  let n := n - 1 in
  let n400 := n / _DI400Y in let n := n mod _DI400Y in
  let year := n400 * 400 + 1 in
  let n100 := n / _DI100Y in let n := n mod _DI100Y in
  let n4 := n / _DI4Y in let n := n mod _DI4Y in
  let n1 := n / 365 in let n := n mod 365 in
  let year := year + (n100 * 100 + n4 * 4 + n1) in
  if (n1 =? 4) || (n100 =? 4) then (year - 1, 12, 31)
  else
    let leapyear := (n1 =? 3) && (negb (n4 =? 24) || (n100 =? 3)) in
    let '(month, day) := _month_day n leapyear in
    (year, month, day).

(** A naive date-time, as [datetime] holds it. *)
Record datetime := mkdt {
  year : Z; month : Z; day : Z; hour : Z; minute : Z; second : Z }.

(** The ordinal of 1970-01-01. *)
Definition EPOCH_ORD : Z := 719163.

(** The date-time of a POSIX timestamp [t] in UTC: the day of [t] is the
    floor of [t / 86400] days after the epoch.  Odoo's server runs with
    [TZ=UTC], so [fields.Datetime.now()] is this date-time of the
    current time, its microseconds dropped. *)
Definition from_timestamp (t : Z) : datetime :=
  let '(y, m, d) := _ord2ymd (t / 86400 + EPOCH_ORD) in
  let s := t mod 86400 in
  mkdt y m d (s / 3600) (s mod 3600 / 60) (s mod 60).

Definition to_timestamp (dt : datetime) : Z :=
  (_ymd2ord (year dt) (month dt) (day dt) - EPOCH_ORD) * 86400 +
  hour dt * 3600 + minute dt * 60 + second dt.

(** ** [strftime] *)

Definition digit (k : Z) : ascii := ascii_of_N (Z.to_N (48 + k)).

(** A field written with [w] digits, zero-padded, most significant
    first: [%m], [%d], [%H], [%M], [%S] are [dec 2], [%Y] is [dec 4]
    (CPython pads the years below 1000 to four digits). *)
Fixpoint dec (w : nat) (n : Z) : string :=
  match w with
  | O => EmptyString
  | S w' => String (digit ((n / 10 ^ Z.of_nat w') mod 10)) (dec w' n)
  end.

(** [strftime("%Y%m%d_%H%M%S")]. *)
Definition strftime_stamp (dt : datetime) : string :=
  dec 4 (year dt) ++ dec 2 (month dt) ++ dec 2 (day dt) ++ String "_" EmptyString ++
  dec 2 (hour dt) ++ dec 2 (minute dt) ++ dec 2 (second dt).

(** The parser of a stamp, the inverse the round trip is stated with. *)
Definition digit_val (c : ascii) : option Z :=
  let n := Z.of_N (N_of_ascii c) in
  if (48 <=? n) && (n <=? 57) then Some (n - 48) else None.

Fixpoint read_dec (w : nat) (s : string) : option (Z * string) :=
  match w with
  | O => Some (0, s)
  | S w' =>
      match s with
      | String c s' =>
          d ← digit_val c; '(v, r) ← read_dec w' s'; Some (d * 10 ^ Z.of_nat w' + v, r)
      | EmptyString => None
      end
  end.

Definition parse_stamp (s : string) : option datetime :=
  '(y, s) ← read_dec 4 s; '(mo, s) ← read_dec 2 s; '(d, s) ← read_dec 2 s;
  match s with
  | String "_" s =>
      '(h, s) ← read_dec 2 s; '(mi, s) ← read_dec 2 s; '(se, s) ← read_dec 2 s;
      if String.eqb s EmptyString then Some (mkdt y mo d h mi se) else None
  | _ => None
  end.

(** ** Lemmas *)

(** The end of [_ord2ymd], checked on the 365 and 366 days of both kinds
    of year by computation: the month is in 1-12, the day in 1-31, and
    the days before the month plus the day give the day of the year back. *)
Definition month_day_ok (leap : bool) (n : Z) : bool :=
  let '(m, d) := _month_day n leap in
  (at_ _DAYS_BEFORE_MONTH m + (if (m >? 2) && leap then 1 else 0) + d =? n + 1) &&
  (1 <=? m) && (m <=? 12) && (1 <=? d) && (d <=? 31).

Definition leap_coords_ok (c f y : Z) : bool :=
  Bool.eqb (_is_leap (100 * c + 4 * f + y + 1)) ((y =? 3) && (negb (f =? 24) || (c =? 3))).

Lemma month_day_spec (leap : bool) n :
  0 <= n < 365 ->
  let '(m, d) := _month_day n leap in
  at_ _DAYS_BEFORE_MONTH m + (if (m >? 2) && leap then 1 else 0) + d = n + 1 /\
  1 <= m <= 12 /\ 1 <= d <= 31.
Proof.
  intros Hn. assert (H : month_day_ok leap n = true).
  { destruct leap; apply (forallb_zseq _ 0 365); [vm_compute; reflexivity|lia|vm_compute; reflexivity|lia]. }
  unfold month_day_ok in H. destruct (_month_day n leap). zbool. lia.
Qed.

(** A year by its place in the cycles: [q] cycles of 400 years, [c]
    centuries, [f] four-year blocks and [y] years. *)
Lemma days_before_year_coords q c f y :
  0 <= c <= 3 -> 0 <= f <= 24 -> 0 <= y <= 3 ->
  _days_before_year (400 * q + 100 * c + 4 * f + y + 1) =
  146097 * q + 36524 * c + 1461 * f + 365 * y.
Proof. intros. unfold _days_before_year. lia_div. Qed.

Lemma is_leap_cycle q z : _is_leap (400 * q + z) = _is_leap z.
Proof.
  unfold _is_leap.
  assert (H4 : (400 * q + z) mod 4 = z mod 4)
    by (rewrite <- (Z.mod_add z (100 * q) 4) by lia; f_equal; ring).
  assert (H100 : (400 * q + z) mod 100 = z mod 100)
    by (rewrite <- (Z.mod_add z (4 * q) 100) by lia; f_equal; ring).
  assert (H400 : (400 * q + z) mod 400 = z mod 400)
    by (rewrite <- (Z.mod_add z q 400) by lia; f_equal; ring).
  by rewrite H4, H100, H400.
Qed.

(** [_ord2ymd]'s [leapyear] is [_is_leap year]: by the period of 400
    years, then on the 400 years of a cycle by computation. *)
Lemma is_leap_coords q c f y :
  0 <= c <= 3 -> 0 <= f <= 24 -> 0 <= y <= 3 ->
  _is_leap (400 * q + 100 * c + 4 * f + y + 1) = (y =? 3) && (negb (f =? 24) || (c =? 3)).
Proof.
  intros Hc Hf Hy.
  replace (400 * q + 100 * c + 4 * f + y + 1) with (400 * q + (100 * c + 4 * f + y + 1)) by ring.
  rewrite is_leap_cycle. apply Bool.eqb_prop.
  assert (H : forallb (fun c => forallb (fun f => forallb (leap_coords_ok c f) (zseq 0 4))
                (zseq 0 25)) (zseq 0 4) = true) by (vm_compute; reflexivity).
  apply (forallb_zseq _ 0 4) with (i := c) in H; [|simpl; lia].
  apply (forallb_zseq _ 0 25) with (i := f) in H; [|simpl; lia].
  apply (forallb_zseq _ 0 4) with (i := y) in H; [done|simpl; lia].
Qed.

Lemma days_before_month_12 year : _days_before_month year 12 = 334 + (if _is_leap year then 1 else 0).
Proof. reflexivity. Qed.

(** ** Theorems *)

Lemma ord2ymd_spec n :
  let '(y, m, d) := _ord2ymd n in _ymd2ord y m d = n /\ 1 <= m <= 12 /\ 1 <= d <= 31.
Proof.
  unfold _ord2ymd, _DI400Y, _DI100Y, _DI4Y.
  pose proof (Z.div_mod (n - 1) 146097 ltac:(lia)). pose proof (Z.mod_pos_bound (n - 1) 146097 ltac:(lia)).
  remember ((n - 1) / 146097) as q eqn:Eq. remember ((n - 1) mod 146097) as r0 eqn:Er0.
  pose proof (Z.div_mod r0 36524 ltac:(lia)). pose proof (Z.mod_pos_bound r0 36524 ltac:(lia)).
  remember (r0 / 36524) as c eqn:Ec. remember (r0 mod 36524) as r1 eqn:Er1.
  pose proof (Z.div_mod r1 1461 ltac:(lia)). pose proof (Z.mod_pos_bound r1 1461 ltac:(lia)).
  remember (r1 / 1461) as f eqn:Ef. remember (r1 mod 1461) as r2 eqn:Er2.
  pose proof (Z.div_mod r2 365 ltac:(lia)). pose proof (Z.mod_pos_bound r2 365 ltac:(lia)).
  remember (r2 / 365) as y eqn:Ey. remember (r2 mod 365) as r eqn:Er.
  clear Eq Er0 Ec Er1 Ef Er2 Ey Er.
  assert (0 <= c <= 4 /\ 0 <= f <= 24 /\ 0 <= y <= 4) by lia.
  unfold _ymd2ord. destruct (Z.eqb_spec y 4), (Z.eqb_spec c 4); simpl.
  1: exfalso; lia.
  1,2: rewrite days_before_month_12.
  1: replace (q * 400 + 1 + (c * 100 + f * 4 + y) - 1) with (400 * q + 100 * c + 4 * f + 3 + 1) by lia.
  2: replace (q * 400 + 1 + (c * 100 + f * 4 + y) - 1) with (400 * q + 100 * 3 + 4 * 24 + 3 + 1) by lia.
  1,2: rewrite days_before_year_coords, is_leap_coords by lia; simpl;
       rewrite ?(proj2 (Z.eqb_neq f 24)) by lia; simpl; lia.
  replace (q * 400 + 1 + (c * 100 + f * 4 + y)) with (400 * q + 100 * c + 4 * f + y + 1) by lia.
  pose proof (month_day_spec ((y =? 3) && (negb (f =? 24) || (c =? 3))) r ltac:(lia)) as Hmd.
  destruct (_month_day r _) as [mo d]. unfold _days_before_month.
  rewrite days_before_year_coords, is_leap_coords by lia. lia.
Qed.

Lemma digit_val_digit k : 0 <= k < 10 -> digit_val (digit k) = Some k.
Proof.
  intros Hk.
  pose proof (forallb_zseq (fun k => match digit_val (digit k) with Some j => j =? k | None => false end)
                0 10 ltac:(vm_compute; reflexivity) k Hk) as H.
  cbv beta in H. destruct (digit_val (digit k)) as [j|]; [|discriminate].
  apply Z.eqb_eq in H. by subst.
Qed.

(** Reading [w] digits gives back the number written, modulo [10^w]. *)
Lemma read_dec_dec w n rest :
  read_dec w (dec w n ++ rest) = Some (n mod 10 ^ Z.of_nat w, rest).
Proof.
  induction w as [|w IH]; [by rewrite Z.mod_1_r|].
  cbn [dec read_dec append]. rewrite digit_val_digit by (apply Z.mod_pos_bound; lia).
  simpl. rewrite IH. simpl. do 2 f_equal.
  rewrite Nat2Z.inj_succ, Z.pow_succ_r, (Z.mul_comm 10 (10 ^ _)), Z.rem_mul_r
    by (lia || apply Z.pow_nonzero; lia). ring.
Qed.

Lemma read_dec_dec_end w n : read_dec w (dec w n) = Some (n mod 10 ^ Z.of_nat w, EmptyString).
Proof.
  rewrite <- (read_dec_dec w n EmptyString). f_equal.
  induction (dec w n) as [|c s IH]; simpl; congruence.
Qed.

Lemma read_dec_bind {A} w n rest (f : Z * string -> option A) :
  (read_dec w (dec w n ++ rest) ≫= f) = f (n mod 10 ^ Z.of_nat w, rest).
Proof. by rewrite read_dec_dec. Qed.

(** The split of a timestamp into date and time is exact. *)
Lemma to_from_timestamp t : to_timestamp (from_timestamp t) = t.
Proof.
  unfold from_timestamp. pose proof (ord2ymd_spec (t / 86400 + EPOCH_ORD)) as H.
  destruct (_ord2ymd _) as [[y m] d]. unfold to_timestamp. simpl. lia_div.
Qed.

(** The stamp [strftime("%Y%m%d_%H%M%S")] writes is 15 characters long
    and parses back to the date-time, for every year of four digits. *)
Theorem stamp_roundtrip t :
  1000 <= year (from_timestamp t) <= 9999 ->
  (String.length (strftime_stamp (from_timestamp t)) = 15)%nat /\
  parse_stamp (strftime_stamp (from_timestamp t)) = Some (from_timestamp t).
Proof.
  unfold from_timestamp. pose proof (ord2ymd_spec (t / 86400 + EPOCH_ORD)) as H.
  destruct (_ord2ymd _) as [[y m] d]. simpl. intros Hy. split.
  { reflexivity. }
  unfold strftime_stamp, parse_stamp. cbn [year month day hour minute second].
  assert (0 <= t mod 86400 / 3600 < 100 /\ 0 <= t mod 86400 mod 3600 / 60 < 100 /\
          0 <= t mod 86400 mod 60 < 100) as (Hh & Hmi & Hs) by lia_div.
  revert Hh Hmi Hs. generalize (t mod 86400 / 3600) (t mod 86400 mod 3600 / 60) (t mod 86400 mod 60).
  intros hh mi ss Hh Hmi Hs.
  rewrite (read_dec_bind 4 y); cbv beta iota. rewrite (read_dec_bind 2 m); cbv beta iota.
  rewrite (read_dec_bind 2 d); cbv beta iota. cbn [append].
  rewrite (read_dec_bind 2 hh); cbv beta iota. rewrite (read_dec_bind 2 mi); cbv beta iota.
  rewrite (read_dec_dec_end 2 ss). simpl.
  rewrite !(Z.mod_small _ (10 ^ _)) by (simpl; lia). reflexivity.
Qed.

End PyDatetime.
