(* ===== verification/Orm.v ===== *)
(** * The data model: the four Odoo models and the database state

    One Module per model of [src/addons/training_event/models/], its
    selection fields as inductive types with the source's keys, and its
    stored columns as a record; a One2many ([module_ids], [session_ids]) is
    not a column: it is the set of rows of the other table that point back
    (see [Event.v] and [Session.v]).  Non-stored computed fields
    ([session_count]) are functions, not columns; stored computed fields
    ([duration_days], [duration_hours], the related [event_id] of a
    session) are columns that the create and write models recompute.

    The database is one list of rows per table, in insertion (id) order,
    with one id counter per table (the Postgres sequences) and the counter
    of the [ir.sequence] that gives event codes.  Dates are day numbers
    ([fields.Date]), date-times are seconds ([fields.Datetime] keeps no
    microseconds; it is naive UTC).

    The class [OrmRecord] is the interface every model offers the generic
    table operations ([browse], [search] with the ORM's implicit
    [active = True] filter, [update_row]) and their lemmas. *)

From Stdlib Require Import ZArith String List.
From stdpp Require Import base list option.
From S2P Require Import Prelude Float64.
Import ListNotations.

Open Scope Z_scope.

Module TrainingEvent.
Inductive EventType := course | workshop | seminar | conference.
Inductive State := draft | programmed | designed | in_progress | in_review | closed.

Record t := mk {
  id : Z; name : string; code : string; event_type : EventType;
  date_start : Z; date_end : Z; duration_days : Z; state : State;
  notes : option string; participant_ids : list Z; active : bool }.
End TrainingEvent.

Module TrainingModule.
Record t := mk {
  id : Z; name : string; description : option string; notes : option string;
  event_id : Z; sequence : Z; active : bool }.
End TrainingModule.

Module TrainingSession.
Inductive State := idea | designed | closed.

Record t := mk {
  id : Z; name : string; module_id : Z; event_id : Z;
  date_start : Z; date_end : Z; duration_hours : float64;
  description : option string; materials : option string;
  attachment_ids : list Z; trainer_ids : list Z; state : State;
  notes : option string; sequence : Z; active : bool }.
End TrainingSession.

Module TrainingParticipant.
Inductive Role := student | trainer.

Record t := mk {
  id : Z; partner_id : Z; role : Role; user_id : option Z;
  notes : option string; active : bool }.
End TrainingParticipant.

#[export] Instance event_type_eq_dec : EqDecision TrainingEvent.EventType.
Proof. solve_decision. Defined.
#[export] Instance event_state_eq_dec : EqDecision TrainingEvent.State.
Proof. solve_decision. Defined.
#[export] Instance session_state_eq_dec : EqDecision TrainingSession.State.
Proof. solve_decision. Defined.
#[export] Instance role_eq_dec : EqDecision TrainingParticipant.Role.
Proof. solve_decision. Defined.

(** The error taxonomy: [odoo.exceptions.ValidationError] with the message
    the code formats, a Postgres integrity error naming the constraint, and
    the ORM's [MissingError] for a write on a deleted record. *)
Inductive message :=
| EventDatesMsg
| SessionDatesMsg
| OverlapMsg (name : string) (start stop : Z)
| TrainerNeedsUserMsg
| StudentHasUserMsg
| CloneDatesMsg
| CloneDurationMsg (new old : Z).

Inductive error :=
| ValidationError (m : message)
| IntegrityError (constraint : string)
| MissingError (id : Z).

Record db := mkdb {
  events : list TrainingEvent.t;
  modules : list TrainingModule.t;
  sessions : list TrainingSession.t;
  participants : list TrainingParticipant.t;
  next_event_id : Z; next_module_id : Z;
  next_session_id : Z; next_participant_id : Z;
  event_code_next : Z }.

Definition empty_db : db := mkdb [] [] [] [] 1 1 1 1 1.

(** ** The generic ORM interface *)

Class OrmRecord (A : Type) := {
  rec_id : A -> Z;
  rec_active : A -> bool }.

#[export] Instance event_record : OrmRecord TrainingEvent.t :=
  { rec_id := TrainingEvent.id; rec_active := TrainingEvent.active }.
#[export] Instance module_record : OrmRecord TrainingModule.t :=
  { rec_id := TrainingModule.id; rec_active := TrainingModule.active }.
#[export] Instance session_record : OrmRecord TrainingSession.t :=
  { rec_id := TrainingSession.id; rec_active := TrainingSession.active }.
#[export] Instance participant_record : OrmRecord TrainingParticipant.t :=
  { rec_id := TrainingParticipant.id; rec_active := TrainingParticipant.active }.

Section Table.
Context {A : Type} `{OrmRecord A}.

(** [env[model].browse(i)] on an existing row. *)
Definition browse (tbl : list A) (i : Z) : option A :=
  List.find (fun r => rec_id r =? i) tbl.

(** [search(domain)]: rows that satisfy the domain, with the implicit
    [('active', '=', True)] of models that have an [active] field. *)
Definition search (dom : A -> bool) (tbl : list A) : list A :=
  List.filter (fun r => rec_active r && dom r) tbl.

(** The [UPDATE] of one row, by id. *)
Definition update_row (r : A) (tbl : list A) : list A :=
  map (fun x => if rec_id x =? rec_id r then r else x) tbl.

(** A table is well formed when its ids are distinct and below the
    table's sequence. *)
Definition table_wf (tbl : list A) (next : Z) : Prop :=
  NoDup (map rec_id tbl) /\ Forall (fun r => 0 < rec_id r < next) tbl.

(** The other rows of the table, by id. *)
Definition others (i : Z) (tbl : list A) : list A :=
  List.filter (fun x => negb (rec_id x =? i)) tbl.

Lemma browse_In tbl i r : browse tbl i = Some r -> In r tbl /\ rec_id r = i.
Proof.
  unfold browse. intros Hf. split; [by eapply find_some|].
  apply find_some in Hf as [_ Hf]. by apply Z.eqb_eq.
Qed.

Lemma browse_None tbl i r : browse tbl i = None -> In r tbl -> rec_id r <> i.
Proof.
  unfold browse. intros Hf Hin Heq. eapply find_none in Hf; [|exact Hin].
  rewrite Heq, Z.eqb_refl in Hf. discriminate.
Qed.

Lemma browse_in_ids tbl i : In i (map rec_id tbl) -> exists r, browse tbl i = Some r.
Proof.
  intros Hi. destruct (browse tbl i) as [r|] eqn:E; [by exists r|].
  apply in_map_iff in Hi as (r & Hr & Hin). by destruct (browse_None tbl i r E Hin).
Qed.

Lemma In_search dom tbl r :
  In r (search dom tbl) <-> In r tbl /\ rec_active r = true /\ dom r = true.
Proof. unfold search. rewrite filter_In, andb_true_iff. tauto. Qed.

Lemma table_wf_snoc tbl next r :
  table_wf tbl next -> rec_id r = next -> 0 < next ->
  table_wf (tbl ++ [r]) (next + 1).
Proof.
  intros [Hnd Hb] Hid Hpos. split.
  - rewrite map_app. apply list.NoDup_app. split; [done|].
    split; [|apply NoDup_singleton].
    intros x Hx. rewrite list_elem_of_In in Hx. apply in_map_iff in Hx as (y & <- & Hy).
    rewrite Forall_forall in Hb. specialize (Hb y Hy). simpl.
    rewrite list_elem_of_singleton. lia.
  - apply Forall_app. split; [|constructor; [lia|constructor]].
    eapply Forall_impl; [|exact Hb]. simpl. lia.
Qed.

(** Appending a row whose id is at or above the sequence, and moving the
    sequence past it. *)
Lemma table_wf_snoc_above tbl next next' r :
  table_wf tbl next -> 0 < next -> next <= rec_id r < next' -> table_wf (tbl ++ [r]) next'.
Proof.
  intros [Hnd Hb] Hpos Hr. split.
  - rewrite map_app. apply list.NoDup_app. split; [done|].
    split; [|apply NoDup_singleton].
    intros x Hx. rewrite list_elem_of_In in Hx. apply in_map_iff in Hx as (y & <- & Hy).
    rewrite Forall_forall in Hb. specialize (Hb y Hy). simpl.
    rewrite list_elem_of_singleton. lia.
  - apply Forall_app. split; [|constructor; [lia|constructor]].
    eapply Forall_impl; [|exact Hb]. simpl. lia.
Qed.

Lemma map_id_update_row r tbl : map rec_id (update_row r tbl) = map rec_id tbl.
Proof.
  induction tbl as [|x tbl IH]; simpl; [done|].
  destruct (Z.eqb_spec (rec_id x) (rec_id r)); simpl; congruence.
Qed.

Lemma In_update_row r tbl x :
  In x (update_row r tbl) -> x = r \/ (In x tbl /\ rec_id x <> rec_id r).
Proof.
  unfold update_row. rewrite in_map_iff. intros (y & <- & Hy).
  destruct (Z.eqb_spec (rec_id y) (rec_id r)); auto.
Qed.
Lemma update_row_notin r tbl :
  (forall x, In x tbl -> rec_id x <> rec_id r) -> update_row r tbl = tbl.
Proof.
  induction tbl as [|x tbl IH]; intros Hn; simpl; [done|].
  destruct (Z.eqb_spec (rec_id x) (rec_id r)) as [He|_].
  - exfalso. by apply (Hn x); [left|].
  - f_equal. apply IH. intros y Hy. apply Hn. by right.
Qed.

(** Updating the row [r] of a table with distinct ids by a row [r'] with
    the same id leaves unchanged every column on which [r] and [r'] agree. *)
Lemma map_update_row_same {B} (f : A -> B) r r' tbl :
  NoDup (map rec_id tbl) -> In r tbl -> rec_id r' = rec_id r -> f r' = f r ->
  map f (update_row r' tbl) = map f tbl.
Proof.
  induction tbl as [|x tbl IH]; intros Hnd Hin Hid Hf; [done|].
  simpl in Hnd. apply list.NoDup_cons in Hnd as [Hx Hnd]. simpl.
  destruct (Z.eqb_spec (rec_id x) (rec_id r')) as [He|Hne].
  - destruct Hin as [<-|Hin].
    + f_equal; [done|]. rewrite update_row_notin; [done|].
      intros y Hy Hy'. apply Hx. apply list_elem_of_In, in_map_iff. exists y. split; [congruence|done].
    + exfalso. apply Hx. apply list_elem_of_In, in_map_iff. exists r. split; [congruence|done].
  - destruct Hin as [<-|Hin]; [congruence|]. f_equal. by apply IH.
Qed.

Lemma map_update_row {B} (f : A -> B) r tbl :
  map f (update_row r tbl) = map (fun x => if rec_id x =? rec_id r then f r else f x) tbl.
Proof. unfold update_row. rewrite map_map. apply map_ext. intros x. by destruct (_ =? _). Qed.

Lemma In_update_row_self r r' tbl :
  In r tbl -> rec_id r' = rec_id r -> In r' (update_row r' tbl).
Proof.
  intros Hin Hid. unfold update_row. apply in_map_iff. exists r. split; [|done].
  by rewrite Hid, Z.eqb_refl.
Qed.

Lemma In_update_row_other r x tbl :
  In x tbl -> rec_id x <> rec_id r -> In x (update_row r tbl).
Proof.
  intros Hin Hne. unfold update_row. apply in_map_iff. exists x. split; [|done].
  by rewrite (proj2 (Z.eqb_neq _ _) Hne).
Qed.

Lemma Forall_update_row (P : A -> Prop) r tbl :
  Forall P tbl -> P r -> Forall P (update_row r tbl).
Proof.
  intros Hall Hr. apply Forall_forall. intros x Hx.
  apply In_update_row in Hx as [->|[Hx _]]; [done|]. by eapply Forall_forall in Hall.
Qed.

Lemma table_wf_update_row r r' tbl next :
  table_wf tbl next -> In r tbl -> rec_id r' = rec_id r -> table_wf (update_row r' tbl) next.
Proof.
  intros [Hnd Hb] Hin Hid. split; [by rewrite map_id_update_row|].
  apply Forall_update_row; [done|]. rewrite Hid. by eapply Forall_forall in Hb.
Qed.

Lemma others_notin i tbl : (forall x, In x tbl -> rec_id x <> i) -> others i tbl = tbl.
Proof.
  unfold others. induction tbl as [|x tbl IH]; intros Hn; simpl; [done|].
  destruct (Z.eqb_spec (rec_id x) i) as [He|_]; [exfalso; by apply (Hn x); [left|]|].
  simpl. f_equal. apply IH. intros y Hy. apply Hn. by right.
Qed.

Lemma NoDup_map_others {B} (f : A -> B) i tbl :
  NoDup (map f tbl) -> NoDup (map f (others i tbl)).
Proof. rewrite !NoDup_ListNoDup. apply NoDup_map_filter. Qed.

Lemma Forall_others (P : A -> Prop) i tbl : Forall P tbl -> Forall P (others i tbl).
Proof.
  intros Hall. apply Forall_forall. intros x Hx. apply filter_In in Hx as [Hx _].
  by eapply Forall_forall in Hall.
Qed.

Lemma table_wf_others i tbl next : table_wf tbl next -> table_wf (others i tbl) next.
Proof. intros [Hnd Hb]. split; [by apply NoDup_map_others|by apply Forall_others]. Qed.

(** A column that is a key (distinct over the table) stays a key after an
    update whose new value is not the key of another row. *)
Lemma NoDup_map_update_row {B} (f : A -> B) r tbl :
  NoDup (map rec_id tbl) -> NoDup (map f (others (rec_id r) tbl)) ->
  f r ∉ map f (others (rec_id r) tbl) -> NoDup (map f (update_row r tbl)).
Proof.
  unfold others. induction tbl as [|x tbl IH]; simpl; intros Hid Hnd Hr; [constructor|].
  apply list.NoDup_cons in Hid as [Hx Hid].
  destruct (Z.eqb_spec (rec_id x) (rec_id r)) as [He|Hne]; simpl in *.
  - assert (Hn : forall y, In y tbl -> rec_id y <> rec_id r).
    { intros y Hy Hy'. apply Hx. apply list_elem_of_In, in_map_iff. exists y. split; [congruence|done]. }
    rewrite update_row_notin by done. fold (others (rec_id r) tbl) in Hnd, Hr.
    rewrite others_notin in Hnd, Hr by done. by constructor.
  - apply list.NoDup_cons in Hnd as [Hfx Hnd]. rewrite not_elem_of_cons in Hr.
    constructor; [|apply IH; tauto].
    rewrite list_elem_of_In, in_map_iff. intros (y & Hy & Hin).
    apply In_update_row in Hin as [->|[Hin Hne']]; [tauto|].
    apply Hfx, list_elem_of_In, in_map_iff. exists y. split; [done|].
    apply filter_In. split; [done|]. by apply negb_true_iff, Z.eqb_neq.
Qed.

End Table.
