(* ===== verification/SessionModel.v ===== *)
(** * [training.session]: durations, the two constraints, create, write, unlink

    Models [src/addons/training_event/models/training_session.py]:
    [_compute_duration_hours] (a stored compute), the constraints
    [_check_dates] and [_check_overlap], and the ORM operations that run
    them: [create] (insert, then validate the new row), [write] (update,
    then validate the constraints whose fields were written, or whose
    stored related field [event_id] was recomputed), and [unlink].  A
    raise rolls the transaction back, so a failed operation returns [Err]
    and no new database.

    The invariant [no_overlap] says that no two active sessions of the same
    event have overlapping half-open intervals; it is preserved by create,
    by unlink and by every write that does not re-activate a session
    without also re-checking it; [unarchive_breaks_no_overlap] shows the
    remaining case is a real hole.  The Module [Duration] proves that
    [duration_hours] is the nearest hundredth of an hour, as a float
    literal, away from the ties. *)

From Stdlib Require Import ZArith String List Sorted.
From stdpp Require Import base list option.
From S2P Require Import Prelude Float64 Orm.
Import ListNotations.

Open Scope Z_scope.

Module Session.
Import TrainingSession.

(** [delta.total_seconds()] of a [timedelta] of whole seconds: the int
    true division [microseconds / 10**6], correctly rounded, i.e. the
    float nearest to the rational number of seconds. *)
Definition total_seconds (seconds : Z) : float64 := of_Z seconds.

(** [_compute_duration_hours]: [date_start]/[date_end] may be unset
    ([None], Odoo's [False]) on a record being edited. *)
Definition _compute_duration_hours (date_start date_end : option Z) : float64 :=
  match date_start, date_end with
  | Some ds, Some de =>
      if ds <? de then py_round2 (fdiv (total_seconds (de - ds)) (of_Z 3600))
      else fzero
  | _, _ => fzero
  end.

(** [_check_dates]: the end must be strictly after the start. *)
Definition _check_dates (record : t) : result error unit :=
  raise_if (date_end record <=? date_start record) (ValidationError SessionDatesMsg).

(** The [_order] of the model, ["date_start, sequence, name"]; names
    compare by code point (the C collation). *)
Definition order_le (s1 s2 : t) : bool :=
  (date_start s1 <? date_start s2) ||
  ((date_start s1 =? date_start s2) &&
   ((sequence s1 <? sequence s2) ||
    ((sequence s1 =? sequence s2) &&
     match String.compare (name s1) (name s2) with Gt => false | _ => true end))).

(** The domain of [_check_overlap]'s search. *)
Definition overlap_domain (record s : t) : bool :=
  negb (id s =? id record) && (event_id s =? event_id record) &&
  (date_start s <? date_end record) && (date_end s >? date_start record).

(** [self.search(domain, limit=1)]: the first match in [_order]. *)
Definition search_overlap (sessions : list t) (record : t) : option t :=
  head (sort_by order_le (search (overlap_domain record) sessions)).

(** [_check_overlap].  Its guard [date_start and date_end and event_id]
    always holds on a stored row: both dates are required and [event_id]
    is the id (at least 1) of the module's required event. *)
Definition _check_overlap (sessions : list t) (record : t) : result error unit :=
  match search_overlap sessions record with
  | Some o => Err (ValidationError (OverlapMsg (name o) (date_start o) (date_end o)))
  | None => Ok tt
  end.

(** Two sessions overlap when their half-open intervals meet. *)
Definition overlaps (a b : t) : bool :=
  (date_start a <? date_end b) && (date_start b <? date_end a).

(** The values a [create] call gives (the defaults of the fields are
    those of the source: [state = 'idea'], [sequence = 10],
    [active = True]). *)
Record vals := mkvals {
  v_name : string; v_module_id : Z; v_date_start : Z; v_date_end : Z;
  v_description : option string; v_materials : option string;
  v_attachment_ids : list Z; v_trainer_ids : list Z; v_state : State;
  v_notes : option string; v_sequence : Z; v_active : bool }.

Definition default_vals (nm : string) (module : Z) (ds de : Z) : vals :=
  mkvals nm module ds de None None [] [] idea None 10 true.

Definition set_sessions (ss : list t) (next : Z) (d : db) : db :=
  mkdb (events d) (modules d) ss (participants d)
    (next_event_id d) (next_module_id d) next (next_participant_id d)
    (event_code_next d).

(** The row [create] inserts; [event_id] is the related
    [module_id.event_id] and [duration_hours] its stored compute. *)
Definition new_row (sid event : Z) (v : vals) : t :=
  mk sid (v_name v) (v_module_id v) event (v_date_start v) (v_date_end v)
    (_compute_duration_hours (Some (v_date_start v)) (Some (v_date_end v)))
    (v_description v) (v_materials v) (v_attachment_ids v) (v_trainer_ids v)
    (v_state v) (v_notes v) (v_sequence v) (v_active v).

(** [env['training.session'].create(vals)]: the insert (the foreign key
    on [module_id] is checked by Postgres), then the constraints in the
    order Odoo runs them (by method name). *)
Definition create (v : vals) (d : db) : result error (Z * db) :=
  match browse (modules d) (v_module_id v) with
  | None => Err (IntegrityError "training_session_module_id_fkey")
  | Some m =>
      let sid := next_session_id d in
      let row := new_row sid (TrainingModule.event_id m) v in
      let d' := set_sessions (sessions d ++ [row]) (sid + 1) d in
      _ ← _check_dates row;
      _ ← _check_overlap (sessions d') row;
      Ok (sid, d')
  end.

(** The values of a [write] call, for the fields a form or an RPC can
    write ([None]: the field is not in [vals]). *)
Record write_vals := mkwrite {
  w_name : option string; w_module_id : option Z;
  w_date_start : option Z; w_date_end : option Z;
  w_state : option State; w_sequence : option Z;
  w_trainer_ids : option (list Z); w_materials : option (option string);
  w_notes : option (option string); w_active : option bool;
  w_event_id : option Z; w_duration_hours : option float64;
  w_description : option (option string);
  w_attachment_ids : option (list Z) }.

Definition written {A} (o : option A) : bool :=
  match o with Some _ => true | None => false end.

Definition dates_written (w : write_vals) : bool :=
  written (w_date_start w) || written (w_date_end w).

(** The row after the [UPDATE].  A stored computed or related field
    written in [vals] keeps the written value (the ORM protects it from
    its own recompute during the write); otherwise [duration_hours] is
    recomputed when a date it depends on is written, and [event] is the
    related [module_id.event_id] the caller computed. *)
Definition updated_row (r : t) (event : Z) (w : write_vals) : t :=
  let ds := default (date_start r) (w_date_start w) in
  let de := default (date_end r) (w_date_end w) in
  mk (id r) (default (name r) (w_name w)) (default (module_id r) (w_module_id w))
    (default event (w_event_id w)) ds de
    (match w_duration_hours w with
     | Some h => h
     | None => if dates_written w then _compute_duration_hours (Some ds) (Some de)
               else duration_hours r
     end)
    (default (description r) (w_description w))
    (default (materials r) (w_materials w))
    (default (attachment_ids r) (w_attachment_ids w))
    (default (trainer_ids r) (w_trainer_ids w)) (default (state r) (w_state w))
    (default (notes r) (w_notes w)) (default (sequence r) (w_sequence w))
    (default (active r) (w_active w)).

(** The fields of [@api.constrains("date_start", "date_end", "event_id")]
    a write touches: a date, [event_id] itself, or [module_id], whose
    write recomputes the related [event_id]. *)
Definition overlap_rechecked (w : write_vals) : bool :=
  dates_written w || written (w_module_id w) || written (w_event_id w).

(** [session.write(vals)]: the foreign keys of the written many2ones,
    then [_check_dates] when a date is written and [_check_overlap] when
    [overlap_rechecked].  Writing [active] alone triggers neither. *)
Definition write (sid : Z) (w : write_vals) (d : db) : result error db :=
  match browse (sessions d) sid with
  | None => Err (MissingError sid)
  | Some r =>
      ev ← match w_module_id w with
           | None => Ok (event_id r)
           | Some mid =>
               match browse (modules d) mid with
               | None => Err (IntegrityError "training_session_module_id_fkey")
               | Some m => Ok (TrainingModule.event_id m)
               end
           end;
      _ ← match w_event_id w with
          | Some e => match browse (events d) e with
                      | Some _ => Ok tt
                      | None => Err (IntegrityError "training_session_event_id_fkey")
                      end
          | None => Ok tt
          end;
      let r' := updated_row r ev w in
      let ss := update_row r' (sessions d) in
      _ ← (if dates_written w then _check_dates r' else Ok tt);
      _ ← (if overlap_rechecked w then _check_overlap ss r' else Ok tt);
      Ok (set_sessions ss (next_session_id d) d)
  end.

(** The [vals] of the form's archive/unarchive toggle: [active] alone. *)
Definition set_active (b : bool) : write_vals :=
  mkwrite None None None None None None None None None (Some b) None None None None.

(** The [vals] of a direct write of the stored related [event_id]. *)
Definition set_event_id (e : Z) : write_vals :=
  mkwrite None None None None None None None None None None (Some e) None None None.

(** [session.unlink()]. *)
Definition unlink (sid : Z) (d : db) : result error db :=
  match browse (sessions d) sid with
  | None => Err (MissingError sid)
  | Some _ =>
      Ok (set_sessions (List.filter (fun s => negb (id s =? sid)) (sessions d))
            (next_session_id d) d)
  end.

(** ** The scheduling invariant *)

(** No two distinct active sessions of one event overlap. *)
Definition no_overlap (ss : list t) : Prop :=
  forall a b, In a ss -> In b ss -> id a <> id b ->
    active a = true -> active b = true -> event_id a = event_id b ->
    overlaps a b = false.

(** What [_check_overlap] promises: no other active session of the
    record's event overlaps it. *)
Definition no_conflict (ss : list t) (r : t) : Prop :=
  forall b, In b ss -> active b = true -> id b <> id r ->
    event_id b = event_id r -> overlaps r b = false.

(** The session operations a user can run, the unconstrained
    re-activation excepted. *)
Inductive step : db -> db -> Prop :=
| step_create v d sid d' : create v d = Ok (sid, d') -> step d d'
| step_write sid w d d' : write sid w d = Ok d' ->
    (w_active w = Some true -> overlap_rechecked w = true) ->
    step d d'
| step_unlink sid d d' : unlink sid d = Ok d' -> step d d'.

Inductive reachable (d0 : db) : db -> Prop :=
| reach_init : reachable d0 d0
| reach_step d d' : reachable d0 d -> step d d' -> reachable d0 d'.

(** ** Lemmas on the overlap search *)

Lemma overlaps_sym a b : overlaps a b = overlaps b a.
Proof. unfold overlaps. apply andb_comm. Qed.

Lemma overlap_domain_true r b :
  overlap_domain r b = true <->
  id b <> id r /\ event_id b = event_id r /\ overlaps r b = true.
Proof.
  unfold overlap_domain, overlaps. rewrite !andb_true_iff, negb_true_iff', Z.eqb_neq,
    Z.eqb_eq, !Z.ltb_lt, Z.gtb_lt. tauto.
Qed.

Lemma search_overlap_None l r :
  search_overlap l r = None <-> search (overlap_domain r) l = [].
Proof.
  unfold search_overlap. pose proof (length_sort_by order_le (search (overlap_domain r) l)).
  destruct (sort_by _ _), (search _ _); simpl in *; split; congruence.
Qed.

Lemma search_overlap_Some l r o :
  search_overlap l r = Some o -> In o (search (overlap_domain r) l).
Proof.
  unfold search_overlap. intros H. apply (In_sort_by order_le).
  destruct (sort_by _ _); simpl in *; [discriminate|]. injection H as ->. by left.
Qed.

Lemma no_conflict_app_self l r : no_conflict (l ++ [r]) r <-> no_conflict l r.
Proof.
  unfold no_conflict. split; intros H b Hb; [apply H; apply in_or_app; by left|].
  apply in_app_or in Hb as [Hb|[<-|[]]]; [by apply H|]. intros _ Hne. by contradiction.
Qed.

Lemma no_overlap_snoc l r : no_overlap l -> no_conflict l r -> no_overlap (l ++ [r]).
Proof.
  intros Hl Hr a b Ha Hb Hne Haa Hab Hev.
  apply in_app_or in Ha as [Ha|[<-|[]]]; apply in_app_or in Hb as [Hb|[<-|[]]].
  - by apply Hl.
  - rewrite overlaps_sym. apply Hr; auto.
  - apply Hr; auto.
  - by contradiction.
Qed.

Lemma no_overlap_update l r : no_overlap l -> no_conflict (update_row r l) r ->
  no_overlap (update_row r l).
Proof.
  intros Hl Hr a b Ha Hb Hne Haa Hab Hev.
  apply In_update_row in Ha as [->|[Ha Hia]]; apply In_update_row in Hb as [->|[Hb Hib]].
  - by contradiction.
  - apply Hr; auto. apply in_map_iff. exists b.
    simpl in *. by rewrite (proj2 (Z.eqb_neq _ _) Hib).
  - rewrite overlaps_sym. apply Hr; auto. apply in_map_iff. exists a.
    simpl in *. by rewrite (proj2 (Z.eqb_neq _ _) Hia).
  - by apply Hl.
Qed.

Lemma no_overlap_update_inactive l r : no_overlap l -> active r = false ->
  no_overlap (update_row r l).
Proof.
  intros Hl Hr a b Ha Hb Hne Haa Hab Hev.
  apply In_update_row in Ha as [->|[Ha _]]; [congruence|].
  apply In_update_row in Hb as [->|[Hb _]]; [congruence|]. by apply Hl.
Qed.

Lemma no_overlap_filter l f : no_overlap l -> no_overlap (List.filter f l).
Proof.
  intros Hl a b Ha Hb. apply filter_In in Ha as [Ha _], Hb as [Hb _]. by apply Hl.
Qed.

(** A row whose slot (id, event, dates) is unchanged and that was active
    and conflict free stays conflict free after its update. *)
Lemma no_conflict_same_slot l r r' :
  no_overlap l -> In r l -> active r = true -> id r' = id r ->
  event_id r' = event_id r -> date_start r' = date_start r -> date_end r' = date_end r ->
  no_conflict (update_row r' l) r'.
Proof.
  intros Hl Hin Ha Hid Hev Hds Hde b Hb Hab Hne Hevb.
  apply In_update_row in Hb as [->|[Hb _]]; [by contradiction|].
  unfold overlaps in *. rewrite Hds, Hde. fold (overlaps r b).
  apply Hl; auto; congruence.
Qed.

Lemma no_overlap_singleton r : no_overlap [r].
Proof. intros a b [<-|[]] [<-|[]] Hne. by contradiction. Qed.

Lemma check_overlap_sound l r : _check_overlap l r = Ok tt -> no_conflict l r.
Proof.
  unfold _check_overlap. destruct (search_overlap l r) eqn:Hs; [discriminate|]. intros _.
  apply search_overlap_None in Hs.
  intros b Hb Hact Hne Hev. destruct (overlaps r b) eqn:Hov; [|done].
  assert (In b (search (overlap_domain r) l)) as Hin by
    (apply In_search; rewrite overlap_domain_true; auto).
  rewrite Hs in Hin. destruct Hin.
Qed.

Lemma check_overlap_complete l r : no_conflict l r -> _check_overlap l r = Ok tt.
Proof.
  unfold _check_overlap. intros Hnc. destruct (search_overlap l r) as [o|] eqn:Hs; [|done].
  apply search_overlap_Some, In_search in Hs as (Ho & Hact & Hd).
  apply overlap_domain_true in Hd as (Hne & Hev & Hov).
  rewrite (Hnc o Ho Hact Hne Hev) in Hov. discriminate.
Qed.

(** C2 The overlap constraint implements its contract: the linear
    search of [_check_overlap] (with the ORM's implicit [active] filter)
    passes exactly when no other active session of the record's event
    has an interval that meets the record's half-open interval. *)
Theorem check_overlap_ok_iff l r : _check_overlap l r = Ok tt <-> no_conflict l r.
Proof. split; [apply check_overlap_sound|apply check_overlap_complete]. Qed.

Lemma create_ok_inv v d sid d' :
  create v d = Ok (sid, d') ->
  exists m, browse (modules d) (v_module_id v) = Some m /\
    v_date_start v < v_date_end v /\
    no_conflict (sessions d) (new_row (next_session_id d) (TrainingModule.event_id m) v) /\
    sid = next_session_id d /\
    d' = set_sessions (sessions d ++ [new_row (next_session_id d) (TrainingModule.event_id m) v])
           (next_session_id d + 1) d.
Proof.
  unfold create. destruct (browse (modules d) (v_module_id v)) as [m|] eqn:Hm; [|discriminate].
  unfold _check_dates. intros H. inv_ok. zbool. exists m. simpl in *.
  apply check_overlap_sound in Ha0. rewrite no_conflict_app_self in Ha0. auto.
Qed.

Lemma create_ok_intro v d m :
  browse (modules d) (v_module_id v) = Some m -> v_date_start v < v_date_end v ->
  no_conflict (sessions d) (new_row (next_session_id d) (TrainingModule.event_id m) v) ->
  create v d = Ok (next_session_id d,
    set_sessions (sessions d ++ [new_row (next_session_id d) (TrainingModule.event_id m) v])
      (next_session_id d + 1) d).
Proof.
  intros Hm Hlt Hnc. unfold create, _check_dates. rewrite Hm. simpl.
  rewrite (proj2 (Z.leb_gt _ _) Hlt). simpl.
  rewrite check_overlap_complete; [done|]. by apply no_conflict_app_self.
Qed.

(** C1 [create] of a session succeeds exactly when its module exists,
    its end is strictly after its start, and no other active session of
    the module's event overlaps it; it then inserts the row with the
    next id, the module's event and the computed duration, and nothing
    else changes. *)
Theorem create_ok_iff v d sid d' :
  create v d = Ok (sid, d') <->
  exists m, browse (modules d) (v_module_id v) = Some m /\
    v_date_start v < v_date_end v /\
    no_conflict (sessions d) (new_row (next_session_id d) (TrainingModule.event_id m) v) /\
    sid = next_session_id d /\
    d' = set_sessions (sessions d ++ [new_row (next_session_id d) (TrainingModule.event_id m) v])
           (next_session_id d + 1) d.
Proof.
  split; [apply create_ok_inv|].
  intros (m & Hm & Hlt & Hnc & -> & ->). by apply create_ok_intro.
Qed.






(** C27 The error paths of [create]: a missing module is a foreign key
    violation; with an existing module, an end not after the start is
    the dates [ValidationError] (checked first); otherwise a session of
    the same event that overlaps is reported by name and interval. *)
Theorem create_errors v d :
  (browse (modules d) (v_module_id v) = None ->
     create v d = Err (IntegrityError "training_session_module_id_fkey")) /\
  (forall m, browse (modules d) (v_module_id v) = Some m ->
     v_date_end v <= v_date_start v ->
     create v d = Err (ValidationError SessionDatesMsg)) /\
  (forall m b, browse (modules d) (v_module_id v) = Some m ->
     v_date_start v < v_date_end v -> In b (sessions d) -> active b = true ->
     id b <> next_session_id d -> event_id b = TrainingModule.event_id m ->
     v_date_start v < date_end b -> date_start b < v_date_end v ->
     exists o, In o (sessions d) /\ active o = true /\
       event_id o = TrainingModule.event_id m /\
       create v d = Err (ValidationError (OverlapMsg (name o) (date_start o) (date_end o)))).
Proof.
  unfold create. split; [intros ->; done|]. split.
  - intros m -> Hle. unfold _check_dates. simpl.
    destruct (Z.leb_spec (v_date_end v) (v_date_start v)); [done|lia].
  - intros m b -> Hlt Hb Hact Hne Hev H1 H2. unfold _check_dates. simpl.
    destruct (Z.leb_spec (v_date_end v) (v_date_start v)); [lia|]. simpl.
    set (row := new_row _ _ v).
    destruct (_check_overlap (sessions d ++ [row]) row) as [[]|e] eqn:Hc.
    + exfalso. apply check_overlap_sound in Hc. rewrite no_conflict_app_self in Hc.
      assert (overlaps row b = true) as Hov by
        (unfold overlaps; simpl; apply andb_true_iff; split; apply Z.ltb_lt; lia).
      rewrite Hc in Hov; [discriminate|auto..].
    + unfold _check_overlap in Hc.
      destruct (search_overlap _ row) as [o|] eqn:Hs; [|discriminate].
      injection Hc as <-. apply search_overlap_Some, In_search in Hs as (Ho & Hao & Hd).
      apply overlap_domain_true in Hd as (Hne' & Hev' & _).
      apply in_app_or in Ho as [Ho|[<-|[]]]; [|by contradiction].
      exists o. simpl in Hev'. auto.
Qed.

(** [create] preserves the scheduling invariant. *)
Lemma create_preserves_no_overlap v d sid d' :
  no_overlap (sessions d) -> create v d = Ok (sid, d') -> no_overlap (sessions d').
Proof.
  intros Hinv Hc. unfold create in Hc. destruct (browse _ _) as [m|]; [|discriminate].
  inv_ok. simpl in *. apply no_overlap_snoc; [done|].
  match goal with H : _check_overlap _ _ = Ok _ |- _ =>
    apply check_overlap_sound in H; by rewrite no_conflict_app_self in H end.
Qed.

(** A [write] keeps the scheduling invariant whenever it does not
    re-activate a session without also re-running the overlap check
    (that is, without writing a date, the event or the module). *)
Lemma write_preserves_no_overlap sid w d d' :
  no_overlap (sessions d) -> write sid w d = Ok d' ->
  (w_active w = Some true -> overlap_rechecked w = true) ->
  no_overlap (sessions d').
Proof.
  intros Hinv Hw Hact. unfold write in Hw.
  destruct (browse (sessions d) sid) as [r|] eqn:Hr; [|discriminate].
  apply browse_In in Hr as [Hin Hid]. inv_ok. simpl.
  destruct (overlap_rechecked w) eqn:Hdw.
  - apply check_overlap_sound in Ha2. by apply no_overlap_update.
  - unfold overlap_rechecked, dates_written in Hdw.
    apply orb_false_iff in Hdw as [Hdw Hew]. apply orb_false_iff in Hdw as [Hdw Hmw].
    apply orb_false_iff in Hdw as [Hds Hde].
    destruct (w_module_id w); [discriminate|]. injection Ha as <-.
    destruct (w_event_id w) eqn:Hev; [discriminate|].
    assert (w_date_start w = None) as E1 by (destruct (w_date_start w); done).
    assert (w_date_end w = None) as E2 by (destruct (w_date_end w); done).
    destruct (active (updated_row r (event_id r) w)) eqn:Hact'.
    + apply no_overlap_update; [done|].
      eapply no_conflict_same_slot; eauto; simpl in *; rewrite ?E1, ?E2, ?Hev; [|done..].
      destruct (w_active w) as [[]|]; simpl in *; auto; try discriminate;
      discriminate (Hact eq_refl).
    + by apply no_overlap_update_inactive.
Qed.

Lemma unlink_preserves_no_overlap sid d d' :
  no_overlap (sessions d) -> unlink sid d = Ok d' -> no_overlap (sessions d').
Proof.
  unfold unlink. intros Hinv Hu. destruct (browse _ _); [|discriminate].
  injection Hu as <-. by apply no_overlap_filter.
Qed.

(** C4 Every database reached from one without overlaps by session
    creates, unlinks and writes (other than a bare re-activation) has no
    two active overlapping sessions in one event. *)
Theorem reachable_no_overlap d0 d :
  no_overlap (sessions d0) -> reachable d0 d -> no_overlap (sessions d).
Proof.
  intros H0 Hr. induction Hr as [|d d' _ IH Hs]; [done|].
  destruct Hs as [v ? sid ? Hc|sid w ? ? Hw Ha|sid ? ? Hu].
  - by eapply create_preserves_no_overlap.
  - by eapply write_preserves_no_overlap.
  - by eapply unlink_preserves_no_overlap.
Qed.
(** C5 Re-activating an archived session runs no constraint, and the
    overlap search skips archived sessions: in any database, writing
    [active = True] alone on a session [a] that overlaps an active
    session [b] of the same event commits, and leaves two active
    overlapping sessions in one event. *)
Theorem unarchive_breaks_no_overlap d a b :
  browse (sessions d) (id a) = Some a -> In b (sessions d) -> id b <> id a ->
  active b = true -> event_id b = event_id a -> overlaps a b = true ->
  exists d', write (id a) (set_active true) d = Ok d' /\ ~ no_overlap (sessions d').
Proof.
  intros Ha Hb Hne Hact Hev Hov. unfold write. rewrite Ha. simpl.
  eexists. split; [reflexivity|]. intros H. simpl in H.
  assert (Hov' : overlaps (updated_row a (event_id a) (set_active true)) b = false).
  { apply H; [eapply In_update_row_self; [exact (proj1 (browse_In _ _ _ Ha))|reflexivity]|by apply In_update_row_other|
              simpl; congruence|done|done|by simpl]. }
  unfold overlaps in *. simpl in Hov'. congruence.
Qed.
End Session.

(** ** The duration calculator against its contract

    The spec (4.1) asks for the hours "rounded to 2 decimal places".  The
    float pipeline of [_compute_duration_hours] gives exactly the float
    literal of the nearest hundredth of an hour whenever that hundredth is
    unique (the duration in seconds is not an odd multiple of 18), for any
    duration below [2^40] seconds (about 34 000 years); at the ties it
    follows the binary error of the quotient. *)

Module Duration.
Import Session.

(** The integer nearest to [s / 36] when [s] is not an odd multiple of
    18 lies within [17/36] of it. *)
Lemma nearest_hundredth s : s mod 36 <> 18 -> Z.abs (36 * ((s + 18) / 36) - s) <= 17.
Proof.
  intros Hs. pose proof (Z.div_mod (s + 18) 36 ltac:(lia)) as Hdm.
  pose proof (Z.mod_pos_bound (s + 18) 36 ltac:(lia)) as Hb.
  destruct (Z.eq_dec ((s + 18) mod 36) 0) as [H0|H0]; [|lia].
  exfalso. apply Hs. symmetry. apply (Z.mod_unique _ _ ((s + 18) / 36 - 1)); lia.
Qed.

(** The rounding step of [round(x, 2)]: if [a / b] is within
    [1800 * u / b] of [s / 3600], with the unit [u] small against [b],
    the hundredths of [a / b] round to the nearest hundredth of
    [s / 3600]. *)
Lemma round2_near s a b u :
  0 < s < 2 ^ 40 -> s mod 36 <> 18 -> 0 < b -> 0 < u ->
  2 * Z.abs (3600 * a - s * b) <= 3600 * u -> 2 ^ 52 * u <= a ->
  rhe (a * 100) b = (s + 18) / 36.
Proof.
  intros Hs Hm Hb Hu Herr Hlow. apply rhe_near; [lia|].
  pose proof (nearest_hundredth s Hm) as Hk. set (K := (s + 18) / 36) in *.
  assert (Z.abs (36 * K * b - s * b) <= 17 * b).
  { rewrite <- Z.mul_sub_distr_r, Z.abs_mul, (Z.abs_eq b) by lia. nia. }
  assert (s * b < 2 ^ 40 * b) by nia.
  lia.
Qed.

(** C6 Spec 4.1 and 8, property 2, for durations in whole seconds:
    when a session lasts [s] seconds, [0 < s < 2^40], and [s / 36] (the
    duration in hundredths of an hour) is not exactly halfway between two
    integers, the stored [duration_hours] is the float literal of the
    nearest hundredth of an hour, whatever the start. *)
Theorem duration_hours_nearest ds s :
  0 < s < 2 ^ 40 -> s mod 36 <> 18 ->
  _compute_duration_hours (Some ds) (Some (ds + s)) = lit ((s + 18) / 36) 100.
Proof.
  intros Hs Hm. unfold _compute_duration_hours, total_seconds.
  rewrite (proj2 (Z.ltb_lt ds (ds + s))) by lia. replace (ds + s - ds) with s by lia.
  pose proof (of_Z_exact s ltac:(lia)) as Hs1. pose proof (of_Z_exact 3600 ltac:(lia)) as H36.
  unfold fdiv. destruct (to_q (of_Z s)) as [a1 b1], (to_q (of_Z 3600)) as [a2 b2].
  destruct Hs1 as [Hb1 ->], H36 as [Hb2 ->].
  rewrite (proj2 (Z.ltb_ge (3600 * b2) 0)) by lia. unfold round_q.
  rewrite (proj2 (Z.eqb_neq _ 0)), (proj2 (Z.ltb_ge _ 0)) by nia.
  pose proof (round_pos_spec (s * b1 * b2) (b1 * (3600 * b2)) ltac:(nia) ltac:(nia)) as Hspec.
  unfold py_round2. destruct (to_q (round_pos _ _)) as [a b].
  destruct Hspec as (k & Hk & _ & Hb & Herr & Hlow).
  pose proof (Z.pow_pos_nonneg 2 k ltac:(lia) Hk).
  unfold lit. f_equal. apply (round2_near s a b (2 ^ k)); try lia.
  replace (a * (b1 * (3600 * b2)) - s * b1 * b2 * b) with ((b1 * b2) * (3600 * a - s * b))
    in Herr by ring.
  rewrite Z.abs_mul, (Z.abs_eq (b1 * b2)) in Herr by nia. nia.
Qed.


(** Spec 8, property 2: a session of 90 minutes lasts 1.5 hours. *)
Lemma duration_hours_nearest_witness :
  _compute_duration_hours (Some 72000) (Some (72000 + 5400)) = lit 15 10.
Proof.
  rewrite (duration_hours_nearest 72000 5400); [vm_compute; reflexivity|lia|discriminate].
Defined.

End Duration.

(** ** Concrete runs: the unit tests of [tests/test_training_session.py]
    and the re-activation hole *)

Module SessionDemo.
Import Session.

Definition demo_event : TrainingEvent.t :=
  TrainingEvent.mk 1 "Evento" "EVT/0001" TrainingEvent.course 20000 20000 1
    TrainingEvent.draft None [] true.

Definition demo_module : TrainingModule.t :=
  TrainingModule.mk 1 "Modulo" None None 1 10 true.

Definition demo_db : db := mkdb [demo_event] [demo_module] [] [] 2 2 1 1 2.

(** The date-time [h] hours after midnight of day 20000. *)
Definition at_hour (h : Z) : Z := 20000 * 86400 + h * 3600.

Definition rename (nm : string) : write_vals :=
  mkwrite (Some nm) None None None None None None None None None None None None None.

Definition session_a : vals := default_vals "Sessione A" 1 (at_hour 9) (at_hour 11).
Definition session_b : vals := default_vals "Sessione B" 1 (at_hour 10) (at_hour 12).

(** Create A, archive it, create B over A's slot. *)
Definition before_unarchive : db :=
  match p1 ← create session_a demo_db;
        d2 ← write (fst p1) (set_active false) (snd p1);
        create session_b d2 with
  | Ok (_, d) => d
  | Err _ => demo_db
  end.

Definition row_a : TrainingSession.t := nth 0 (sessions before_unarchive) (new_row 1 1 session_a).
Definition row_b : TrainingSession.t := nth 1 (sessions before_unarchive) (new_row 2 1 session_b).

(** Re-activating A then commits and breaks [no_overlap]. *)
Lemma unarchive_breaks_no_overlap_witness :
  exists d', write 1 (set_active true) before_unarchive = Ok d' /\ ~ no_overlap (sessions d').
Proof.
  exact (unarchive_breaks_no_overlap before_unarchive row_a row_b
    ltac:(vm_compute; reflexivity) ltac:(vm_compute; tauto) ltac:(vm_compute; discriminate)
    ltac:(vm_compute; reflexivity) ltac:(vm_compute; reflexivity) ltac:(vm_compute; reflexivity)).
Defined.



(** The database after [create session_a demo_db]. *)
Definition db_with_a : db := set_sessions [new_row 1 1 session_a] 2 demo_db.

Example create_session_a : create session_a demo_db = Ok (1, db_with_a).
Proof. vm_compute. reflexivity. Qed.

Lemma create_errors_witness :
  exists o, create session_b db_with_a = Err (ValidationError (OverlapMsg
    (TrainingSession.name o) (TrainingSession.date_start o) (TrainingSession.date_end o))).
Proof.
  destruct (proj2 (proj2 (create_errors session_b db_with_a)) demo_module
    (new_row 1 1 session_a)) as (o & _ & _ & _ & Ho);
    [vm_compute; reflexivity | vm_compute; reflexivity | simpl; auto
    | reflexivity | vm_compute; discriminate | reflexivity
    | vm_compute; reflexivity | vm_compute; reflexivity |].
  exists o. exact Ho.
Defined.

Lemma reachable_no_overlap_witness : no_overlap (sessions db_with_a).
Proof.
  apply (reachable_no_overlap demo_db db_with_a); [intros a b []|].
  eapply reach_step; [apply reach_init | eapply step_create; exact create_session_a].
Defined.
End SessionDemo.
