(* ===== verification/ModuleModel.v ===== *)
(** * [training.module]: its sessions, its session count, create and unlink

    Models [src/addons/training_event/models/training_module.py]: the
    One2many [session_ids] (the active sessions whose [module_id] is the
    module, in the session model's [_order]), the non-stored compute
    [_compute_session_count], [create] (the foreign key on the required
    [event_id]) and [unlink], which cascades to the module's sessions
    ([ondelete="cascade"] on [training.session.module_id]). *)

From Stdlib Require Import ZArith String List.
From stdpp Require Import base list option.
From S2P Require Import Prelude Float64 Orm SessionModel.
Import ListNotations.

Open Scope Z_scope.

Module TModule.
Import TrainingModule.

(** [module.session_ids]. *)
Definition session_ids (d : db) (m : t) : list TrainingSession.t :=
  sort_by Session.order_le
    (search (fun s => TrainingSession.module_id s =? id m) (sessions d)).

(** [_compute_session_count]: [len(record.session_ids)]. *)
Definition _compute_session_count (d : db) (m : t) : Z :=
  Z.of_nat (length (session_ids d m)).

(** [a <= b] on names, compared bytewise (the database's C collation). *)
Definition name_le (a b : string) : bool :=
  match String.compare a b with Gt => false | _ => true end.

(** The [_order] of events, ["date_start desc, name"], as a strict and a
    non-strict comparison of the event rows' keys. *)
Definition event_lt (e1 e2 : TrainingEvent.t) : bool :=
  (TrainingEvent.date_start e2 <? TrainingEvent.date_start e1) ||
  ((TrainingEvent.date_start e1 =? TrainingEvent.date_start e2) &&
   negb (name_le (TrainingEvent.name e2) (TrainingEvent.name e1))).

Definition event_eqv (e1 e2 : TrainingEvent.t) : bool :=
  (TrainingEvent.date_start e1 =? TrainingEvent.date_start e2) &&
  String.eqb (TrainingEvent.name e1) (TrainingEvent.name e2).

(** The [_order] of the model, ["event_id, sequence, name"]: the
    many2one [event_id] sorts by the events' own [_order]. *)
Definition order_le (d : db) (m1 m2 : t) : bool :=
  let ev m := browse (events d) (event_id m) in
  let tail := (sequence m1 <? sequence m2) ||
              ((sequence m1 =? sequence m2) && name_le (name m1) (name m2)) in
  match ev m1, ev m2 with
  | Some e1, Some e2 => event_lt e1 e2 || (event_eqv e1 e2 && tail)
  | _, _ => tail
  end.

Record vals := mkvals {
  v_name : string; v_description : option string; v_notes : option string;
  v_event_id : Z; v_sequence : Z; v_active : bool }.

Definition default_vals (nm : string) (event : Z) : vals :=
  mkvals nm None None event 10 true.

Definition set_modules (ms : list t) (next : Z) (d : db) : db :=
  mkdb (events d) ms (sessions d) (participants d)
    (next_event_id d) next (next_session_id d) (next_participant_id d)
    (event_code_next d).

(** [env['training.module'].create(vals)]. *)
Definition create (v : vals) (d : db) : result error (Z * db) :=
  match browse (events d) (v_event_id v) with
  | None => Err (IntegrityError "training_module_event_id_fkey")
  | Some _ =>
      let mid := next_module_id d in
      let row := mk mid (v_name v) (v_description v) (v_notes v) (v_event_id v)
                   (v_sequence v) (v_active v) in
      Ok (mid, set_modules (modules d ++ [row]) (mid + 1) d)
  end.

(** [module.unlink()]: the rows of the module and, by the cascade, of its
    sessions (archived ones included) are deleted. *)
Definition unlink (mid : Z) (d : db) : result error db :=
  match browse (modules d) mid with
  | None => Err (MissingError mid)
  | Some _ =>
      Ok (mkdb (events d) (List.filter (fun m => negb (id m =? mid)) (modules d))
            (List.filter (fun s => negb (TrainingSession.module_id s =? mid)) (sessions d))
            (participants d) (next_event_id d) (next_module_id d)
            (next_session_id d) (next_participant_id d) (event_code_next d))
  end.

(** A session row after the recompute of its stored related field
    [event_id] ([related="module_id.event_id"]). *)
Definition set_event (ev : Z) (s : TrainingSession.t) : TrainingSession.t :=
  TrainingSession.mk (TrainingSession.id s) (TrainingSession.name s)
    (TrainingSession.module_id s) ev (TrainingSession.date_start s)
    (TrainingSession.date_end s) (TrainingSession.duration_hours s)
    (TrainingSession.description s) (TrainingSession.materials s)
    (TrainingSession.attachment_ids s) (TrainingSession.trainer_ids s)
    (TrainingSession.state s) (TrainingSession.notes s)
    (TrainingSession.sequence s) (TrainingSession.active s).

(** The recompute reaches every session of the module, archived ones
    included: the ORM finds the dependent records without the [active]
    filter. *)
Definition recompute_event (mid ev : Z) (ss : list TrainingSession.t) : list TrainingSession.t :=
  map (fun s => if TrainingSession.module_id s =? mid then set_event ev s else s) ss.

(** [_check_overlap] on the recomputed recordset: [for record in self],
    the first record that fails raises. *)
Fixpoint check_overlap_all (ss rs : list TrainingSession.t) : result error unit :=
  match rs with
  | [] => Ok tt
  | r :: rs' => _ ← Session._check_overlap ss r; check_overlap_all ss rs'
  end.

Record write_vals := mkwrite {
  w_name : option string; w_description : option (option string);
  w_notes : option (option string); w_event_id : option Z;
  w_sequence : option Z; w_active : option bool }.

Definition updated_row (m : t) (w : write_vals) : t :=
  mk (id m) (default (name m) (w_name w)) (default (description m) (w_description w))
    (default (notes m) (w_notes w)) (default (event_id m) (w_event_id w))
    (default (sequence m) (w_sequence w)) (default (active m) (w_active w)).

(** [module.write(vals)]: writing [event_id] (checked by its foreign key)
    recomputes the stored [event_id] of the module's sessions, which runs
    their constraint [_check_overlap] (its fields include [event_id]) on
    the database where all of them have moved.  The other fields trigger
    nothing; archiving a module does not archive its sessions. *)
Definition write (mid : Z) (w : write_vals) (d : db) : result error db :=
  match browse (modules d) mid with
  | None => Err (MissingError mid)
  | Some m =>
      let ms := update_row (updated_row m w) (modules d) in
      match w_event_id w with
      | None => Ok (set_modules ms (next_module_id d) d)
      | Some ev =>
          match browse (events d) ev with
          | None => Err (IntegrityError "training_module_event_id_fkey")
          | Some _ =>
              let ss := recompute_event mid ev (sessions d) in
              _ ← check_overlap_all ss
                    (List.filter (fun s => TrainingSession.module_id s =? mid) ss);
              Ok (mkdb (events d) ms ss (participants d) (next_event_id d)
                    (next_module_id d) (next_session_id d) (next_participant_id d)
                    (event_code_next d))
          end
      end
  end.

(** ** Lemmas *)

Lemma In_session_ids d m s :
  In s (session_ids d m) <->
  In s (sessions d) /\ TrainingSession.active s = true /\ TrainingSession.module_id s = id m.
Proof.
  unfold session_ids. rewrite In_sort_by, In_search, Z.eqb_eq. done.
Qed.

Lemma session_count_filter d m :
  _compute_session_count d m =
  Z.of_nat (length (List.filter (fun s => TrainingSession.active s &&
                      (TrainingSession.module_id s =? id m)) (sessions d))).
Proof. unfold _compute_session_count, session_ids. by rewrite length_sort_by. Qed.
Lemma check_overlap_all_ok ss rs :
  check_overlap_all ss rs = Ok tt -> Forall (Session.no_conflict ss) rs.
Proof.
  induction rs as [|r rs IH]; simpl; intros H; [constructor|]. inv_ok.
  constructor; [by apply Session.check_overlap_sound|auto].
Qed.

Lemma In_recompute_event mid ev ss s :
  In s (recompute_event mid ev ss) ->
  (TrainingSession.module_id s = mid /\ In s (recompute_event mid ev ss)) \/
  (TrainingSession.module_id s <> mid /\ In s ss).
Proof.
  intros Hin. pose proof Hin as Hin'. unfold recompute_event in Hin.
  apply in_map_iff in Hin as (s0 & <- & Hs0).
  destruct (Z.eqb_spec (TrainingSession.module_id s0) mid); [left|right]; auto.
Qed.

Lemma check_overlap_all_complete ss rs :
  Forall (Session.no_conflict ss) rs -> check_overlap_all ss rs = Ok tt.
Proof.
  induction 1 as [|r rs Hr _ IH]; simpl; [done|].
  by rewrite Session.check_overlap_complete.
Qed.

(** C11 Moving a module (a [write] of its [event_id] to an existing
    event) commits exactly when every session of the module, archived
    ones included, has no conflict with the active sessions of the
    database where the module's sessions have all moved; when it
    commits, every session of the module, archived or not, carries the
    new event in its stored [event_id]. *)
Theorem module_move_spec mid w d m ev :
  browse (modules d) mid = Some m -> w_event_id w = Some ev -> is_Some (browse (events d) ev) ->
  let ss := recompute_event mid ev (sessions d) in
  (is_ok (write mid w d) = true <->
     Forall (Session.no_conflict ss) (List.filter (fun s => TrainingSession.module_id s =? mid) ss)) /\
  (forall d', write mid w d = Ok d' ->
     forall s, In s (sessions d') -> TrainingSession.module_id s = mid ->
       TrainingSession.event_id s = ev).
Proof.
  intros Hm Hw [e He] ss. subst ss. unfold write. rewrite Hm, Hw, He. split.
  - destruct (check_overlap_all _ _) as [[]|err] eqn:Hc; simpl; split; try done.
    + intros _. by apply check_overlap_all_ok.
    + intros H%check_overlap_all_complete. congruence.
  - intros d' H. inv_ok. intros s Hs Hms. simpl in Hs. unfold recompute_event in Hs.
    apply in_map_iff in Hs as (s0 & Hs0 & _).
    destruct (Z.eqb_spec (TrainingSession.module_id s0) mid) as [E|E]; subst s; [done|].
    congruence.
Qed.

(** Moving a module to another event keeps the scheduling invariant:
    every session of the module is re-checked against the sessions of
    its new event, so a [write] that commits leaves no two active
    sessions of one event overlapping. *)
Lemma module_write_preserves_no_overlap mid w d d' :
  Session.no_overlap (sessions d) -> write mid w d = Ok d' ->
  Session.no_overlap (sessions d').
Proof.
  intros Hinv. unfold write. destruct (browse _ mid); [|discriminate].
  destruct (w_event_id w) as [ev|]; [|intros [= <-]; exact Hinv].
  destruct (browse _ ev); [|discriminate]. intros H. inv_ok. simpl.
  apply check_overlap_all_ok in Ha. rewrite Forall_forall in Ha.
  intros a b Ha' Hb' Hne Haa Hab Hev.
  destruct (In_recompute_event _ _ _ _ Ha') as [[Hma _]|[Hma Ha0]].
  { apply (Ha a); [apply filter_In; split; [done|by apply Z.eqb_eq]|done..]. }
  destruct (In_recompute_event _ _ _ _ Hb') as [[Hmb _]|[Hmb Hb0]].
  { rewrite Session.overlaps_sym.
    apply (Ha b); [apply filter_In; split; [done|by apply Z.eqb_eq]|done..]. }
  by apply Hinv.
Qed.
End TModule.

(** ** Examples *)

Module ModuleDemo.
Import TModule SessionDemo.

Definition event_2 : TrainingEvent.t :=
  TrainingEvent.mk 2 "Evento 2" "EVT/0002" TrainingEvent.course 20000 20000 1
    TrainingEvent.draft None [] true.

Definition module_2 : TrainingModule.t := TrainingModule.mk 2 "Modulo 2" None None 2 10 true.

(** Event 1 holds session A (9:00-11:00) in module 1; event 2 holds, in
    module 2, a session from [h1] to [h2] o'clock. *)
Definition two_events (h1 h2 : Z) : db :=
  mkdb [demo_event; event_2] [demo_module; module_2]
    [Session.new_row 1 1 session_a;
     Session.new_row 2 2 (Session.default_vals "Sessione B" 2 (at_hour h1) (at_hour h2))]
    [] 3 3 3 1 3.

Definition move_to_event_1 : write_vals := mkwrite None None None (Some 1) None None.

(** Moving module 2 into event 1 is refused with the overlap error
    naming session A when module 2's session (10:00-12:00) overlaps A,
    and commits, with the session now in event 1, when it does not
    (14:00-16:00). *)
Theorem move_module_example :
  write 2 move_to_event_1 (two_events 10 12) =
    Err (ValidationError (OverlapMsg "Sessione A" (at_hour 9) (at_hour 11))) /\
  match write 2 move_to_event_1 (two_events 14 16) with
  | Ok d' => map TrainingSession.event_id (sessions d') = [1; 1]
  | Err _ => False
  end.
Proof. vm_compute. split; reflexivity. Qed.

(** Module 2's session (14:00-16:00) moves into event 1 beside A. *)
Lemma module_move_spec_witness :
  is_ok (write 2 move_to_event_1 (two_events 14 16)) = true.
Proof.
  apply (proj2 (proj1 (module_move_spec 2 move_to_event_1 (two_events 14 16) module_2 1
    ltac:(vm_compute; reflexivity) ltac:(reflexivity) ltac:(vm_compute; eexists; reflexivity)))).
  apply check_overlap_all_ok. vm_compute. reflexivity.
Defined.

End ModuleDemo.
