(* ===== verification/EventModel.v ===== *)
(** * [training.event]: durations, dates, session count, create, write, unlink

    Models [src/addons/training_event/models/training_event.py], lines
    1-121 and 290-299: the stored compute [_compute_duration_days], the
    non-stored [_compute_session_count] over [module_ids.session_ids], the
    constraint [_check_dates], the SQL constraint [unique(code)], the code
    default from [ir.sequence], [create], [write] of the stored fields
    (the Many2many [participant_ids] as the rows of its relation, whose
    foreign key refuses a missing participant),
    [unlink] with its cascade to modules and sessions, the defaults that
    [action_clone_event] gives the clone wizard, and
    [_get_calendar_state_colors].  The report of the same file is in
    [Report.v], its Excel export in [ExcelExport.v] and
    [ExportAction.v]. *)

From Stdlib Require Import ZArith String List.
From stdpp Require Import base list option.
From S2P Require Import Prelude Float64 Orm SessionModel ModuleModel.
Import ListNotations.

Open Scope Z_scope.

Module Event.
Import TrainingEvent.

(** [_compute_duration_days]: dates may be unset on a record being
    edited; the range is inclusive. *)
Definition _compute_duration_days (date_start date_end : option Z) : Z :=
  match date_start, date_end with
  | Some ds, Some de => if de >=? ds then (de - ds) + 1 else 0
  | _, _ => 0
  end.

(** [_check_dates]. *)
Definition _check_dates (record : t) : result error unit :=
  raise_if (date_end record <? date_start record) (ValidationError EventDatesMsg).

(** [event.module_ids]: the active modules of the event, in [_order]. *)
Definition module_ids (d : db) (ev : Z) : list TrainingModule.t :=
  sort_by (TModule.order_le d) (search (fun m => TrainingModule.event_id m =? ev) (modules d)).

(** The union [a | b] of two recordsets: [b]'s records not in [a],
    appended in order. *)
Fixpoint rs_union (a b : list TrainingSession.t) : list TrainingSession.t :=
  match b with
  | [] => a
  | s :: b' =>
      rs_union (if existsb (fun x => TrainingSession.id x =? TrainingSession.id s) a
                then a else a ++ [s]) b'
  end.

(** [event.mapped("module_ids.session_ids")]. *)
Definition mapped_session_ids (d : db) (ev : Z) : list TrainingSession.t :=
  fold_left (fun acc m => rs_union acc (TModule.session_ids d m)) (module_ids d ev) [].

(** [_compute_session_count]. *)
Definition _compute_session_count (d : db) (ev : Z) : Z :=
  Z.of_nat (length (mapped_session_ids d ev)).

(** The code [ir.sequence.next_by_code("training.event")] returns: the
    sequence itself is data (XML), not Python; its prefix ["EVT/"] is the
    one the tests check. *)
Fixpoint digits (fuel : nat) (n : Z) : string :=
  match fuel with
  | O => ""
  | S f => (if n <? 10 then "" else digits f (n / 10)) ++
           String (Ascii.ascii_of_nat (48 + Z.to_nat (n mod 10))) EmptyString
  end.

Definition next_by_code (n : Z) : string := "EVT/" ++ digits 20 n.

Record vals := mkvals {
  v_name : string; v_code : option string; v_event_type : EventType;
  v_date_start : Z; v_date_end : Z; v_state : State; v_notes : option string;
  v_participant_ids : list Z; v_active : bool }.

Definition default_vals (nm : string) (ty : EventType) (ds de : Z) : vals :=
  mkvals nm None ty ds de draft None [] true.

Definition set_events (es : list t) (next code_next : Z) (d : db) : db :=
  mkdb es (modules d) (sessions d) (participants d) next (next_module_id d)
    (next_session_id d) (next_participant_id d) code_next.

(** The rows [training_event_participant_rel] holds for an event after
    a [(6, 0, ids)] command: a set of participant ids (the relation's
    primary key is the pair of columns). *)
Definition rel_set (ids : list Z) : list Z := nodup Z.eq_dec ids.

(** The foreign key of the relation's [participant_id] column: every id
    is a row of [training_participant], archived or not. *)
Definition rel_fk_ok (d : db) (ids : list Z) : bool :=
  forallb (fun p => existsb (fun r => TrainingParticipant.id r =? p) (participants d)) ids.

Definition participant_fk_error : error :=
  IntegrityError "training_event_participant_rel_participant_id_fkey".

(** [unique(code)], checked by Postgres on every row, archived or not. *)
Definition code_taken (es : list t) (c : string) : bool :=
  existsb (fun e => String.eqb (code e) c) es.

(** [env['training.event'].create(vals)]: the code default, the insert
    (with the unique constraint), the rows of the [participant_ids]
    relation (with their foreign key), then [_check_dates]. *)
Definition create (v : vals) (d : db) : result error (Z * db) :=
  let '(c, code_next) :=
    match v_code v with
    | Some c => (c, event_code_next d)
    | None => (next_by_code (event_code_next d), event_code_next d + 1)
    end in
  let eid := next_event_id d in
  let row := mk eid (v_name v) c (v_event_type v) (v_date_start v) (v_date_end v)
               (_compute_duration_days (Some (v_date_start v)) (Some (v_date_end v)))
               (v_state v) (v_notes v) (rel_set (v_participant_ids v)) (v_active v) in
  _ ← raise_if (code_taken (events d) c) (IntegrityError "training_event_code_unique");
  _ ← raise_if (negb (rel_fk_ok d (v_participant_ids v))) participant_fk_error;
  _ ← _check_dates row;
  Ok (eid, set_events (events d ++ [row]) (eid + 1) code_next d).

(** The values of [event.write(vals)].  [code] is among them: its
    [readonly=True] is an attribute of the views, which the ORM does not
    enforce on [write]; so is the stored compute [duration_days]. *)
Record write_vals := mkwrite {
  w_name : option string; w_code : option string; w_event_type : option EventType;
  w_date_start : option Z; w_date_end : option Z; w_state : option State;
  w_notes : option (option string); w_participant_ids : option (list Z);
  w_active : option bool; w_duration_days : option Z }.

(** The row after the [UPDATE]: a written [duration_days] is stored as
    written; otherwise it is recomputed when a date is written. *)
Definition updated_row (r : t) (w : write_vals) : t :=
  let ds := default (date_start r) (w_date_start w) in
  let de := default (date_end r) (w_date_end w) in
  mk (id r) (default (name r) (w_name w)) (default (code r) (w_code w))
    (default (event_type r) (w_event_type w)) ds de
    (match w_duration_days w with
     | Some n => n
     | None => if Session.written (w_date_start w) || Session.written (w_date_end w)
               then _compute_duration_days (Some ds) (Some de) else duration_days r
     end)
    (default (state r) (w_state w)) (default (notes r) (w_notes w))
    (default (participant_ids r) (rel_set <$> w_participant_ids w))
    (default (active r) (w_active w)).

(** [event.write(vals)]: a [(6, 0, ids)] on [participant_ids] rewrites
    the relation at once (its foreign key checked); [_check_dates] runs
    when a date is written; the [UPDATE], at the flush, meets the index
    of [unique(code)], which compares the row with every other row. *)
Definition write (eid : Z) (w : write_vals) (d : db) : result error db :=
  match browse (events d) eid with
  | None => Err (MissingError eid)
  | Some r =>
      let r' := updated_row r w in
      _ ← (match w_participant_ids w with
           | Some ids => raise_if (negb (rel_fk_ok d ids)) participant_fk_error
           | None => Ok tt
           end);
      _ ← (if Session.written (w_date_start w) || Session.written (w_date_end w)
           then _check_dates r' else Ok tt);
      _ ← raise_if (code_taken (others eid (events d)) (code r'))
            (IntegrityError "training_event_code_unique");
      Ok (set_events (update_row r' (events d)) (next_event_id d) (event_code_next d) d)
  end.

(** The [vals] of a write of [code] alone, and of [duration_days] alone. *)
Definition recode (c : string) : write_vals :=
  mkwrite None (Some c) None None None None None None None None.
Definition set_duration_days (n : Z) : write_vals :=
  mkwrite None None None None None None None None None (Some n).

(** [event.unlink()]: cascades to its modules and their sessions. *)
Definition unlink (eid : Z) (d : db) : result error db :=
  match browse (events d) eid with
  | None => Err (MissingError eid)
  | Some _ =>
      let gone m := TrainingModule.event_id m =? eid in
      Ok (mkdb (List.filter (fun e => negb (id e =? eid)) (events d))
            (List.filter (fun m => negb (gone m)) (modules d))
            (List.filter (fun s => negb (existsb (fun m => gone m &&
                 (TrainingModule.id m =? TrainingSession.module_id s)) (modules d)))
               (sessions d))
            (participants d) (next_event_id d) (next_module_id d)
            (next_session_id d) (next_participant_id d) (event_code_next d))
  end.

(** [_get_calendar_state_colors]. *)
Definition _get_calendar_state_colors (s : State) : string :=
  match s with
  | draft => "gray" | programmed => "blue" | designed => "light-green"
  | in_progress => "green" | in_review => "orange" | closed => "dark-gray"
  end.

(** ** The event invariant *)

Definition dates_ok (e : t) : Prop :=
  date_start e <= date_end e /\ duration_days e = date_end e - date_start e + 1.

(** Ids are distinct and below the sequence, every event's dates are in
    order with its stored duration, and codes are unique. *)
Definition events_ok (d : db) : Prop :=
  table_wf (events d) (next_event_id d) /\ 0 < next_event_id d /\
  Forall dates_ok (events d) /\ NoDup (map code (events d)).

(** C7 [_compute_duration_days] on set dates is the inclusive day count
    [end - start + 1] when the end is not before the start, and 0
    otherwise; unset dates give 0. *)
Theorem duration_days_spec ds de :
  _compute_duration_days (Some ds) (Some de) = Z.max 0 (de - ds + 1) /\
  _compute_duration_days None (Some de) = 0 /\
  _compute_duration_days (Some ds) None = 0.
Proof.
  unfold _compute_duration_days. rewrite Z.geb_leb.
  destruct (Z.leb_spec ds de); repeat split; lia.
Qed.

Lemma check_dates_ok_iff r : _check_dates r = Ok tt <-> date_start r <= date_end r.
Proof. unfold _check_dates. rewrite raise_if_Ok, Z.ltb_ge. done. Qed.

Lemma code_taken_false es c : code_taken es c = false -> forall e, In e es -> code e <> c.
Proof.
  unfold code_taken. intros H e He Hc.
  assert (existsb (fun e => String.eqb (code e) c) es = true) as Ht.
  { apply existsb_exists. exists e. by rewrite Hc, String.eqb_refl. }
  congruence.
Qed.

Lemma rel_fk_ok_true d ids :
  rel_fk_ok d ids = true -> Forall (fun p => In p (map TrainingParticipant.id (participants d))) ids.
Proof.
  unfold rel_fk_ok. rewrite forallb_forall. intros H. apply Forall_forall. intros p Hp.
  apply H, existsb_exists in Hp as (r & Hr & Hid). apply Z.eqb_eq in Hid as <-.
  by apply in_map.
Qed.

Lemma rel_set_spec ids : List.NoDup (rel_set ids) /\ forall x, In x (rel_set ids) <-> In x ids.
Proof. split; [apply NoDup_nodup|intros x; apply nodup_In]. Qed.

Lemma NoDup_snoc_fresh {B} (l : list B) x :
  NoDup l -> (forall y, In y l -> y <> x) -> NoDup (l ++ [x]).
Proof.
  intros Hnd Hf. apply list.NoDup_app. split; [done|]. split; [|apply NoDup_singleton].
  intros y Hy. rewrite list_elem_of_In in Hy. rewrite list_elem_of_singleton. by apply Hf.
Qed.

(** C28 The error paths of [create]: a code already in the table (archived
    events included) violates [unique(code)]; otherwise a participant id
    that is no row of the participant table violates the relation's
    foreign key; otherwise an end before the start raises the dates
    [ValidationError]; otherwise the event is inserted with the next id,
    the inclusive duration and the participants as a set. *)
Theorem event_create_errors v d :
  let c := default (next_by_code (event_code_next d)) (v_code v) in
  (code_taken (events d) c = true ->
     create v d = Err (IntegrityError "training_event_code_unique")) /\
  (code_taken (events d) c = false -> rel_fk_ok d (v_participant_ids v) = false ->
     create v d = Err participant_fk_error) /\
  (code_taken (events d) c = false -> rel_fk_ok d (v_participant_ids v) = true ->
     v_date_end v < v_date_start v ->
     create v d = Err (ValidationError EventDatesMsg)) /\
  (code_taken (events d) c = false -> rel_fk_ok d (v_participant_ids v) = true ->
     v_date_start v <= v_date_end v ->
     exists d', create v d = Ok (next_event_id d, d') /\
       exists row, events d' = events d ++ [row] /\ code row = c /\
         duration_days row = v_date_end v - v_date_start v + 1 /\
         state row = v_state v /\ participant_ids row = rel_set (v_participant_ids v)).
Proof.
  intros c. subst c. unfold create.
  destruct (v_code v) as [c'|]; simpl; (split; [|split; [|split]]).
  all: try (intros ->; done).
  all: intros -> Hfk; rewrite Hfk; try done; intros Hd; unfold _check_dates; simpl;
    destruct (Z.ltb_spec (v_date_end v) (v_date_start v)); try lia; try done.
  all: eexists; (split; [reflexivity|]); eexists; (split; [reflexivity|]); simpl.
  all: unfold _compute_duration_days; rewrite Z.geb_leb, (proj2 (Z.leb_le _ _) Hd); auto.
Qed.

(** C20 Event [create], and every [write] that does not write the
    stored compute [duration_days] itself, preserve the event invariant:
    dates in order with a consistent stored duration, distinct ids,
    unique codes. *)
Theorem event_ops_preserve_ok d :
  events_ok d ->
  (forall v eid d', create v d = Ok (eid, d') -> events_ok d') /\
  (forall eid w d', w_duration_days w = None -> write eid w d = Ok d' -> events_ok d').
Proof.
  intros (Hwf & Hpos & Hdates & Hcodes). split.
  - intros v eid d' Hc. unfold create in Hc.
    destruct (v_code v) as [c|]; inv_ok; simpl in *.
    all: apply check_dates_ok_iff in Ha1; simpl in Ha1; unfold events_ok; simpl.
    all: split; [apply table_wf_snoc; simpl; auto|]; split; [lia|].
    all: split; [apply Forall_app; split; [done|]; apply Forall_singleton;
                 split; simpl; [done|]; unfold _compute_duration_days;
                 rewrite Z.geb_leb, (proj2 (Z.leb_le _ _) Ha1); done|].
    all: rewrite map_app; apply NoDup_snoc_fresh; [done|].
    all: intros y Hy; apply in_map_iff in Hy as (e & <- & He); by eapply code_taken_false.
  - intros eid w d' Hnd Hw. unfold write in Hw.
    destruct (browse (events d) eid) as [r|] eqn:Hr; [|discriminate].
    apply browse_In in Hr as [Hin Hid]. inv_ok. unfold events_ok. simpl.
    split; [by eapply table_wf_update_row|]. split; [done|]. split.
    + apply Forall_update_row; [done|].
      eapply Forall_forall in Hdates; [|exact Hin]. destruct Hdates as [Hle Hdur].
      unfold dates_ok, updated_row in *. rewrite Hnd.
      destruct (w_date_start w), (w_date_end w); simpl in *; [..|done].
      all: apply check_dates_ok_iff in Ha0; simpl in Ha0; split; [done|].
      all: unfold _compute_duration_days; rewrite Z.geb_leb, (proj2 (Z.leb_le _ _) Ha0); done.
    + apply NoDup_map_update_row; [apply Hwf|by apply NoDup_map_others|].
      rewrite list_elem_of_In, in_map_iff. intros (e & He & Hin').
      by apply (code_taken_false _ _ Ha1 e Hin').
Qed.

(** The unique code of an event is taken by no other event. *)
Lemma code_taken_others_self es r :
  NoDup (map code es) -> In r es -> code_taken (others (id r) es) (code r) = false.
Proof.
  intros Hnd Hin. apply not_true_iff_false. intros Ht.
  apply existsb_exists in Ht as (e & He & Hc). apply String.eqb_eq in Hc.
  apply filter_In in He as [He Hne]. apply negb_true_iff, Z.eqb_neq in Hne.
  apply NoDup_ListNoDup in Hnd. apply Hne. simpl. by rewrite (NoDup_map_eq code es e r Hnd He Hin Hc).
Qed.

(** C19 An event's code is not immutable after creation, contrary to the
    spec: on any existing event, a [write] of [code] alone commits and
    replaces that event's code whenever no other event holds the new code
    (the view's [readonly] does not reach the ORM); when another event
    holds it, [unique(code)] rejects the write. *)
Theorem event_code_rewritable d eid r c :
  browse (events d) eid = Some r ->
  (code_taken (others eid (events d)) c = false ->
     exists d', write eid (recode c) d = Ok d' /\
       map code (events d') = map (fun e => if id e =? eid then c else code e) (events d)) /\
  (code_taken (others eid (events d)) c = true ->
     write eid (recode c) d = Err (IntegrityError "training_event_code_unique")).
Proof.
  intros Hr. pose proof (browse_In _ _ _ Hr) as [_ Hid]. simpl in Hid.
  unfold write. rewrite Hr. simpl. split; intros Hc; rewrite Hc; [|done].
  eexists. split; [reflexivity|]. simpl. rewrite map_update_row. simpl. by rewrite Hid.
Qed.

(** C14 The invariant [events_ok] does not survive a [write] of the
    stored compute [duration_days]: on any event of a database that
    satisfies it, writing a value other than the day count of its dates
    commits, and the database it leaves breaks [events_ok]. *)
Theorem duration_days_write_breaks_ok d eid r n :
  events_ok d -> browse (events d) eid = Some r ->
  n <> date_end r - date_start r + 1 ->
  exists d', write eid (set_duration_days n) d = Ok d' /\ ~ events_ok d'.
Proof.
  intros (Hwf & Hpos & Hdates & Hcodes) Hr Hn.
  pose proof (browse_In _ _ _ Hr) as [Hin Hid]. simpl in Hid.
  unfold write. rewrite Hr. simpl.
  rewrite <- Hid, (code_taken_others_self _ _ Hcodes Hin). simpl.
  eexists. split; [reflexivity|]. intros (_ & _ & Hd' & _). simpl in Hd'.
  eapply Forall_forall in Hd'; [|eapply (In_update_row_self r); [exact Hin|reflexivity]].
  destruct Hd' as [_ Hd']. simpl in Hd'. lia.
Qed.

(** ** The session count *)

Lemma rs_union_app a b :
  List.NoDup (map TrainingSession.id (a ++ b)) -> rs_union a b = a ++ b.
Proof.
  revert a. induction b as [|s b IH]; intros a Hnd; simpl; [by rewrite app_nil_r|].
  assert (existsb (fun x => TrainingSession.id x =? TrainingSession.id s) a = false) as ->.
  { apply not_true_iff_false. intros Ht. apply existsb_exists in Ht as (x & Hx & Hxs).
    apply Z.eqb_eq in Hxs. rewrite map_app in Hnd. simpl in Hnd.
    apply NoDup_remove_2 in Hnd. apply Hnd. apply in_or_app. left.
    apply in_map_iff. by exists x. }
  rewrite IH; [by rewrite <- app_assoc|]. by rewrite <- app_assoc.
Qed.

Lemma fold_rs_union d mods acc :
  List.NoDup (map TrainingSession.id (acc ++ concat (map (TModule.session_ids d) mods))) ->
  fold_left (fun acc m => rs_union acc (TModule.session_ids d m)) mods acc =
  acc ++ concat (map (TModule.session_ids d) mods).
Proof.
  revert acc. induction mods as [|m mods IH]; intros acc Hnd; simpl; [by rewrite app_nil_r|].
  simpl in Hnd. rewrite rs_union_app.
  - rewrite IH; [by rewrite <- app_assoc|]. by rewrite <- app_assoc.
  - rewrite app_assoc, map_app in Hnd. by apply NoDup_app_remove_r in Hnd.
Qed.

(** The sessions of a list of modules with distinct ids are, up to
    order, the active sessions whose module is one of them. *)
Lemma concat_session_ids_perm d mods :
  List.NoDup (map TrainingModule.id mods) ->
  Permutation (concat (map (TModule.session_ids d) mods))
    (List.filter (fun s => TrainingSession.active s &&
       existsb (fun m => TrainingModule.id m =? TrainingSession.module_id s) mods) (sessions d)).
Proof.
  induction mods as [|m mods IH]; intros Hnd; simpl.
  - rewrite (List.filter_ext _ (fun _ => false)); [by rewrite filter_false|].
    intros s. apply andb_false_r.
  - apply NoDup_cons_iff in Hnd as [Hm Hnd].
    rewrite (List.filter_ext _ (fun s =>
      (TrainingSession.active s && (TrainingModule.id m =? TrainingSession.module_id s)) ||
      (TrainingSession.active s &&
        existsb (fun m => TrainingModule.id m =? TrainingSession.module_id s) mods)));
      [|intros s; apply andb_orb_distrib_r].
    rewrite filter_orb_disjoint.
    + apply Permutation_app; [|by apply IH].
      unfold TModule.session_ids, search. rewrite sort_by_Permutation.
      apply Permutation_refl'. apply List.filter_ext. intros s. simpl.
      f_equal. apply Z.eqb_sym.
    + intros s Hs. apply andb_prop in Hs as [Ha Heq]. apply Z.eqb_eq in Heq.
      rewrite Ha. simpl. apply not_true_iff_false. intros Ht.
      apply existsb_exists in Ht as (m' & Hm' & Heq'). apply Z.eqb_eq in Heq'.
      apply Hm. apply in_map_iff. exists m'. split; [congruence|done].
Qed.

Lemma NoDup_map_id_module_ids d ev :
  List.NoDup (map TrainingModule.id (modules d)) ->
  List.NoDup (map TrainingModule.id (module_ids d ev)).
Proof.
  intros Hnd. unfold module_ids.
  apply (Permutation_NoDup (Permutation_map _ (Permutation_sym (sort_by_Permutation _ _)))).
  by apply NoDup_map_filter.
Qed.

(** With distinct ids, [mapped("module_ids.session_ids")] is the plain
    concatenation of the modules' sessions, which are the active sessions
    of the event's active modules. *)
Lemma mapped_session_ids_concat d ev :
  List.NoDup (map TrainingSession.id (sessions d)) ->
  List.NoDup (map TrainingModule.id (modules d)) ->
  mapped_session_ids d ev = concat (map (TModule.session_ids d) (module_ids d ev)) /\
  Permutation (mapped_session_ids d ev)
    (List.filter (fun s => TrainingSession.active s &&
       existsb (fun m => TrainingModule.active m && (TrainingModule.event_id m =? ev) &&
                 (TrainingModule.id m =? TrainingSession.module_id s)) (modules d)) (sessions d)).
Proof.
  intros Hs Hm. pose proof (NoDup_map_id_module_ids d ev Hm) as Hmi.
  pose proof (concat_session_ids_perm d _ Hmi) as Hp.
  assert (List.filter (fun s => TrainingSession.active s &&
       existsb (fun m => TrainingModule.id m =? TrainingSession.module_id s) (module_ids d ev))
       (sessions d) =
     List.filter (fun s => TrainingSession.active s &&
       existsb (fun m => TrainingModule.active m && (TrainingModule.event_id m =? ev) &&
                 (TrainingModule.id m =? TrainingSession.module_id s)) (modules d)) (sessions d))
    as Heq.
  { apply List.filter_ext. intros s. f_equal. unfold module_ids, search.
    rewrite (existsb_Permutation _ _ _ (sort_by_Permutation _ _)), existsb_filter. done. }
  rewrite Heq in Hp. unfold mapped_session_ids.
  rewrite fold_rs_union; simpl; [done|].
  apply (Permutation_NoDup (Permutation_map _ (Permutation_sym Hp))).
  by apply NoDup_map_filter.
Qed.

(** C21 The event's session count counts exactly the active sessions
    whose module is an active module of the event, once each, when the
    session and module ids are distinct (the tables' primary keys). *)
Theorem session_count_spec d ev :
  List.NoDup (map TrainingSession.id (sessions d)) ->
  List.NoDup (map TrainingModule.id (modules d)) ->
  _compute_session_count d ev =
  Z.of_nat (length (List.filter (fun s => TrainingSession.active s &&
    existsb (fun m => TrainingModule.active m && (TrainingModule.event_id m =? ev) &&
                      (TrainingModule.id m =? TrainingSession.module_id s)) (modules d))
    (sessions d))).
Proof.
  intros Hs Hm. destruct (mapped_session_ids_concat d ev Hs Hm) as [_ Hp].
  unfold _compute_session_count. by rewrite (Permutation_length Hp).
Qed.
End Event.

(** ** Concrete runs: [tests/test_training_event.py] and the spec's
    counting example *)

Module EventDemo.
Import Event.

Definition day : Z := 20000.
Definition at_hour (h : Z) : Z := day * 86400 + h * 3600.

(** One event; module 1 with one session, module 2 with two. *)
Definition build : result error db :=
  pe ← create (default_vals "Evento con sessioni" TrainingEvent.seminar day day) empty_db;
  p1 ← TModule.create (TModule.default_vals "Modulo 1" (fst pe)) (snd pe);
  p2 ← TModule.create (TModule.default_vals "Modulo 2" (fst pe)) (snd p1);
  s1 ← Session.create (Session.default_vals "Sessione 1" (fst p1) (at_hour 9) (at_hour 11)) (snd p2);
  s2 ← Session.create (Session.default_vals "Sessione 2" (fst p2) (at_hour 12) (at_hour 13)) (snd s1);
  s3 ← Session.create (Session.default_vals "Sessione 3" (fst p2) (at_hour 14) (at_hour 16)) (snd s2);
  Ok (snd s3).

(** The spec's counting example: an event with two modules holding
    one and two sessions has a session count of 3, and 2 after one of its
    sessions is unlinked; the new event has code [EVT/1], state [draft]
    and a one-day duration. *)
Theorem session_count_example :
  exists d d', build = Ok d /\ Session.unlink 2 d = Ok d' /\
    _compute_session_count d 1 = 3 /\ _compute_session_count d' 1 = 2 /\
    map TrainingEvent.code (events d) = ["EVT/1"%string] /\
    map TrainingEvent.state (events d) = [TrainingEvent.draft] /\
    map TrainingEvent.duration_days (events d) = [1].
Proof.
  eexists; eexists; split; [vm_compute; reflexivity|].
  split; [vm_compute; reflexivity|]. vm_compute. repeat split.
Qed.

Lemma session_count_spec_witness :
  exists d, build = Ok d /\ _compute_session_count d 1 =
  Z.of_nat (length (List.filter (fun s => TrainingSession.active s &&
    existsb (fun m => TrainingModule.active m && (TrainingModule.event_id m =? 1) &&
                      (TrainingModule.id m =? TrainingSession.module_id s)) (modules d))
    (sessions d))).
Proof.
  eexists; split; [vm_compute; reflexivity|].
  apply session_count_spec; vm_compute; repeat constructor; simpl; intuition discriminate.
Defined.

Definition first_event : vals := default_vals "Evento Test" TrainingEvent.course day (day + 2).

Lemma event_create_errors_witness :
  exists d, create first_event empty_db = Ok (1, d) /\
    create (mkvals "Duplicato" (Some "EVT/1"%string) TrainingEvent.course day day
              TrainingEvent.draft None [] true) d =
    Err (IntegrityError "training_event_code_unique").
Proof.
  eexists; split; [vm_compute; reflexivity|].
  apply (event_create_errors (mkvals "Duplicato" (Some "EVT/1"%string) TrainingEvent.course day day
              TrainingEvent.draft None [] true)). vm_compute. reflexivity.
Defined.

Lemma event_ops_preserve_ok_witness :
  exists d, create first_event empty_db = Ok (1, d) /\ events_ok d.
Proof.
  eexists; split; [vm_compute; reflexivity|].
  refine (proj1 (event_ops_preserve_ok empty_db _) first_event 1 _ _).
  - unfold events_ok, table_wf. simpl. repeat split; try constructor; lia.
  - vm_compute. reflexivity.
Defined.
(** The database after the first [create]. *)
Definition demo_db : db :=
  match create first_event empty_db with Ok (_, d) => d | Err _ => empty_db end.

Lemma demo_db_ok : events_ok demo_db.
Proof.
  unfold events_ok, table_wf, dates_ok. vm_compute.
  repeat split; repeat constructor; simpl; try lia; try discriminate; apply not_elem_of_nil.
Qed.

Lemma event_code_rewritable_witness :
  exists d', write 1 (recode "CORSO-2026") demo_db = Ok d' /\
    map TrainingEvent.code (events d') = ["CORSO-2026"%string].
Proof.
  destruct (browse (events demo_db) 1) as [r|] eqn:Hr; [|vm_compute in Hr; discriminate].
  destruct (proj1 (event_code_rewritable demo_db 1 r "CORSO-2026" Hr) ltac:(vm_compute; reflexivity))
    as (d' & Hw & Hm).
  exists d'. split; [exact Hw|]. rewrite Hm. vm_compute. reflexivity.
Defined.

Lemma duration_days_write_breaks_ok_witness :
  exists d', write 1 (set_duration_days 7) demo_db = Ok d' /\ ~ events_ok d'.
Proof.
  destruct (browse (events demo_db) 1) as [r|] eqn:Hr; [|vm_compute in Hr; discriminate].
  apply (duration_days_write_breaks_ok demo_db 1 r 7 demo_db_ok Hr).
  vm_compute in Hr. injection Hr as <-. vm_compute. discriminate.
Defined.
End EventDemo.
