(* ===== verification/CloneWizard.v ===== *)
(** * [training.event.clone.wizard] and [action_clone_event]

    Models [src/addons/training_event/wizard/training_event_clone_wizard.py]
    and the wizard defaults of [TrainingEvent.action_clone_event]
    ([models/training_event.py], lines 105-121).  The wizard is a transient
    record: [create_wizard] checks its foreign key and runs its two
    constraints ([_check_dates], then [_check_duration]); [action_clone]
    calls [event.copy(default)], which the ORM runs as a [create] of the
    copied values: the fields with [copy=True] (the default for plain
    fields and Many2many) are copied, [code] ([copy=False]) takes a fresh
    sequence value, and [module_ids], a One2many, is not copied (One2many
    fields default to [copy=False] and the field does not override it).
    The [default] dict overrides the name, the dates, the state and clears
    the participants ([(5, 0, 0)]). *)

From Stdlib Require Import ZArith String List.
From stdpp Require Import base list option.
From S2P Require Import Prelude Float64 Orm SessionModel ModuleModel EventModel.
Import ListNotations.

Open Scope Z_scope.

Module CloneWizard.

Record t := mk {
  event_id : Z; new_name : string; new_date_start : Z; new_date_end : Z }.

(** [_compute_new_duration_days]. *)
Definition _compute_new_duration_days (date_start date_end : option Z) : Z :=
  match date_start, date_end with
  | Some ds, Some de => if de >=? ds then (de - ds) + 1 else 0
  | _, _ => 0
  end.

Definition new_duration_days (w : t) : Z :=
  _compute_new_duration_days (Some (new_date_start w)) (Some (new_date_end w)).

(** [_check_dates]. *)
Definition _check_dates (w : t) : result error unit :=
  raise_if (new_date_end w <? new_date_start w) (ValidationError CloneDatesMsg).

(** [_check_duration]: [wizard.new_duration_days] is tested for
    truthiness (non-zero) before the comparison. *)
Definition _check_duration (src : TrainingEvent.t) (w : t) : result error unit :=
  let nd := new_duration_days w in
  raise_if (negb (nd =? 0) && (nd <? TrainingEvent.duration_days src))
    (ValidationError (CloneDurationMsg nd (TrainingEvent.duration_days src))).

(** [env['training.event.clone.wizard'].create(vals)]. *)
Definition create_wizard (d : db) (w : t) : result error t :=
  match browse (events d) (event_id w) with
  | None => Err (IntegrityError "training_event_clone_wizard_event_id_fkey")
  | Some src =>
      _ ← _check_dates w;
      _ ← _check_duration src w;
      Ok w
  end.

(** [event.copy(default)]: the values [copy_data] gives [create]. *)
Definition copy_vals (src : TrainingEvent.t) (w : t) : Event.vals :=
  Event.mkvals (new_name w) None (TrainingEvent.event_type src)
    (new_date_start w) (new_date_end w) TrainingEvent.draft
    (TrainingEvent.notes src) [] (TrainingEvent.active src).

(** [action_clone]: the id of the new event. *)
Definition action_clone (d : db) (w : t) : result error (Z * db) :=
  match browse (events d) (event_id w) with
  | None => Err (MissingError (event_id w))
  | Some src => Event.create (copy_vals src w) d
  end.

(** The wizard a user opens with [action_clone_event] and confirms
    unchanged: the context defaults, then [create], then [action_clone]. *)
Definition action_clone_event (src : TrainingEvent.t) : t :=
  mk (TrainingEvent.id src) (TrainingEvent.name src ++ " (Copia)")
    (TrainingEvent.date_start src) (TrainingEvent.date_end src).

Definition clone (d : db) (w : t) : result error (Z * db) :=
  w' ← create_wizard d w;
  action_clone d w'.


(** ** Lemmas *)

Lemma new_duration_days_eq w :
  new_date_start w <= new_date_end w ->
  new_duration_days w = new_date_end w - new_date_start w + 1.
Proof.
  intros H. unfold new_duration_days, _compute_new_duration_days.
  by rewrite Z.geb_leb, (proj2 (Z.leb_le _ _) H).
Qed.

(** C8 The wizard's guards: with an existing source event, creating the
    wizard fails with the dates error when the new end is before the new
    start, fails with the duration error when the new inclusive duration
    is shorter than the source's stored duration, and succeeds otherwise. *)
Theorem create_wizard_spec d w src :
  browse (events d) (event_id w) = Some src ->
  (new_date_end w < new_date_start w ->
     create_wizard d w = Err (ValidationError CloneDatesMsg)) /\
  (new_date_start w <= new_date_end w ->
     new_date_end w - new_date_start w + 1 < TrainingEvent.duration_days src ->
     create_wizard d w = Err (ValidationError (CloneDurationMsg
       (new_date_end w - new_date_start w + 1) (TrainingEvent.duration_days src)))) /\
  (new_date_start w <= new_date_end w ->
     TrainingEvent.duration_days src <= new_date_end w - new_date_start w + 1 ->
     create_wizard d w = Ok w).
Proof.
  intros Hsrc. unfold create_wizard, _check_dates, _check_duration. rewrite Hsrc.
  split; [intros Hlt; by rewrite (proj2 (Z.ltb_lt _ _) Hlt)|].
  split; intros Hle Hdur; rewrite (proj2 (Z.ltb_ge _ _) Hle); simpl;
    rewrite (new_duration_days_eq w Hle);
    rewrite (proj2 (Z.eqb_neq (new_date_end w - new_date_start w + 1) 0) ltac:(lia)); simpl.
  - by rewrite (proj2 (Z.ltb_lt _ _) Hdur).
  - by rewrite (proj2 (Z.ltb_ge _ _) Hdur).
Qed.

Lemma create_wizard_ok d w src :
  browse (events d) (event_id w) = Some src ->
  new_date_start w <= new_date_end w ->
  TrainingEvent.duration_days src <= new_date_end w - new_date_start w + 1 ->
  create_wizard d w = Ok w.
Proof.
  intros Hsrc Hle Hdur. unfold create_wizard, _check_dates, _check_duration. rewrite Hsrc.
  rewrite (proj2 (Z.ltb_ge _ _) Hle); simpl. rewrite (new_duration_days_eq w Hle).
  by rewrite (proj2 (Z.ltb_ge _ _) Hdur), andb_false_r.
Qed.



(** C29 The wizard [action_clone_event] opens is accepted as it is: its
    default window is the source's own dates, so for a source whose dates
    are in order and whose stored duration is the inclusive day count,
    both constraints pass. *)
Theorem default_wizard_accepted d src :
  browse (events d) (TrainingEvent.id src) = Some src -> Event.dates_ok src ->
  create_wizard d (action_clone_event src) = Ok (action_clone_event src).
Proof.
  intros Hsrc [Hle Hdur]. apply (create_wizard_ok _ _ src); simpl; [done|lia|lia].
Qed.
End CloneWizard.

(** ** The clone of [tests/test_clone_wizard.py] *)

Module CloneDemo.
Import CloneWizard.

Definition day : Z := 20000.

(** An event of three days with one module holding one two-hour session. *)
Definition source_db : result error db :=
  pe ← Event.create (Event.default_vals "Evento Base" TrainingEvent.course day (day + 2)) empty_db;
  pm ← TModule.create (TModule.default_vals "Modulo 1" (fst pe)) (snd pe);
  ps ← Session.create (Session.default_vals "Sessione" (fst pm) (day * 86400)
                         (day * 86400 + 7200)) (snd pm);
  Ok (snd ps).

Definition wizard_30 : t := mk 1 "Evento Clonato" (day + 30) (day + 32).

(** The database of [source_db] and its event, as values. *)
Definition source_d : db := match source_db with Ok d => d | Err _ => empty_db end.
Definition source_event : TrainingEvent.t :=
  match events source_d with e :: _ => e | [] => SessionDemo.demo_event end.

Lemma create_wizard_spec_witness :
  source_db = Ok source_d /\ create_wizard source_d wizard_30 = Ok wizard_30.
Proof.
  split; [vm_compute; reflexivity|].
  apply (proj2 (proj2 (create_wizard_spec source_d wizard_30 source_event
    ltac:(vm_compute; reflexivity)))); vm_compute; discriminate.
Defined.


Lemma default_wizard_accepted_witness :
  create_wizard source_d (action_clone_event source_event) = Ok (action_clone_event source_event).
Proof.
  apply default_wizard_accepted; [vm_compute; reflexivity|]. vm_compute. split; [intros H; discriminate H|reflexivity].
Defined.
End CloneDemo.
