(* ===== verification/ParticipantModel.v ===== *)
(** * [training.participant]: the role/user rule and the (partner, role) key

    Models [src/addons/training_event/models/training_participant.py]: the
    Python constraint [_check_trainer_user] (lines 45-51), the SQL
    constraint [unique(partner_id, role)] (lines 37-43), [create], [write]
    of the stored fields and [unlink], which also removes the rows of the
    relation [training_event_participant_rel] that point to the
    participant.  The related fields [name], [email], [phone] and
    [birthdate] mirror [res.partner], which is not modelled; a partner and
    a user are their ids.

    The theorems: what [create] accepts and the error it gives otherwise
    (spec 8, property 7), that the table keeps its invariant (distinct
    keys, consistent roles) under every operation.  The unique index
    counts archived rows too, so an archived registration still holds its
    key. *)

From Stdlib Require Import ZArith String List.
From stdpp Require Import base list option relations.
From S2P Require Import Prelude Orm.
Import ListNotations.

Open Scope Z_scope.

Module Participant.
Import TrainingParticipant.

Definition has_user (r : t) : bool :=
  match user_id r with Some _ => true | None => false end.

(** [_check_trainer_user]: a trainer needs a user, a student must not
    have one. *)
Definition _check_trainer_user (record : t) : result error unit :=
  _ ← raise_if (bool_decide (role record = trainer) && negb (has_user record))
        (ValidationError TrainerNeedsUserMsg);
  raise_if (bool_decide (role record = student) && has_user record)
    (ValidationError StudentHasUserMsg).

(** The columns of the unique index [training_participant_partner_role_unique]. *)
Definition key (r : t) : Z * Role := (partner_id r, role r).

(** Postgres checks the index against every row of the table, archived
    rows included: the ORM's [active] filter does not reach SQL. *)
Definition key_taken (ps : list t) (k : Z * Role) : bool :=
  existsb (fun x => bool_decide (key x = k)) ps.

Definition unique_error : error :=
  IntegrityError "training_participant_partner_role_unique".

Record vals := mkvals {
  v_partner_id : Z; v_role : Role; v_user_id : option Z;
  v_notes : option string; v_active : bool }.

Definition set_participants (ps : list t) (next : Z) (d : db) : db :=
  mkdb (events d) (modules d) (sessions d) ps
    (next_event_id d) (next_module_id d) (next_session_id d) next
    (event_code_next d).

Definition new_row (pid : Z) (v : vals) : t :=
  mk pid (v_partner_id v) (v_role v) (v_user_id v) (v_notes v) (v_active v).

(** [env['training.participant'].create(vals)]: the [INSERT] runs first
    and meets the unique index; the constraint runs on the new row. *)
Definition create (v : vals) (d : db) : result error (Z * db) :=
  let pid := next_participant_id d in
  let row := new_row pid v in
  _ ← raise_if (key_taken (participants d) (key row)) unique_error;
  _ ← _check_trainer_user row;
  Ok (pid, set_participants (participants d ++ [row]) (pid + 1) d).

Record write_vals := mkwrite {
  w_partner_id : option Z; w_role : option Role;
  w_user_id : option (option Z); w_notes : option (option string);
  w_active : option bool }.

Definition updated_row (r : t) (w : write_vals) : t :=
  mk (id r) (default (partner_id r) (w_partner_id w)) (default (role r) (w_role w))
    (default (user_id r) (w_user_id w)) (default (notes r) (w_notes w))
    (default (active r) (w_active w)).

(** [participant.write(vals)]: the constraint runs when [role] or
    [user_id] is written; the [UPDATE], at the flush, meets the unique
    index, which compares the row with every other row. *)
Definition write (pid : Z) (w : write_vals) (d : db) : result error db :=
  match browse (participants d) pid with
  | None => Err (MissingError pid)
  | Some r =>
      let r' := updated_row r w in
      _ ← (if bool_decide (is_Some (w_role w)) || bool_decide (is_Some (w_user_id w))
           then _check_trainer_user r' else Ok tt);
      _ ← raise_if (key_taken (List.filter (fun x => negb (id x =? pid)) (participants d))
                              (key r')) unique_error;
      Ok (set_participants (update_row r' (participants d)) (next_participant_id d) d)
  end.

(** [participant.unlink()]: the row goes, and with it (by the relation
    table's [ON DELETE CASCADE]) its place in every event's
    [participant_ids]. *)
Definition unlink (pid : Z) (d : db) : result error db :=
  match browse (participants d) pid with
  | None => Err (MissingError pid)
  | Some _ =>
      Ok (mkdb (map (fun e => TrainingEvent.mk (TrainingEvent.id e) (TrainingEvent.name e)
                     (TrainingEvent.code e) (TrainingEvent.event_type e)
                     (TrainingEvent.date_start e) (TrainingEvent.date_end e)
                     (TrainingEvent.duration_days e) (TrainingEvent.state e)
                     (TrainingEvent.notes e)
                     (List.filter (fun p => negb (p =? pid)) (TrainingEvent.participant_ids e))
                     (TrainingEvent.active e)) (events d))
            (modules d) (sessions d)
            (List.filter (fun x => negb (id x =? pid)) (participants d))
            (next_event_id d) (next_module_id d) (next_session_id d)
            (next_participant_id d) (event_code_next d))
  end.

(** The role rule as a proposition. *)
Definition role_user_ok (r : t) : Prop :=
  match role r, user_id r with
  | trainer, Some _ | student, None => True
  | _, _ => False
  end.

(** The invariant of the table: well-formed ids, distinct keys, every
    row obeys the role rule. *)
Definition participants_ok (d : db) : Prop :=
  table_wf (participants d) (next_participant_id d) /\
  NoDup (map key (participants d)) /\ Forall role_user_ok (participants d).

(** The participant operations as steps of the database. *)
Inductive step : db -> db -> Prop :=
| step_create v d pid d' : create v d = Ok (pid, d') -> step d d'
| step_write pid w d d' : write pid w d = Ok d' -> step d d'
| step_unlink pid d d' : unlink pid d = Ok d' -> step d d'.

(** ** Lemmas *)

Lemma check_trainer_user_ok r : _check_trainer_user r = Ok tt <-> role_user_ok r.
Proof.
  unfold _check_trainer_user, role_user_ok, has_user.
  destruct (role r), (user_id r); simpl; split; (discriminate || tauto || done).
Qed.

Lemma key_taken_true ps k : key_taken ps k = true <-> exists x, In x ps /\ key x = k.
Proof.
  unfold key_taken. rewrite existsb_exists.
  setoid_rewrite bool_decide_eq_true. reflexivity.
Qed.

Lemma key_taken_false ps k : key_taken ps k = false <-> k ∉ map key ps.
Proof.
  rewrite <- not_true_iff_false, key_taken_true, list_elem_of_In, in_map_iff.
  split; intros Hn [x [Hx Hin]]; apply Hn; by exists x.
Qed.

Lemma key_new_row pid v : key (new_row pid v) = (v_partner_id v, v_role v).
Proof. reflexivity. Qed.

Lemma NoDup_map_snoc {A B} (f : A -> B) l x :
  NoDup (map f l) -> f x ∉ map f l -> NoDup (map f (l ++ [x])).
Proof.
  intros Hnd Hx. rewrite map_app. apply list.NoDup_app. split; [done|].
  split; [|apply NoDup_singleton]. intros y Hy Hy'. simpl in Hy'.
  apply list_elem_of_singleton in Hy'. by subst.
Qed.

(** ** Theorems *)

Lemma create_inv v d pid d' :
  create v d = Ok (pid, d') ->
  ((v_partner_id v, v_role v) ∉ map key (participants d)) /\
  role_user_ok (new_row pid v) /\ pid = next_participant_id d /\
  d' = set_participants (participants d ++ [new_row pid v]) (pid + 1) d.
Proof.
  unfold create. rewrite key_new_row. intros H. inv_ok.
  rewrite key_taken_false in Ha. apply check_trainer_user_ok in Ha0. auto.
Qed.

(** C24 [create] succeeds exactly when the (partner, role) pair is not
    registered yet, archived rows included, and the row obeys the role
    rule; it then appends the row under the next id. *)
Theorem participant_create_ok_iff v d pid d' :
  create v d = Ok (pid, d') <->
  ((v_partner_id v, v_role v) ∉ map key (participants d)) /\
  role_user_ok (new_row pid v) /\ pid = next_participant_id d /\
  d' = set_participants (participants d ++ [new_row pid v]) (pid + 1) d.
Proof.
  split; [apply create_inv|].
  unfold create. rewrite key_new_row. intros (Hk & Hr & -> & ->). apply key_taken_false in Hk.
    apply check_trainer_user_ok in Hr. by rewrite Hk, Hr.
Qed.

(** C25 The errors of [create] (spec 8, property 7): a pair already
    registered is refused by the unique index, whatever the role rule
    says; a free pair with a trainer and no user, or a student with a
    user, is refused by [_check_trainer_user] with its message. *)
Theorem participant_create_errors v d :
  (((v_partner_id v, v_role v) ∈ map key (participants d)) ->
   create v d = Err unique_error) /\
  (((v_partner_id v, v_role v) ∉ map key (participants d)) ->
   v_role v = trainer -> v_user_id v = None ->
   create v d = Err (ValidationError TrainerNeedsUserMsg)) /\
  (((v_partner_id v, v_role v) ∉ map key (participants d)) ->
   v_role v = student -> v_user_id v <> None ->
   create v d = Err (ValidationError StudentHasUserMsg)).
Proof.
  unfold create, _check_trainer_user, has_user. simpl. rewrite key_new_row.
  split; [|split]; intros Hk.
  - destruct (key_taken _ _) eqn:Ht; [done|]. by apply key_taken_false in Ht.
  - apply key_taken_false in Hk. rewrite Hk. intros -> ->. done.
  - apply key_taken_false in Hk. rewrite Hk. intros -> Hu.
    destruct (v_user_id v); [done|congruence].
Qed.

Lemma check_trainer_user_if_ok (b : bool) r :
  (if b then _check_trainer_user r else Ok tt) = Ok tt <-> (b = true -> role_user_ok r).
Proof. destruct b; [rewrite check_trainer_user_ok; intuition|done]. Qed.

(** C15 [write] commits exactly when the participant exists, the
    updated row obeys the role rule when [role] or [user_id] is written
    (the only fields of [@api.constrains("role", "user_id")]), and no
    other row, archived rows included, holds the updated (partner, role)
    pair; the row is then updated in place. *)
Theorem participant_write_ok_iff pid w d d' :
  write pid w d = Ok d' <->
  exists r, browse (participants d) pid = Some r /\
    (is_Some (w_role w) \/ is_Some (w_user_id w) -> role_user_ok (updated_row r w)) /\
    (key (updated_row r w) ∉ map key (List.filter (fun x => negb (id x =? pid)) (participants d))) /\
    d' = set_participants (update_row (updated_row r w) (participants d)) (next_participant_id d) d.
Proof.
  unfold write. split.
  - destruct (browse (participants d) pid) as [r|]; [|discriminate]. intros H. inv_ok.
    rewrite check_trainer_user_if_ok in Ha. apply key_taken_false in Ha0.
    exists r. split; [done|]. split; [|split; [exact Ha0|done]]. intros Hs. apply Ha.
    rewrite orb_true_iff, !bool_decide_eq_true. done.
  - intros (r & -> & Hrule & Hk & ->). apply key_taken_false in Hk.
    assert (Hc : (if bool_decide (is_Some (w_role w)) || bool_decide (is_Some (w_user_id w))
                  then _check_trainer_user (updated_row r w) else Ok tt) = Ok tt).
    { apply check_trainer_user_if_ok. rewrite orb_true_iff, !bool_decide_eq_true. done. }
    by rewrite Hc, Hk.
Qed.

Lemma create_preserves_ok v d pid d' :
  participants_ok d -> 0 < next_participant_id d ->
  create v d = Ok (pid, d') -> participants_ok d'.
Proof.
  intros (Hwf & Hnd & Hall) Hpos (Hk & Hr & Hp & ->)%create_inv. subst pid. split; [|split]; simpl.
  - by apply table_wf_snoc.
  - by apply NoDup_map_snoc.
  - apply Forall_app. by split; [|apply Forall_singleton].
Qed.

Lemma write_preserves_ok pid w d d' :
  participants_ok d -> write pid w d = Ok d' -> participants_ok d'.
Proof.
  intros (Hwf & Hnd & Hall). unfold write.
  destruct (browse _ pid) as [r|] eqn:Hb; [|discriminate]. apply browse_In in Hb as [Hin <-].
  intros H. inv_ok. fold (others (rec_id r) (participants d)) in Ha0.
  apply key_taken_false in Ha0.
  split; [|split]; simpl.
  - by apply (table_wf_update_row r).
  - apply NoDup_map_update_row; [apply Hwf|by apply NoDup_map_others|done].
  - apply Forall_update_row; [done|].
    destruct (bool_decide (is_Some (w_role w)) || _) eqn:Hwr.
    + by apply check_trainer_user_ok.
    + apply orb_false_iff in Hwr as [Hr Hu]. apply bool_decide_eq_false in Hr, Hu.
      apply eq_None_not_Some in Hr. apply eq_None_not_Some in Hu. unfold role_user_ok, updated_row; simpl.
      rewrite Hr, Hu. simpl. exact (proj1 (List.Forall_forall _ _) Hall r Hin).
Qed.

Lemma unlink_preserves_ok pid d d' :
  participants_ok d -> unlink pid d = Ok d' -> participants_ok d'.
Proof.
  intros (Hwf & Hnd & Hall). unfold unlink.
  destruct (browse _ pid); [|discriminate]. intros [= <-].
  change (List.filter _ (participants d)) with (others pid (participants d)).
  split; [|split]; simpl.
  - by apply table_wf_others.
  - by apply NoDup_map_others.
  - by apply Forall_others.
Qed.

Lemma step_next d d' : step d d' -> next_participant_id d <= next_participant_id d'.
Proof.
  destruct 1 as [v ? pid ? H|pid w ? ? H|pid ? ? H].
  - apply create_inv in H as (_ & _ & -> & ->). simpl. lia.
  - unfold write in H. destruct (browse _ _); [|discriminate]. inv_ok. simpl. lia.
  - unfold unlink in H. destruct (browse _ _); [|discriminate]. inv_ok. simpl. lia.
Qed.

(** C26 From a database whose participant table is well formed (with a
    positive id sequence), every sequence of participant creates, writes
    and unlinks keeps the ids distinct, the (partner, role) pairs
    distinct and every row within the role rule. *)
Theorem reachable_participants_ok d0 d :
  participants_ok d0 -> 0 < next_participant_id d0 -> rtc step d0 d -> participants_ok d.
Proof.
  intros Hok Hpos Hs. revert Hok Hpos. induction Hs as [|d1 d2 d3 Hs _ IH]; [done|].
  intros Hok Hpos. apply IH; [|pose proof (step_next _ _ Hs); lia].
  destruct Hs as [v ? pid ? H|pid w ? ? H|pid ? ? H].
  - by eapply create_preserves_ok.
  - by eapply write_preserves_ok.
  - by eapply unlink_preserves_ok.
Qed.

Lemma participants_ok_empty : participants_ok empty_db.
Proof. split; [split|split]; constructor. Qed.

End Participant.

(** ** Examples *)

Module ParticipantDemo.
Import TrainingParticipant Participant.

Definition student_7 : vals := mkvals 7 student None None true.

Lemma participant_create_ok_iff_witness :
  create student_7 empty_db = Ok (1, set_participants [new_row 1 student_7] 2 empty_db).
Proof.
  apply participant_create_ok_iff. split; [apply not_elem_of_nil|].
  split; [exact I|]. split; reflexivity.
Defined.

Lemma participant_create_errors_witness :
  create (mkvals 7 trainer None None true) empty_db = Err (ValidationError TrainerNeedsUserMsg) /\
  create (mkvals 7 student (Some 3) None true) empty_db = Err (ValidationError StudentHasUserMsg).
Proof.
  split.
  - apply (participant_create_errors (mkvals 7 trainer None None true) empty_db);
      [apply not_elem_of_nil|reflexivity|reflexivity].
  - apply (participant_create_errors (mkvals 7 student (Some 3) None true) empty_db);
      [apply not_elem_of_nil|reflexivity|discriminate].
Defined.

Lemma reachable_participants_ok_witness :
  participants_ok (set_participants [new_row 1 student_7] 2 empty_db).
Proof.
  apply (reachable_participants_ok empty_db); [apply participants_ok_empty|simpl; lia|].
  apply rtc_once. apply (step_create student_7 empty_db 1). vm_compute. reflexivity.
Defined.
End ParticipantDemo.
