(* ===== verification/Report.v ===== *)
(** * The day report: [_get_sessions_grouped_by_day]

    Models [TrainingEvent._get_sessions_grouped_by_day]
    ([src/addons/training_event/models/training_event.py], lines 301-334):
    the sessions of the event's modules ([mapped("session_ids")]), sorted
    by [(date_start, sequence)] with Python's stable [sorted], scanned
    left to right with a "current day" and a current recordset; a change of
    calendar day closes the current group, whose duration is the float
    [sum] of its sessions' [duration_hours].

    [grouped_by_day_spec] is the contract the report relies on: the groups
    partition the sorted sessions, each group is non-empty and on one day,
    and the days strictly increase, so each day has exactly one group. *)

From Stdlib Require Import ZArith String List Sorted Permutation.
From stdpp Require Import base list option.
From S2P Require Import Prelude Float64 Orm SessionModel ModuleModel EventModel.
Import ListNotations.

Open Scope Z_scope.

Module Report.
Import TrainingSession.

Record group := mkgroup { day : option Z; g_sessions : list t; duration : float64 }.

(** [session.date_start.date()] of a naive UTC date-time. *)
Definition date_of (ts : Z) : Z := ts / 86400.

(** The key [(s.date_start, s.sequence)] of the [sorted] call. *)
Definition sort_key_le (s1 s2 : t) : bool :=
  lex2_le (date_start s1, sequence s1) (date_start s2, sequence s2).

(** [current_sessions |= session]. *)
Definition rs_add (rs : list t) (s : t) : list t :=
  if existsb (fun x => id x =? id s) rs then rs else rs ++ [s].

(** The dict appended to [grouped]. *)
Definition close_group (current_day : option Z) (current : list t) : group :=
  mkgroup current_day current (py_sum (map duration_hours current)).

Definition flush (current_day : option Z) (current : list t) (grouped : list group)
  : list group :=
  match current with [] => grouped | _ => grouped ++ [close_group current_day current] end.

(** [day == current_day], with [current_day] still [None] before the
    first session. *)
Definition same_day (d : Z) (current_day : option Z) : bool :=
  match current_day with Some c => d =? c | None => false end.

(** The loop body; [if not session.date_start: continue] never skips: the
    field is required and a [datetime] is always truthy. *)
Fixpoint group_loop (ss : list t) (current_day : option Z) (current : list t)
  (grouped : list group) : list group :=
  match ss with
  | [] => flush current_day current grouped
  | s :: ss' =>
      let d := date_of (date_start s) in
      if same_day d current_day
      then group_loop ss' current_day (rs_add current s) grouped
      else group_loop ss' (Some d) (rs_add [] s) (flush current_day current grouped)
  end.

Definition _get_sessions_grouped_by_day (db0 : db) (ev : Z) : list group :=
  group_loop (sort_by sort_key_le (Event.mapped_session_ids db0 ev)) None [] [].

(** ** What a group is *)

Definition group_ok (g : group) : Prop :=
  g_sessions g <> [] /\
  (exists dd, day g = Some dd /\ Forall (fun s => date_of (date_start s) = dd) (g_sessions g)) /\
  duration g = py_sum (map duration_hours (g_sessions g)).

Definition group_lt (g1 g2 : group) : Prop :=
  match day g1, day g2 with Some a, Some b => a < b | _, _ => False end.

Definition day_below (c : Z) (g : group) : Prop :=
  match day g with Some a => a < c | None => False end.

(** ** Lemmas *)

Lemma rs_add_fresh rs s :
  (forall x, In x rs -> id x <> id s) -> rs_add rs s = rs ++ [s].
Proof.
  intros Hf. unfold rs_add. destruct (existsb _ rs) eqn:E; [|done].
  apply existsb_exists in E as (x & Hx & Hxs). apply Z.eqb_eq in Hxs. by destruct (Hf x Hx).
Qed.

Lemma sort_key_le_date s1 s2 : sort_key_le s1 s2 = true -> date_start s1 <= date_start s2.
Proof.
  unfold sort_key_le, lex2_le. simpl. intros H. apply orb_true_iff in H as [H|H]; zbool; lia.
Qed.

Lemma date_of_mono a b : a <= b -> date_of a <= date_of b.
Proof. intros H. unfold date_of. apply Z.div_le_mono; lia. Qed.

Lemma close_group_ok cday cur :
  cur <> [] -> Forall (fun s => date_of (date_start s) = cday) cur ->
  group_ok (close_group (Some cday) cur).
Proof. intros Hne Hall. split; [done|]. split; [by exists cday|done]. Qed.

(** The scan, from a non-empty current group on day [cday]. *)
Lemma group_loop_spec ss cday cur grouped :
  cur <> [] -> List.NoDup (map id (cur ++ ss)) ->
  Forall (fun s => date_of (date_start s) = cday) cur ->
  Forall group_ok grouped -> Sorted group_lt grouped -> Forall (day_below cday) grouped ->
  Sorted (fun a b => date_start a <= date_start b) ss ->
  Forall (fun s => cday <= date_of (date_start s)) ss ->
  concat (map g_sessions (group_loop ss (Some cday) cur grouped)) =
    concat (map g_sessions grouped) ++ cur ++ ss /\
  Forall group_ok (group_loop ss (Some cday) cur grouped) /\
  Sorted group_lt (group_loop ss (Some cday) cur grouped).
Proof.
  revert cday cur grouped.
  induction ss as [|s ss IH]; intros cday cur grouped Hne Hnd Hcur Hok Hsort Hbelow Hss Hge.
  - simpl. unfold flush. destruct cur as [|c cur']; [done|].
    rewrite map_app, concat_app. simpl. rewrite !app_nil_r.
    split; [done|]. split.
    + apply Forall_app. split; [done|]. constructor; [|constructor]. by apply close_group_ok.
    + apply Sorted_snoc_Forall; [done|]. eapply Forall_impl; [|exact Hbelow].
      intros g. unfold day_below, group_lt. simpl. by destruct (day g).
  - simpl. apply Forall_cons_iff in Hge as [Hs Hge].
    rewrite rs_add_fresh; [|intros x Hx Heq; rewrite map_app in Hnd;
      apply (NoDup_remove_2 _ _ _ Hnd), in_or_app; left; apply in_map_iff; by exists x].
    assert (Hnd' : List.NoDup (map id ((cur ++ [s]) ++ ss))) by by rewrite <- app_assoc.
    destruct (Z.eqb_spec (date_of (date_start s)) cday) as [Heq|Hneq].
    + destruct (IH cday (cur ++ [s]) grouped) as (Hc & Ho & Hso); auto.
      * by destruct cur.
      * apply Forall_app. split; [done|]. by constructor.
      * by inversion Hss.
      * rewrite Hc, <- app_assoc. auto.
    + assert (Hlt : cday < date_of (date_start s)) by lia.
      assert (Hss' : Forall (fun x => date_start s <= date_start x) ss).
      { apply Sorted_extends in Hss; [done|]. intros a b c. lia. }
      destruct (IH (date_of (date_start s)) [s]
        (grouped ++ [close_group (Some cday) cur])) as (Hc & Ho & Hso); auto.
      * simpl. rewrite map_app in Hnd. by apply NoDup_app_remove_l in Hnd.
      * apply Forall_app. split; [done|]. constructor; [|constructor]. by apply close_group_ok.
      * apply Sorted_snoc_Forall; [done|]. eapply Forall_impl; [|exact Hbelow].
        intros g. unfold day_below, group_lt. simpl. by destruct (day g).
      * apply Forall_app. split.
        -- eapply Forall_impl; [|exact Hbelow]. intros g. unfold day_below.
           destruct (day g); lia.
        -- constructor; [|constructor]. unfold day_below. simpl. lia.
      * by inversion Hss.
      * eapply Forall_impl; [|exact Hss']. intros x Hx. by apply date_of_mono.
      * replace (rs_add [] s) with [s] by reflexivity.
        unfold flush in *. destruct cur as [|c cur']; [done|].
        rewrite Hc, map_app, concat_app. simpl. rewrite app_nil_r, <- !app_assoc. auto.
Qed.

Lemma rs_union_NoDup a b :
  List.NoDup (map id a) -> List.NoDup (map id (Event.rs_union a b)).
Proof.
  revert a. induction b as [|s b IH]; intros a Hnd; simpl; [done|]. apply IH.
  destruct (existsb _ a) eqn:E; [done|]. rewrite map_app. apply NoDup_app; [done|..].
  - repeat constructor. intros [].
  - intros x Hx [<-|[]]. apply in_map_iff in Hx as (y & Hy & Hyin).
    assert (existsb (fun x => id x =? id s) a = true); [|congruence].
    apply existsb_exists. exists y. split; [done|]. by apply Z.eqb_eq.
Qed.

Lemma mapped_session_ids_NoDup d ev :
  List.NoDup (map id (Event.mapped_session_ids d ev)).
Proof.
  unfold Event.mapped_session_ids.
  assert (forall mods acc, List.NoDup (map id acc) ->
    List.NoDup (map id (fold_left (fun acc m => Event.rs_union acc (TModule.session_ids d m))
                          mods acc))) as Hgen.
  { induction mods as [|m mods IH]; intros acc Hacc; simpl; [done|].
    apply IH. by apply rs_union_NoDup. }
  apply Hgen. constructor.
Qed.

(** The day report's contract, proved from the loop invariant. *)
Lemma grouped_by_day_ok d ev :
  concat (map g_sessions (_get_sessions_grouped_by_day d ev)) =
    sort_by sort_key_le (Event.mapped_session_ids d ev) /\
  Forall group_ok (_get_sessions_grouped_by_day d ev) /\
  Sorted group_lt (_get_sessions_grouped_by_day d ev).
Proof.
  unfold _get_sessions_grouped_by_day.
  pose proof (sort_by_Sorted sort_key_le (fun x y => lex2_le_total _ _)
    (Event.mapped_session_ids d ev)) as Hsorted.
  assert (Hnd : List.NoDup (map id (sort_by sort_key_le (Event.mapped_session_ids d ev)))).
  { apply (Permutation_NoDup (Permutation_map _ (Permutation_sym (sort_by_Permutation _ _)))).
    apply mapped_session_ids_NoDup. }
  apply (Sorted_weaken _ (fun a b => date_start a <= date_start b)) in Hsorted;
    [|intros a b; apply sort_key_le_date].
  destruct (sort_by sort_key_le _) as [|s ss]; [simpl; repeat constructor|].
  simpl. destruct (group_loop_spec ss (date_of (date_start s)) [s] []) as (Hc & Ho & Hso);
    auto; try discriminate; try constructor.
  - by inversion Hsorted.
  - apply Sorted_extends in Hsorted; [|intros a b c; lia].
    eapply Forall_impl; [|exact Hsorted]. intros x Hx. by apply date_of_mono.
Qed.

(** C22 The day report partitions the event's sessions, in the sorted
    order, into non-empty groups each on a single calendar day with the
    float sum of its durations, and the group days strictly increase, so
    every day with a session has exactly one group. *)
Theorem grouped_by_day_spec d ev :
  concat (map g_sessions (_get_sessions_grouped_by_day d ev)) =
    sort_by sort_key_le (Event.mapped_session_ids d ev) /\
  Forall group_ok (_get_sessions_grouped_by_day d ev) /\
  Sorted group_lt (_get_sessions_grouped_by_day d ev).
Proof. apply grouped_by_day_ok. Qed.
End Report.

Module ReportDemo.
Open Scope string_scope.
Open Scope Z_scope.
Import Report.

Definition day1 : Z := 20000.
Definition at_time (d h m : Z) : Z := d * 86400 + h * 3600 + m * 60.

(** One event, one module, and the given sessions (name, start, end). *)
Definition event_with (ss : list (string * Z * Z)) : result error db :=
  pe ← Event.create (Event.default_vals "Evento" TrainingEvent.course day1 (day1 + 1)) empty_db;
  pm ← TModule.create (TModule.default_vals "Modulo" (fst pe)) (snd pe);
  fold_left (fun acc '(nm, st, en) =>
      d ← acc; p ← Session.create (Session.default_vals nm (fst pm) st en) d; Ok (snd p))
    ss (Ok (snd pm)).

Definition summary (gs : list group) : list (option Z * nat * float64) :=
  map (fun g => (day g, length (g_sessions g), duration g)) gs.

(** The spec's day-grouping example: sessions on day 1 at 09:00-11:00
    and 14:00-16:00 and on day 2 at 09:00-10:00 (created out of order)
    give two groups, day 1 with two sessions totalling 4.0 hours and day 2
    with one session of 1.0 hour. *)
Theorem grouped_by_day_example :
  match event_with [("B", at_time (day1 + 1) 9 0, at_time (day1 + 1) 10 0);
                    ("A2", at_time day1 14 0, at_time day1 16 0);
                    ("A1", at_time day1 9 0, at_time day1 11 0)] with
  | Ok d => summary (_get_sessions_grouped_by_day d 1) =
              [(Some day1, 2%nat, of_Z 4); (Some (day1 + 1), 1%nat, of_Z 1)]
  | Err _ => False
  end.
Proof. vm_compute. reflexivity. Qed.

End ReportDemo.
