(* ===== verification/ExcelExport.v ===== *)
(** * The Excel export: the four sheets of [_create_excel_workbook]

    Models [TrainingEvent._create_excel_workbook] and its four
    [_fill_excel_*_sheet] methods
    ([src/addons/training_event/models/training_event.py], lines 145-288)
    as the list of [sheet.write(row, col, value)] calls each sheet
    receives, in order.  Formats and column widths ([add_format],
    [set_column]) are presentation and are not modelled; the encoding
    and naming of the file by [action_export_excel] are in
    [ExportAction.v].

    The names, e-mails and phones of participants are fields related to
    [res.partner], and a session's trainers are [res.users]; neither model
    is part of the addon, so the Section takes them as parameters.

    The theorem [export_consistent] shows that the workbook agrees with
    itself and with the day report: the counts of the information sheet
    are the numbers of rows of the other sheets, the module sheet's
    session counts add up to the event's, and the sessions sheet lists
    the sessions in the order of the day report's groups.

    A [cell] is the Python value a [sheet.write] call receives, not the
    cell the file ends up with: how xlsxwriter's [write] dispatches on
    the value (an empty string written as a blank cell, a string
    starting with [=] as a formula, a URL as a hyperlink) is the
    library's and is not modelled. *)

From Stdlib Require Import ZArith String List Sorted Permutation.
From stdpp Require Import base list option.
From S2P Require Import Prelude Float64 Orm SessionModel ModuleModel EventModel Report.
Import ListNotations.

Open Scope string_scope.
Open Scope Z_scope.

Module Excel.

(** A value given to [sheet.write] or [sheet.write_datetime]. *)
Inductive cell :=
| CStr (s : string)
| CInt (z : Z)
| CFloat (f : float64)
| CDate (day : Z)
| CDateTime (ts : Z).

Record sheet := mksheet { sheet_name : string; writes : list (Z * Z * cell) }.

(** [x or ""] on a text field. *)
Definition or_empty (o : option string) : string :=
  match o with Some s => s | None => "" end.

(** The labels of the selections, [dict(field.selection).get(key, "")]. *)
Definition event_type_label (t : TrainingEvent.EventType) : string :=
  match t with
  | TrainingEvent.course => "Corso" | TrainingEvent.workshop => "Workshop"
  | TrainingEvent.seminar => "Seminario" | TrainingEvent.conference => "Conferenza"
  end.

Definition event_state_label (s : TrainingEvent.State) : string :=
  match s with
  | TrainingEvent.draft => "Bozza" | TrainingEvent.programmed => "Programmato"
  | TrainingEvent.designed => "Progettato" | TrainingEvent.in_progress => "In Corso"
  | TrainingEvent.in_review => "In Verifica" | TrainingEvent.closed => "Chiuso"
  end.

Definition session_state_label (s : TrainingSession.State) : string :=
  match s with
  | TrainingSession.idea => "Ideata" | TrainingSession.designed => "Progettata"
  | TrainingSession.closed => "Chiusa"
  end.

Definition role_label (r : TrainingParticipant.Role) : string :=
  match r with
  | TrainingParticipant.student => "Allievo" | TrainingParticipant.trainer => "Formatore"
  end.

(** The cells of one row written left to right from column [col]. *)
Fixpoint row_from (row col : Z) (cs : list cell) : list (Z * Z * cell) :=
  match cs with
  | [] => []
  | c :: cs' => (row, col, c) :: row_from row (col + 1) cs'
  end.

Definition row_writes (row : Z) (cs : list cell) : list (Z * Z * cell) := row_from row 0 cs.

(** [for idx, header in enumerate(headers): sheet.write(0, idx, header)]. *)
Definition header_writes (hs : list string) : list (Z * Z * cell) :=
  row_writes 0 (map CStr hs).

(** [row = 1; for x in xs: ...; row += 1]. *)
Fixpoint rows_from {A} (row : Z) (cells : A -> list cell) (xs : list A) : list (Z * Z * cell) :=
  match xs with
  | [] => []
  | x :: xs' => row_writes row (cells x) ++ rows_from (row + 1) cells xs'
  end.

(** The cell a reader of the file sees at [(row, col)]: the last write. *)
Definition cell_at (ws : list (Z * Z * cell)) (row col : Z) : option cell :=
  List.fold_left (fun acc '(r, c, v) => if (r =? row) && (c =? col) then Some v else acc) ws None.

(** The cells of column [col] below the header row, top to bottom. *)
Definition column (ws : list (Z * Z * cell)) (col : Z) : list cell :=
  map (fun '(_, _, v) => v) (List.filter (fun '(r, c, _) => (1 <=? r) && (c =? col)) ws).

Definition sum_ints (cs : list cell) : Z :=
  fold_right (fun c acc => match c with CInt z => z + acc | _ => acc end) 0 cs.

Section Workbook.
(** The fields of [res.partner] and [res.users] the export reads. *)
Context (partner_name partner_email partner_phone : Z -> option string).
Context (trainer_names : list Z -> string).

(** [self.participant_ids]: the active participants of the relation. *)
Definition event_participants (d : db) (e : TrainingEvent.t) : list TrainingParticipant.t :=
  List.filter TrainingParticipant.active
    (omap (browse (participants d)) (TrainingEvent.participant_ids e)).

(** [_fill_excel_info_sheet]. *)
Definition info_sheet (d : db) (e : TrainingEvent.t) : sheet :=
  let ev := TrainingEvent.id e in
  mksheet "Informazioni Evento"
    [(0, 0, CStr "Codice"); (0, 1, CStr (TrainingEvent.code e));
     (1, 0, CStr "Titolo"); (1, 1, CStr (TrainingEvent.name e));
     (2, 0, CStr "Tipologia"); (2, 1, CStr (event_type_label (TrainingEvent.event_type e)));
     (3, 0, CStr "Data Inizio"); (3, 1, CDate (TrainingEvent.date_start e));
     (4, 0, CStr "Data Fine"); (4, 1, CDate (TrainingEvent.date_end e));
     (5, 0, CStr "Durata (giorni)"); (5, 1, CInt (TrainingEvent.duration_days e));
     (6, 0, CStr "Stato"); (6, 1, CStr (event_state_label (TrainingEvent.state e)));
     (7, 0, CStr "N. Moduli"); (7, 1, CInt (Z.of_nat (length (Event.module_ids d ev))));
     (8, 0, CStr "N. Sessioni"); (8, 1, CInt (Event._compute_session_count d ev));
     (9, 0, CStr "N. Partecipanti"); (9, 1, CInt (Z.of_nat (length (event_participants d e))))].

(** [sorted(key=lambda m: (m.sequence, m.name or ""))]. *)
Definition module_key_le (m1 m2 : TrainingModule.t) : bool :=
  (TrainingModule.sequence m1 <? TrainingModule.sequence m2) ||
  ((TrainingModule.sequence m1 =? TrainingModule.sequence m2) &&
   TModule.name_le (TrainingModule.name m1) (TrainingModule.name m2)).

Definition module_row (d : db) (e : TrainingEvent.t) (m : TrainingModule.t) : list cell :=
  [CStr (TrainingEvent.code e); CInt (TrainingModule.sequence m); CStr (TrainingModule.name m);
   CStr (or_empty (TrainingModule.description m)); CInt (TModule._compute_session_count d m)].

(** [_fill_excel_modules_sheet]. *)
Definition modules_sheet (d : db) (e : TrainingEvent.t) : sheet :=
  mksheet "Moduli"
    (header_writes ["Codice Evento"; "Sequenza"; "Titolo Modulo"; "Descrizione"; "N. Sessioni"] ++
     rows_from 1 (module_row d e)
       (sort_by module_key_le (Event.module_ids d (TrainingEvent.id e)))).

(** A session's row; its dates are written as the naive UTC values the
    ORM stores ([fields.Datetime.to_string] of a stored date-time). *)
Definition session_row (d : db) (e : TrainingEvent.t) (s : TrainingSession.t) : list cell :=
  [CStr (TrainingEvent.code e);
   CStr (match browse (modules d) (TrainingSession.module_id s) with
         | Some m => TrainingModule.name m | None => "" end);
   CStr (TrainingSession.name s);
   CDateTime (TrainingSession.date_start s); CDateTime (TrainingSession.date_end s);
   CFloat (TrainingSession.duration_hours s);
   CStr (trainer_names (TrainingSession.trainer_ids s));
   CStr (session_state_label (TrainingSession.state s));
   CStr (or_empty (TrainingSession.materials s)); CStr (or_empty (TrainingSession.notes s))].

(** [_fill_excel_sessions_sheet]: the sessions of [module_ids], sorted as
    the day report sorts them. *)
Definition sessions_sheet (d : db) (e : TrainingEvent.t) : sheet :=
  mksheet "Sessioni"
    (header_writes ["Codice Evento"; "Modulo"; "Titolo Sessione"; "Data/Ora Inizio";
                    "Data/Ora Fine"; "Durata (ore)"; "Formatori"; "Stato"; "Materiali"; "Note"] ++
     rows_from 1 (session_row d e)
       (sort_by Report.sort_key_le (Event.mapped_session_ids d (TrainingEvent.id e)))).

Definition participant_key_le (p1 p2 : TrainingParticipant.t) : bool :=
  TModule.name_le (or_empty (partner_name (TrainingParticipant.partner_id p1)))
    (or_empty (partner_name (TrainingParticipant.partner_id p2))).

Definition participant_row (e : TrainingEvent.t) (p : TrainingParticipant.t) : list cell :=
  [CStr (TrainingEvent.code e); CStr (or_empty (partner_name (TrainingParticipant.partner_id p)));
   CStr (or_empty (partner_email (TrainingParticipant.partner_id p)));
   CStr (or_empty (partner_phone (TrainingParticipant.partner_id p)));
   CStr (role_label (TrainingParticipant.role p))].

(** [_fill_excel_participants_sheet]. *)
Definition participants_sheet (d : db) (e : TrainingEvent.t) : sheet :=
  mksheet "Partecipanti"
    (header_writes ["Codice Evento"; "Nome"; "Email"; "Telefono"; "Ruolo"] ++
     rows_from 1 (participant_row e) (sort_by participant_key_le (event_participants d e))).

(** [_create_excel_workbook]: the sheets in the order they are added. *)
Definition workbook (d : db) (e : TrainingEvent.t) : list sheet :=
  [info_sheet d e; modules_sheet d e; sessions_sheet d e; participants_sheet d e].

(** ** Lemmas on sheets *)

Local Close Scope string_scope.

Lemma column_app ws1 ws2 c : column (ws1 ++ ws2) c = column ws1 c ++ column ws2 c.
Proof. unfold column. by rewrite filter_app', map_app. Qed.

Lemma column_row_from_other row col cs c :
  (row < 1 \/ c < col) -> column (row_from row col cs) c = [].
Proof.
  revert col. induction cs as [|x cs IH]; intros col Hc; [done|].
  unfold column in *. simpl.
  destruct ((1 <=? row) && (col =? c)) eqn:E; [zbool; lia|]. apply IH. lia.
Qed.

Lemma column_row_from row col cs c :
  1 <= row -> col <= c < col + Z.of_nat (length cs) ->
  column (row_from row col cs) c = [nth (Z.to_nat (c - col)) cs (CInt 0)].
Proof.
  revert col. induction cs as [|x cs IH]; intros col Hr Hc; simpl in *; [lia|].
  unfold column in *. simpl.
  destruct (Z.eqb_spec col c) as [->|Hne].
  - rewrite (proj2 (Z.leb_le 1 row) Hr). simpl.
    rewrite Z.sub_diag. simpl. f_equal. apply column_row_from_other. lia.
  - rewrite andb_false_r. rewrite IH by lia.
    replace (Z.to_nat (c - col)) with (S (Z.to_nat (c - (col + 1)))) by lia. done.
Qed.

Lemma column_header hs c : column (header_writes hs) c = [].
Proof. apply column_row_from_other. lia. Qed.

(** The column [c] of a table of rows from row [row >= 1] on: the
    [c]-th cell of each row. *)
Lemma column_rows_from {A} row (cells : A -> list cell) xs c :
  1 <= row -> 0 <= c -> (forall x, c < Z.of_nat (length (cells x))) ->
  column (rows_from row cells xs) c = map (fun x => nth (Z.to_nat c) (cells x) (CInt 0)) xs.
Proof.
  revert row. induction xs as [|x xs IH]; intros row Hr Hc Hl; [done|]. simpl.
  rewrite column_app, IH by (done || lia). unfold row_writes.
  rewrite column_row_from by (specialize (Hl x); lia). by rewrite Z.sub_0_r.
Qed.

Lemma sum_ints_map_perm {A} (f : A -> Z) l1 l2 :
  Permutation l1 l2 -> sum_ints (map (fun x => CInt (f x)) l1) = sum_ints (map (fun x => CInt (f x)) l2).
Proof. induction 1; simpl; lia. Qed.

Lemma sum_ints_lengths {A} (g : A -> list TrainingSession.t) l :
  sum_ints (map (fun x => CInt (Z.of_nat (length (g x)))) l) = Z.of_nat (length (concat (map g l))).
Proof. induction l as [|x l IH]; simpl; [done|]. rewrite IH, length_app. lia. Qed.

(** ** The workbook is consistent *)

(** C23 The workbook agrees with itself and with the day report: the
    information sheet's numbers of modules, sessions and participants
    are the numbers of rows of the other three sheets; the module sheet's
    session counts add up to the event's session count; and the sessions
    sheet lists the sessions in the order of the day report's groups. *)
Theorem export_consistent d e :
  List.NoDup (map TrainingSession.id (sessions d)) ->
  List.NoDup (map TrainingModule.id (modules d)) ->
  let info := writes (info_sheet d e) in
  let mods := writes (modules_sheet d e) in
  let sess := writes (sessions_sheet d e) in
  let parts := writes (participants_sheet d e) in
  cell_at info 7 1 = Some (CInt (Z.of_nat (length (column mods 0)))) /\
  cell_at info 8 1 = Some (CInt (Z.of_nat (length (column sess 0)))) /\
  cell_at info 8 1 = Some (CInt (sum_ints (column mods 4))) /\
  cell_at info 9 1 = Some (CInt (Z.of_nat (length (column parts 0)))) /\
  column sess 2 = map (fun s => CStr (TrainingSession.name s))
    (concat (map Report.g_sessions (Report._get_sessions_grouped_by_day d (TrainingEvent.id e)))).
Proof.
  intros Hs Hm. cbn zeta. unfold modules_sheet, sessions_sheet, participants_sheet, writes.
  rewrite !column_app, !column_header, !column_rows_from by (intros; simpl; lia). simpl.
  rewrite !length_map, !length_sort_by.
  destruct (Event.mapped_session_ids_concat d (TrainingEvent.id e) Hs Hm) as [Hc _].
  destruct (Report.grouped_by_day_ok d (TrainingEvent.id e)) as [Hg _].
  repeat split.
  - rewrite (sum_ints_map_perm (fun m => TModule._compute_session_count d m) _ _
      (sort_by_Permutation _ _)).
    unfold TModule._compute_session_count. rewrite sum_ints_lengths, <- Hc. done.
  - by rewrite Hg.
Qed.

End Workbook.
End Excel.

(** ** Examples *)

Module ExcelDemo.
Import Excel.

(** The spec's counting scenario: one event, module 1 with one session,
    module 2 with two. *)
Definition built : db := match EventDemo.build with Ok d => d | Err _ => empty_db end.

Definition event_1 : TrainingEvent.t :=
  match events built with e :: _ => e | [] => SessionDemo.demo_event end.

Definition no_text (_ : Z) : option string := None.
Definition no_trainers (_ : list Z) : string := "".

Lemma export_consistent_witness :
  cell_at (writes (info_sheet built event_1)) 8 1 =
    Some (CInt (sum_ints (column (writes (modules_sheet built event_1)) 4))) /\
  column (writes (sessions_sheet no_trainers built event_1)) 2 =
    [CStr "Sessione 1"; CStr "Sessione 2"; CStr "Sessione 3"].
Proof.
  destruct (export_consistent no_text no_text no_text no_trainers built event_1)
    as (_ & _ & H8 & _ & Hs); [vm_compute; repeat constructor; simpl; intuition discriminate..|].
  split; [exact H8|]. rewrite Hs. vm_compute. reflexivity.
Defined.
End ExcelDemo.
