(* ===== verification/ExportAction.v ===== *)
(** * [action_export_excel]: the file the Excel export downloads

    Models [TrainingEvent.action_export_excel]
    ([src/addons/training_event/models/training_event.py], lines 123-143):
    the workbook of Module [Excel] is written to a buffer, encoded with
    [b64encode] into a [data:] URL, and named
    ["evento_<code>_attivita_<now>.xlsx"] with the code, or
    ["senza_codice"] for an empty one, and the current time formatted by
    [strftime("%Y%m%d_%H%M%S")].  The action returned is an
    [ir.actions.act_url] record.

    The bytes of the [.xlsx] file are what [xlsxwriter] writes for the
    workbook's sheets; that serialisation is a library outside the addon,
    so the Section takes it as a parameter [xlsx_bytes], as it takes the
    [res.partner] and [res.users] fields of Module [Excel].

    The theorem: the URL carries exactly the workbook's bytes (its
    payload decodes to them); the file name carries the event's code and a stamp that
    parses back to the time of the export. *)

From Stdlib Require Import ZArith String Ascii List.
From stdpp Require Import base list option.
From S2P Require Import Prelude Float64 Orm SessionModel ModuleModel EventModel Report ExcelExport PyStdlib.
Import ListNotations.

Open Scope string_scope.
Open Scope Z_scope.

Module ExportAction.
Import Base64 PyDatetime.

(** The dictionary the method returns to the web client. *)
Record act_url := mkact {
  act_type : string; url : string; target : string;
  no_session_store : bool; close_on_report_download : bool; act_name : string }.

(** [self.code or "senza_codice"]. *)
Definition code_or_default (code : string) : string :=
  if String.eqb code "" then "senza_codice" else code.

(** ["evento_%s_attivita_%s.xlsx" % (code, now.strftime(...))]. *)
Definition filename (code : string) (now : datetime) : string :=
  "evento_" ++ code_or_default code ++ "_attivita_" ++ strftime_stamp now ++ ".xlsx".

Definition data_prefix : string :=
  "data:application/vnd.openxmlformats-officedocument.spreadsheetml.sheet;base64,".

Section Action.

Context (partner_name partner_email partner_phone : Z -> option string).
Context (trainer_names : list Z -> string).
Context (xlsx_bytes : list Excel.sheet -> list Byte.byte).

Definition workbook_bytes (d : db) (e : TrainingEvent.t) : list Byte.byte :=
  xlsx_bytes (Excel.workbook partner_name partner_email partner_phone trainer_names d e).

(** [event.action_export_excel()] at the POSIX time [now]: the event is
    read first ([ensure_one], then its fields), a missing one raises. *)
Definition action_export_excel (d : db) (eid : Z) (now : Z) : result error act_url :=
  match browse (events d) eid with
  | None => Err (MissingError eid)
  | Some e =>
      let data := b64encode (workbook_bytes d e) in
      Ok (mkact "ir.actions.act_url" (data_prefix ++ data) "new" true true
            (filename (TrainingEvent.code e) (from_timestamp now)))
  end.

(** ** Lemmas *)

Lemma action_export_excel_ok d eid now a :
  action_export_excel d eid now = Ok a ->
  exists e, browse (events d) eid = Some e /\
    url a = data_prefix ++ b64encode (workbook_bytes d e) /\
    act_name a = filename (TrainingEvent.code e) (from_timestamp now).
Proof.
  unfold action_export_excel. destruct (browse _ _) as [e|]; [|discriminate].
  intros H. inv_ok. by exists e.
Qed.

(** ** Theorems *)

(** C16 The URL of the action carries the workbook: its payload, after
    the [data:] prefix, decodes to the bytes [xlsxwriter] wrote, and the
    file name is ["evento_<code>_attivita_<stamp>.xlsx"] with a stamp
    that parses back to the time of the export (for a year of four
    digits). *)
Theorem export_action_roundtrip d eid now a :
  1000 <= year (from_timestamp now) <= 9999 ->
  action_export_excel d eid now = Ok a ->
  exists e data stamp, browse (events d) eid = Some e /\
    url a = data_prefix ++ data /\ b64decode data = Some (workbook_bytes d e) /\
    act_name a = "evento_" ++ code_or_default (TrainingEvent.code e) ++ "_attivita_" ++
                 stamp ++ ".xlsx" /\
    option_map to_timestamp (parse_stamp stamp) = Some now.
Proof.
  intros Hy (e & He & -> & ->)%action_export_excel_ok.
  exists e, (b64encode (workbook_bytes d e)), (strftime_stamp (from_timestamp now)).
  do 2 (split; [done|]). split; [apply b64decode_encode|]. split; [done|].
  destruct (stamp_roundtrip now Hy) as [_ ->]. simpl. by rewrite to_from_timestamp.
Qed.

End Action.
End ExportAction.

(** ** Examples *)

Module ExportDemo.
Import ExportAction PyDatetime Base64 ExcelDemo.

(** A stand-in for [xlsxwriter]: the four bytes every [.xlsx] (a zip
    archive) starts with. *)
Definition zip_magic (_ : list Excel.sheet) : list Byte.byte :=
  [Byte.x50; Byte.x4b; Byte.x03; Byte.x04].

(** 2025-11-09 08:00:00 UTC. *)
Definition now_2025 : Z := 1762675200.

Definition exported : act_url :=
  mkact "ir.actions.act_url" (data_prefix ++ "UEsDBA==") "new" true true
    "evento_EVT/1_attivita_20251109_080000.xlsx".

Lemma export_action_roundtrip_witness :
  exists e data stamp, browse (events built) 1 = Some e /\
    url exported = data_prefix ++ data /\
    b64decode data = Some (workbook_bytes no_text no_text no_text no_trainers zip_magic built e) /\
    act_name exported = "evento_" ++ code_or_default (TrainingEvent.code e) ++ "_attivita_" ++
                        stamp ++ ".xlsx" /\
    option_map to_timestamp (parse_stamp stamp) = Some now_2025.
Proof.
  apply (export_action_roundtrip no_text no_text no_text no_trainers zip_magic built 1 now_2025);
    [vm_compute; split; discriminate|vm_compute; reflexivity].
Defined.

End ExportDemo.
