(* ===== verification/System.v ===== *)
(** * The addon as one system: histories of transactions

    Every user action of the addon is one transaction running one ORM
    operation ([op]): create, write or unlink of a session, a module, an
    event or a participant, the clone wizard, or a module upgrade, which
    runs the migration [pre-migrate.py] ([migrate]).  A history runs them in
    order; a transaction that raises is rolled back, and the next one
    starts from the last committed database ([run_all]).  The rollback
    restores the id sequences too, whereas PostgreSQL sequences are not
    transactional: in the database a refused create may leave a gap in
    the ids.  No theorem depends on ids being consecutive across a
    rollback.

    The theorem [system_invariant] is the addon's safety property over
    every history: no two active sessions of one event overlap, and the
    participant table keeps distinct ids, distinct (partner, role) pairs
    and the role rule, whatever is run, as long as no session is
    re-activated by a write that runs no constraint (the hole of
    [unarchive_breaks_no_overlap]).  [overlap_never_blocks] is a liveness
    property: a session
    the overlap constraint refuses can be created once the sessions it
    overlaps are archived. *)

From Stdlib Require Import ZArith String List.
From stdpp Require Import base list option.
From S2P Require Import Prelude Float64 Orm SessionModel ModuleModel EventModel CloneWizard ParticipantModel.
Import ListNotations.

Open Scope Z_scope.

Module System.

(** [migrations/18.0.1.0.0/pre-migrate.py], run by a module upgrade
    before the new code loads: [migrate(cr, version)] returns at once on a
    fresh install ([version] unset); otherwise it runs [SELECT 1], which
    reads one constant and writes nothing. *)
Definition migrate (version : option string) (d : db) : db :=
  match version with
  | None => d
  | Some _ => d
  end.

Inductive op :=
| SessionCreate (v : Session.vals)
| SessionWrite (sid : Z) (w : Session.write_vals)
| SessionUnlink (sid : Z)
| ModuleCreate (v : TModule.vals)
| ModuleWrite (mid : Z) (w : TModule.write_vals)
| ModuleUnlink (mid : Z)
| EventCreate (v : Event.vals)
| EventWrite (eid : Z) (w : Event.write_vals)
| EventUnlink (eid : Z)
| Clone (w : CloneWizard.t)
| ParticipantCreate (v : Participant.vals)
| ParticipantWrite (pid : Z) (w : Participant.write_vals)
| ParticipantUnlink (pid : Z)
| Upgrade (version : option string).

Definition run (o : op) (d : db) : result error db :=
  match o with
  | SessionCreate v => snd <$> Session.create v d
  | SessionWrite sid w => Session.write sid w d
  | SessionUnlink sid => Session.unlink sid d
  | ModuleCreate v => snd <$> TModule.create v d
  | ModuleWrite mid w => TModule.write mid w d
  | ModuleUnlink mid => TModule.unlink mid d
  | EventCreate v => snd <$> Event.create v d
  | EventWrite eid w => Event.write eid w d
  | EventUnlink eid => Event.unlink eid d
  | Clone w => snd <$> CloneWizard.clone d w
  | ParticipantCreate v => snd <$> Participant.create v d
  | ParticipantWrite pid w => Participant.write pid w d
  | ParticipantUnlink pid => Participant.unlink pid d
  | Upgrade version => Ok (migrate version d)
  end.

(** A history: each transaction commits or is rolled back. *)
Definition run_all (os : list op) (d : db) : db :=
  fold_left (fun d o => match run o d with Ok d' => d' | Err _ => d end) os d.

(** The one operation that can commit without re-checking a session it
    makes active: a session write of [active = True] that writes none of
    the fields that trigger [_check_overlap] (a date, [event_id], or
    [module_id]). *)
Definition reactivates (o : op) : bool :=
  match o with
  | SessionWrite _ w =>
      bool_decide (Session.w_active w = Some true) && negb (Session.overlap_rechecked w)
  | _ => false
  end.

Definition inv (d : db) : Prop :=
  Session.no_overlap (sessions d) /\ Participant.participants_ok d /\
  0 < next_participant_id d.

Definition touches_participants (o : op) : bool :=
  match o with
  | ParticipantCreate _ | ParticipantWrite _ _ | ParticipantUnlink _ => true
  | _ => false
  end.

(** The operations that change the sessions table. *)
Definition touches_sessions (o : op) : bool :=
  match o with
  | SessionCreate _ | SessionWrite _ _ | SessionUnlink _
  | ModuleWrite _ _ | ModuleUnlink _ | EventUnlink _ => true
  | _ => false
  end.

(** The form's Archive action on a session: [write({'active': False})]. *)
Definition archive_vals : Session.write_vals :=
  Session.mkwrite None None None None None None None None None (Some false) None None None None.

(** The active sessions of the event of [v]'s module that overlap the
    interval of [v]: the ones [_check_overlap] would report. *)
Definition blocking (d : db) (v : Session.vals) : list Z :=
  match browse (modules d) (Session.v_module_id v) with
  | None => []
  | Some m =>
      map TrainingSession.id (List.filter (fun b =>
        TrainingSession.active b && (TrainingSession.event_id b =? TrainingModule.event_id m) &&
        (TrainingSession.date_start b <? Session.v_date_end v) &&
        (Session.v_date_start v <? TrainingSession.date_end b)) (sessions d))
  end.

(** The operations that change the events table or their participants. *)
Definition touches_events (o : op) : bool :=
  match o with
  | EventCreate _ | EventWrite _ _ | EventUnlink _ | Clone _ | ParticipantUnlink _ => true
  | _ => false
  end.

(** ** Lemmas *)

(** The migration changes nothing. *)
Lemma migrate_id version d : migrate version d = d.
Proof. by destruct version. Qed.

(** Open the definition of an operation and split its guards. *)
Ltac open_op H :=
  do 2 (unfold Session.create, Session.write, Session.unlink, TModule.create, TModule.write,
    TModule.unlink, Event.create, Event.write, Event.unlink, CloneWizard.clone,
    CloneWizard.action_clone, CloneWizard.create_wizard, Participant.create,
    Participant.write, Participant.unlink in *;
  repeat (inv_ok; match goal with
                  | Hx : context [match ?x with _ => _ end] |- _ => destruct x eqn:?
                  end));
  inv_ok; subst; simpl in *; rewrite ?migrate_id in *.

Lemma run_participants o d d' :
  touches_participants o = false -> run o d = Ok d' ->
  participants d' = participants d /\ next_participant_id d' = next_participant_id d.
Proof. destruct o; simpl; intros Ht H; try discriminate Ht; open_op H; auto. Qed.

Lemma run_events o d d' :
  touches_events o = false -> run o d = Ok d' -> events d' = events d.
Proof. destruct o; simpl; intros Ht H; try discriminate Ht; open_op H; auto. Qed.

Lemma run_sessions o d d' :
  touches_sessions o = false -> run o d = Ok d' -> sessions d' = sessions d.
Proof. destruct o; simpl; intros Ht H; try discriminate Ht; open_op H; auto. Qed.

Lemma run_no_overlap o d d' :
  reactivates o = false -> Session.no_overlap (sessions d) -> run o d = Ok d' ->
  Session.no_overlap (sessions d').
Proof.
  intros Hr Hinv H. destruct (touches_sessions o) eqn:Ht; [|by rewrite (run_sessions o d d' Ht H)].
  destruct o; try discriminate Ht; simpl in H.
  - inv_ok. destruct a. by eapply Session.create_preserves_no_overlap.
  - eapply Session.write_preserves_no_overlap; [exact Hinv|exact H|]. intros Ha.
    simpl in Hr. rewrite Ha in Hr. simpl in Hr. by apply negb_false_iff in Hr.
  - by eapply Session.unlink_preserves_no_overlap.
  - by eapply TModule.module_write_preserves_no_overlap.
  - unfold TModule.unlink in H. destruct (browse _ _); inv_ok. by apply Session.no_overlap_filter.
  - unfold Event.unlink in H. destruct (browse _ _); inv_ok. by apply Session.no_overlap_filter.
Qed.

Lemma run_participants_ok o d d' :
  Participant.participants_ok d -> 0 < next_participant_id d -> run o d = Ok d' ->
  Participant.participants_ok d' /\ 0 < next_participant_id d'.
Proof.
  intros Hok Hpos H. destruct (touches_participants o) eqn:Ht.
  - destruct o; try discriminate Ht; simpl in H.
    + inv_ok. destruct a as [pid d1]. simpl.
      pose proof (Participant.create_inv _ _ _ _ Ha) as (_ & _ & -> & ->).
      split; [by eapply Participant.create_preserves_ok|simpl; lia].
    + pose proof (Participant.step_next _ _ (Participant.step_write _ _ _ _ H)).
      split; [by eapply Participant.write_preserves_ok|lia].
    + pose proof (Participant.step_next _ _ (Participant.step_unlink _ _ _ H)).
      split; [by eapply Participant.unlink_preserves_ok|lia].
  - destruct (run_participants o d d' Ht H) as [Hp Hn].
    unfold Participant.participants_ok. rewrite Hp, Hn. done.
Qed.

Lemma run_inv o d d' : reactivates o = false -> inv d -> run o d = Ok d' -> inv d'.
Proof.
  intros Hr (Hs & Hp & Hn) H. split; [by eapply run_no_overlap|].
  by eapply run_participants_ok.
Qed.

Lemma archive_write sid r d :
  browse (sessions d) sid = Some r ->
  Session.write sid archive_vals d =
    Ok (Session.set_sessions (update_row (Session.updated_row r (TrainingSession.event_id r) archive_vals)
          (sessions d)) (next_session_id d) d).
Proof. intros H. unfold Session.write. by rewrite H. Qed.

(** Archiving sessions by id keeps the other tables and the ids; a
    session active afterwards was active before and not archived. *)
Lemma archive_run L d :
  Forall (fun i => In i (map TrainingSession.id (sessions d))) L ->
  let d' := run_all (map (fun i => SessionWrite i archive_vals) L) d in
  modules d' = modules d /\ next_session_id d' = next_session_id d /\
  map TrainingSession.id (sessions d') = map TrainingSession.id (sessions d) /\
  forall b, In b (sessions d') -> TrainingSession.active b = true ->
    In b (sessions d) /\ ~ In (TrainingSession.id b) L.
Proof.
  revert d. induction L as [|i L IH]; intros d HL; simpl; [by repeat split; auto|].
  inversion_clear HL as [|? ? Hi HL'].
  assert (exists r, browse (sessions d) i = Some r) as [r Hr] by (by apply browse_in_ids).
  rewrite (archive_write _ _ _ Hr).
  pose proof (browse_In _ _ _ Hr) as [_ Hid].
  set (d1 := Session.set_sessions _ _ _).
  assert (Hids : map TrainingSession.id (sessions d1) = map TrainingSession.id (sessions d))
    by exact (map_id_update_row (A:=TrainingSession.t) _ (sessions d)).
  destruct (IH d1) as (Hm & Hn & Hmap & Hact); [by rewrite Hids|].
  split; [done|]. split; [done|]. split; [by rewrite Hmap|].
  intros b Hb Hab. destruct (Hact b Hb Hab) as [Hb1 HnL].
  apply In_update_row in Hb1 as [->|[Hb1 Hne]]; [simpl in Hab; discriminate|].
  split; [done|]. intros [Heq|HbL]; [|done]. simpl in Hne, Hid. congruence.
Qed.

(** C3 The addon's safety property over every history of transactions:
    from a database where no two active sessions of one event overlap
    and the participant table is well formed, any sequence of creates,
    writes, unlinks and clones of every model (each committed or rolled
    back) keeps both, provided no transaction re-activates a session
    without writing a date, the event or the module. *)
Theorem system_invariant os d :
  inv d -> Forall (fun o => reactivates o = false) os -> inv (run_all os d).
Proof.
  revert d. induction os as [|o os IH]; intros d Hinv Hall; [done|].
  inversion_clear Hall as [|? ? Ho Hall']. simpl. apply IH; [|done].
  destruct (run o d) eqn:Hr; [|done]. by eapply run_inv.
Qed.

(** C17 The overlap constraint never blocks a session for good: a
    session whose module exists and whose end is after its start can be
    created once the sessions it overlaps are archived, by a history of
    Archive writes that re-activate nothing. *)
Theorem overlap_never_blocks d v m :
  browse (modules d) (Session.v_module_id v) = Some m ->
  Session.v_date_start v < Session.v_date_end v ->
  let os := map (fun i => SessionWrite i archive_vals) (blocking d v) in
  Forall (fun o => reactivates o = false) os /\
  exists sid d', Session.create v (run_all os d) = Ok (sid, d').
Proof.
  intros Hm Hlt. cbn zeta. split; [apply Forall_forall; intros o Ho;
    apply in_map_iff in Ho as (i & <- & _); reflexivity|].
  assert (HL : Forall (fun i => In i (map TrainingSession.id (sessions d))) (blocking d v)).
  { unfold blocking. rewrite Hm. apply Forall_forall. intros i Hi.
    apply in_map_iff in Hi as (b & <- & Hb). apply filter_In in Hb as [Hb _].
    by apply in_map. }
  destruct (archive_run _ _ HL) as (Hmods & Hnext & _ & Hact).
  set (d' := run_all _ d) in *.
  eexists. eexists. apply Session.create_ok_intro with (m := m).
  - by rewrite Hmods.
  - simpl. lia.
  - intros b Hb Hab Hne Hev. destruct (Session.overlaps _ b) eqn:Hov; [|done].
    destruct (Hact b Hb Hab) as [Hbd HnL]. exfalso. apply HnL.
    unfold blocking. rewrite Hm. apply in_map, filter_In. split; [done|].
    unfold Session.overlaps in Hov. simpl in Hev, Hov. rewrite Hab, Hev, Z.eqb_refl.
    zbool. simpl. apply andb_true_iff. split; apply Z.ltb_lt; lia.
Qed.

End System.

(** ** Examples *)

Module SystemDemo.
Import System.

Definition day : Z := 20000.
Definition at_hour (h : Z) : Z := day * 86400 + h * 3600.

(** An event with one module; sessions A (9-11), B (10-12, refused: it
    overlaps A) and C (11-13, touching A); a trainer without user
    (refused), a student; A archived, then D (9-10) over A's slot; the
    event cloned a week later. *)
Definition history : list op :=
  [EventCreate (Event.default_vals "Evento" TrainingEvent.course day (day + 2));
   ModuleCreate (TModule.default_vals "Modulo" 1);
   SessionCreate (Session.default_vals "A" 1 (at_hour 9) (at_hour 11));
   SessionCreate (Session.default_vals "B" 1 (at_hour 10) (at_hour 12));
   SessionCreate (Session.default_vals "C" 1 (at_hour 11) (at_hour 13));
   ParticipantCreate (Participant.mkvals 7 TrainingParticipant.trainer None None true);
   ParticipantCreate (Participant.mkvals 7 TrainingParticipant.student None None true);
   SessionWrite 1 (Session.set_active false);
   SessionCreate (Session.default_vals "D" 1 (at_hour 9) (at_hour 10));
   Clone (CloneWizard.mk 1 "Evento (Copia)" (day + 7) (day + 9))].

(** The history's outcome: the refused transactions left no row (B
    and the trainer without user are absent); A is archived and D shares
    its slot; the clone is a second event with its own code and no
    module; one participant is registered. *)
Theorem history_outcome :
  let d := run_all history empty_db in
  map (fun s => (TrainingSession.name s, TrainingSession.active s)) (sessions d) =
    [("A"%string, false); ("C"%string, true); ("D"%string, true)] /\
  map TrainingEvent.code (events d) = ["EVT/1"%string; "EVT/2"%string] /\
  length (modules d) = 1%nat /\ length (participants d) = 1%nat.
Proof. vm_compute. repeat split. Qed.

Lemma system_invariant_witness : inv (run_all history empty_db).
Proof.
  apply system_invariant.
  - split; [intros a b []|split; [apply Participant.participants_ok_empty|simpl; lia]].
  - repeat constructor.
Defined.
(** The database after the event, its module and session A (9-11). *)
Definition with_a : db := run_all (firstn 3 history) empty_db.

Definition session_b : Session.vals := Session.default_vals "B" 1 (at_hour 10) (at_hour 12).

Lemma overlap_never_blocks_witness :
  is_ok (Session.create session_b with_a) = false /\
  (Forall (fun o => reactivates o = false)
     (map (fun i => SessionWrite i archive_vals) (blocking with_a session_b)) /\
   exists sid d', Session.create session_b
     (run_all (map (fun i => SessionWrite i archive_vals) (blocking with_a session_b)) with_a) =
     Ok (sid, d')).
Proof.
  split; [vm_compute; reflexivity|].
  apply (overlap_never_blocks with_a session_b (TrainingModule.mk 1 "Modulo" None None 1 10 true));
    [vm_compute; reflexivity|unfold session_b, at_hour, day; simpl; lia].
Defined.

End SystemDemo.
