(* ===== verification/Integrity.v ===== *)
(** * The links between the tables over every history

    Two foreign keys and one stored related field tie the tables
    together:
    - [training.module.event_id] is a required [Many2one] to the event
      ([ondelete="cascade"]);
    - [training.session.module_id] is a required [Many2one] to the module
      ([ondelete="cascade"]);
    - [training.session.event_id] is [related="module_id.event_id",
      store=True]: a copy of the module's event in the session's row,
      which the ORM recomputes when the module is written (spec 9, the
      "denormalized back-reference").

    [links_ok] states all three: every module's event exists, every
    session's module exists and the session's stored [event_id] is its
    module's.  [system_links_ok] shows that every history of transactions
    of Module [System] keeps it, as long as no transaction writes a
    session's [event_id] itself: session create and write compute the
    stored field from the module, a module write recomputes it on the
    module's sessions, archived ones included, and the unlinks cascade.
    The exclusion is needed: the field's [readonly=True] binds the views
    only, the ORM stores a written value as written, and
    [session_event_write_breaks_links] shows such a write commits and
    breaks the link on any database that has one. *)

From Stdlib Require Import ZArith String List.
From stdpp Require Import base list option.
From S2P Require Import Prelude Float64 Orm SessionModel ModuleModel EventModel CloneWizard ParticipantModel System.
Import ListNotations.

Open Scope Z_scope.

Module Integrity.
Import System.

(** The foreign key of a module: its event is a row of the events table. *)
Definition module_linked (event_ids : list Z) (m : TrainingModule.t) : bool :=
  existsb (Z.eqb (TrainingModule.event_id m)) event_ids.

(** The foreign key of a session and its stored related field: its module
    is a row of the modules table, and its [event_id] is the module's. *)
Definition session_linked (ms : list TrainingModule.t) (s : TrainingSession.t) : bool :=
  match browse ms (TrainingSession.module_id s) with
  | Some m => TrainingSession.event_id s =? TrainingModule.event_id m
  | None => false
  end.

Definition links_ok (d : db) : Prop :=
  Forall (fun m => module_linked (map TrainingEvent.id (events d)) m = true) (modules d) /\
  Forall (fun s => session_linked (modules d) s = true) (sessions d).

Definition links_okb (d : db) : bool :=
  forallb (module_linked (map TrainingEvent.id (events d))) (modules d) &&
  forallb (session_linked (modules d)) (sessions d).

(** The operations that change the modules table. *)
Definition touches_modules (o : op) : bool :=
  match o with
  | ModuleCreate _ | ModuleWrite _ _ | ModuleUnlink _ | EventUnlink _ => true
  | _ => false
  end.

(** A session write that writes the stored related [event_id] itself. *)
Definition writes_session_event (o : op) : bool :=
  match o with
  | SessionWrite _ w => Session.written (Session.w_event_id w)
  | _ => false
  end.

(** ** Lemmas *)

Lemma links_okb_spec d : links_okb d = true <-> links_ok d.
Proof. unfold links_okb, links_ok. by rewrite andb_true_iff, !forallb_forall, !Forall_forall. Qed.

Section Browse.
Context {A : Type} `{OrmRecord A}.

Lemma browse_app_some (l l' : list A) i x : browse l i = Some x -> browse (l ++ l') i = Some x.
Proof.
  unfold browse. induction l as [|y l IH]; simpl; [done|].
  destruct (rec_id y =? i); auto.
Qed.

Lemma browse_update_other (r : A) l i : i <> rec_id r -> browse (update_row r l) i = browse l i.
Proof.
  intros Hne. unfold browse, update_row. induction l as [|x l IH]; simpl; [done|].
  destruct (Z.eqb_spec (rec_id x) (rec_id r)) as [Hx|Hx]; simpl.
  - rewrite Hx. destruct (Z.eqb_spec (rec_id r) i); [congruence|].
    destruct (Z.eqb_spec (rec_id x) i); [congruence|done].
  - by rewrite IH.
Qed.

Lemma browse_update_same (r : A) l x : browse l (rec_id r) = Some x -> browse (update_row r l) (rec_id r) = Some r.
Proof.
  unfold browse, update_row. induction l as [|y l IH]; simpl; [done|].
  destruct (Z.eqb_spec (rec_id y) (rec_id r)) as [Hy|Hy]; simpl.
  - by rewrite Z.eqb_refl.
  - destruct (Z.eqb_spec (rec_id y) (rec_id r)); [done|]. done.
Qed.

Lemma browse_filter_some (f : A -> bool) l i x :
  browse l i = Some x -> f x = true -> browse (List.filter f l) i = Some x.
Proof.
  unfold browse. induction l as [|y l IH]; simpl; [done|].
  destruct (rec_id y =? i) eqn:Hy.
  - intros [= ->] Hf. simpl. rewrite Hf. simpl. by rewrite Hy.
  - intros Hl Hf. destruct (f y); simpl; [rewrite Hy|]; auto.
Qed.

End Browse.

Lemma Forall_filter_sub {A} (P : A -> Prop) f l : Forall P l -> Forall P (List.filter f l).
Proof. intros H. apply Forall_forall. intros x [Hx _]%filter_In. by eapply Forall_forall in H. Qed.

Lemma module_linked_mono ids ids' m :
  (forall i, In i ids -> In i ids') -> module_linked ids m = true -> module_linked ids' m = true.
Proof.
  unfold module_linked. intros Hsub (i & Hi & Heq)%existsb_exists.
  apply existsb_exists. exists i. auto.
Qed.

(** A history that leaves the modules and sessions alone and keeps every
    event id keeps the links. *)
Lemma links_events_grow d d' :
  modules d' = modules d -> sessions d' = sessions d ->
  (forall i, In i (map TrainingEvent.id (events d)) -> In i (map TrainingEvent.id (events d'))) ->
  links_ok d -> links_ok d'.
Proof.
  intros Hm Hs Hsub [Hml Hsl]. unfold links_ok. rewrite Hm, Hs. split; [|done].
  eapply Forall_impl; [|exact Hml]. intros m. by apply module_linked_mono.
Qed.

Lemma run_modules o d d' :
  touches_modules o = false -> run o d = Ok d' -> modules d' = modules d.
Proof. destruct o; simpl; intros Ht H; try discriminate Ht; System.open_op H; auto. Qed.

Lemma session_linked_app ms ms' s :
  session_linked ms s = true -> session_linked (ms ++ ms') s = true.
Proof.
  unfold session_linked. destruct (browse ms _) as [m|] eqn:Hb; [|done].
  by rewrite (browse_app_some _ _ _ _ Hb).
Qed.

Lemma session_linked_intro ms s m :
  browse ms (TrainingSession.module_id s) = Some m ->
  TrainingSession.event_id s = TrainingModule.event_id m -> session_linked ms s = true.
Proof. unfold session_linked. intros -> ->. apply Z.eqb_refl. Qed.

Lemma session_linked_elim ms s :
  session_linked ms s = true -> exists m, browse ms (TrainingSession.module_id s) = Some m /\
    TrainingSession.event_id s = TrainingModule.event_id m.
Proof.
  unfold session_linked. destruct (browse _ _) as [m|]; [|done].
  intros ->%Z.eqb_eq. by exists m.
Qed.

Lemma session_create_links v d sid d' : links_ok d -> Session.create v d = Ok (sid, d') -> links_ok d'.
Proof.
  intros [Hml Hsl] (m & Hm & _ & _ & _ & ->)%Session.create_ok_inv. split; [done|].
  apply Forall_app. split; [done|]. apply Forall_singleton. by eapply session_linked_intro.
Qed.

Lemma session_write_links sid w d d' :
  Session.w_event_id w = None -> links_ok d -> Session.write sid w d = Ok d' -> links_ok d'.
Proof.
  intros Hev [Hml Hsl] H. unfold Session.write in H. rewrite Hev in H.
  destruct (browse (sessions d) sid) as [r|] eqn:Hr; [|discriminate].
  apply browse_In in Hr as [Hin _].
  destruct (Session.w_module_id w) as [mid|] eqn:Hw;
    [destruct (browse (modules d) mid) as [m|] eqn:Hm|]; simpl in H; inv_ok;
    split; try done; simpl; apply Forall_update_row; try done;
    unfold Session.updated_row; rewrite Hw, Hev; simpl.
  - by eapply session_linked_intro.
  - eapply Forall_forall in Hsl; [|exact Hin]. exact Hsl.
Qed.

Lemma session_unlink_links sid d d' : links_ok d -> Session.unlink sid d = Ok d' -> links_ok d'.
Proof.
  intros [Hml Hsl] H. unfold Session.unlink in H. destruct (browse _ _); inv_ok.
  split; [done|]. by apply Forall_filter_sub.
Qed.

Lemma module_create_links v d mid d' : links_ok d -> TModule.create v d = Ok (mid, d') -> links_ok d'.
Proof.
  intros [Hml Hsl] H. unfold TModule.create in H.
  destruct (browse (events d) (TModule.v_event_id v)) as [e|] eqn:He; inv_ok.
  apply browse_In in He as [He Hid]. split; simpl.
  - apply Forall_app. split; [done|]. apply Forall_singleton. unfold module_linked. simpl.
    apply existsb_exists. exists (TrainingEvent.id e). split; [by apply in_map|].
    simpl in Hid. rewrite Hid. apply Z.eqb_refl.
  - eapply Forall_impl; [|exact Hsl]. intros s. apply session_linked_app.
Qed.

Lemma browse_module_update ms m m' :
  browse ms (TrainingModule.id m) = Some m -> TrainingModule.id m' = TrainingModule.id m ->
  browse (update_row m' ms) (TrainingModule.id m) = Some m'.
Proof.
  intros Hb Hid. pose proof (browse_update_same m' ms m) as Hu. simpl in Hu.
  rewrite Hid in Hu. by apply Hu.
Qed.

Lemma session_linked_update_other ms m' s :
  TrainingSession.module_id s <> TrainingModule.id m' ->
  session_linked ms s = true -> session_linked (update_row m' ms) s = true.
Proof.
  intros Hne (m0 & Hm0 & Hs)%session_linked_elim.
  eapply session_linked_intro; [|exact Hs]. by rewrite browse_update_other.
Qed.

(** A session keeps its link through an update of a module row that
    keeps the module's event. *)
Lemma session_linked_update ms m m' s :
  browse ms (TrainingModule.id m) = Some m -> TrainingModule.id m' = TrainingModule.id m ->
  TrainingModule.event_id m' = TrainingModule.event_id m ->
  session_linked ms s = true -> session_linked (update_row m' ms) s = true.
Proof.
  intros Hb Hid Hev (m0 & Hm0 & Hs)%session_linked_elim.
  destruct (Z.eq_dec (TrainingSession.module_id s) (TrainingModule.id m)) as [Heq|Hne].
  - rewrite Heq, Hb in Hm0. injection Hm0 as <-.
    apply (session_linked_intro _ _ m'); [|congruence].
    rewrite Heq. by apply browse_module_update.
  - apply session_linked_update_other; [congruence|]. by eapply session_linked_intro.
Qed.

Lemma module_write_links mid w d d' : links_ok d -> TModule.write mid w d = Ok d' -> links_ok d'.
Proof.
  intros [Hml Hsl] H. unfold TModule.write in H.
  destruct (browse (modules d) mid) as [m|] eqn:Hb; [|discriminate].
  pose proof Hb as [Hin Hid]%browse_In. simpl in Hid. subst mid.
  destruct (TModule.w_event_id w) as [ev|] eqn:Hw.
  - destruct (browse (events d) ev) as [e|] eqn:He; [|discriminate]. inv_ok.
    apply browse_In in He as [He Hide]. split; simpl.
    + apply Forall_update_row; [done|]. unfold module_linked, TModule.updated_row. rewrite Hw. simpl.
      apply existsb_exists. exists ev. split; [rewrite <- Hide; by apply in_map|apply Z.eqb_refl].
    + unfold TModule.recompute_event. apply Forall_map. eapply Forall_impl; [|exact Hsl].
      intros s Hs. destruct (Z.eqb_spec (TrainingSession.module_id s) (TrainingModule.id m)) as [Heq|Hne].
      * eapply session_linked_intro; simpl.
        -- rewrite Heq. by apply browse_module_update.
        -- unfold TModule.updated_row. by rewrite Hw.
      * by apply session_linked_update_other.
  - inv_ok. split; simpl.
    + apply Forall_update_row; [done|]. eapply Forall_forall in Hml; [|exact Hin].
      unfold TModule.updated_row. by rewrite Hw.
    + eapply Forall_impl; [|exact Hsl]. intros s. apply (session_linked_update _ m); [done|done|].
      unfold TModule.updated_row. by rewrite Hw.
Qed.

Lemma module_unlink_links mid d d' : links_ok d -> TModule.unlink mid d = Ok d' -> links_ok d'.
Proof.
  intros [Hml Hsl] H. unfold TModule.unlink in H. destruct (browse _ _); inv_ok.
  split; simpl; [by apply Forall_filter_sub|].
  apply Forall_forall. intros s [Hs Hne]%filter_In.
  eapply Forall_forall in Hsl as (m & Hm & Hev)%session_linked_elim; [|exact Hs].
  apply (session_linked_intro _ _ m); [|done]. apply browse_filter_some; [done|].
  apply browse_In in Hm as [_ Hid]. simpl in Hid. by rewrite Hid.
Qed.

Lemma in_ids_filter (es : list TrainingEvent.t) i eid :
  In i (map TrainingEvent.id es) -> i <> eid ->
  In i (map TrainingEvent.id (List.filter (fun e => negb (TrainingEvent.id e =? eid)) es)).
Proof.
  intros (e & <- & He)%in_map_iff Hne. apply in_map. apply filter_In. split; [done|].
  by apply negb_true_iff', Z.eqb_neq.
Qed.

Lemma event_unlink_links eid d d' : links_ok d -> Event.unlink eid d = Ok d' -> links_ok d'.
Proof.
  intros [Hml Hsl] H. unfold Event.unlink in H. destruct (browse _ _); inv_ok. split; simpl.
  - apply Forall_forall. intros m [Hm Hne]%filter_In.
    eapply Forall_forall in Hml; [|exact Hm].
    apply existsb_exists in Hml as (i & Hi & <-%Z.eqb_eq). apply existsb_exists.
    exists (TrainingModule.event_id m). split; [|apply Z.eqb_refl].
    apply in_ids_filter; [done|]. by apply negb_true_iff', Z.eqb_neq in Hne.
  - apply Forall_forall. intros s [Hs Hkeep]%filter_In.
    eapply Forall_forall in Hsl as (m & Hm & Hev)%session_linked_elim; [|exact Hs].
    apply (session_linked_intro _ _ m); [|done]. pose proof Hm as [Hin Hid]%browse_In.
    apply browse_filter_some; [done|]. apply negb_true_iff'. apply negb_true_iff' in Hkeep.
    destruct (TrainingModule.event_id m =? eid) eqn:Hg; [|done].
    rewrite <- Hkeep. symmetry. apply existsb_exists. exists m. split; [done|].
    rewrite Hg. simpl in Hid. by rewrite Hid, Z.eqb_refl.
Qed.

(** The operations that do not delete an event keep every event id. *)
Lemma run_event_ids_grow o d d' :
  (forall eid, o <> EventUnlink eid) -> run o d = Ok d' ->
  forall i, In i (map TrainingEvent.id (events d)) -> In i (map TrainingEvent.id (events d')).
Proof.
  intros Hu H i Hi. destruct (touches_events o) eqn:Ht; [|by rewrite (run_events o d d' Ht H)].
  destruct o; try discriminate Ht; simpl in H.
  - inv_ok. destruct a as [eid d1]. unfold Event.create in Ha.
    destruct (Event.v_code _); inv_ok; simpl; rewrite map_app; apply in_or_app; by left.
  - unfold Event.write in H. destruct (browse _ _) as [r|]; inv_ok. simpl.
    pose proof (map_id_update_row (Event.updated_row r w) (events d)) as Hm. simpl in Hm. by rewrite Hm.
  - by destruct (Hu eid).
  - inv_ok. destruct a as [eid d1]. unfold CloneWizard.clone, CloneWizard.action_clone in Ha. inv_ok.
    destruct (browse _ _); [|discriminate]. unfold Event.create in Ha.
    destruct (Event.v_code _); inv_ok; simpl; rewrite map_app; apply in_or_app; by left.
  - unfold Participant.unlink in H. destruct (browse _ _); inv_ok. simpl.
    by rewrite map_map.
Qed.

Lemma run_links o d d' :
  writes_session_event o = false -> links_ok d -> run o d = Ok d' -> links_ok d'.
Proof.
  intros He Hl H. destruct (touches_modules o || touches_sessions o) eqn:Ht.
  - destruct o; try discriminate Ht; simpl in H; try (inv_ok; destruct a).
    + by eapply session_create_links.
    + eapply session_write_links; [|done..]. simpl in He.
      by destruct (Session.w_event_id _).
    + by eapply session_unlink_links.
    + by eapply module_create_links.
    + by eapply module_write_links.
    + by eapply module_unlink_links.
    + by eapply event_unlink_links.
  - apply orb_false_iff in Ht as [Htm Hts].
    apply (links_events_grow d); [by eapply run_modules|by eapply run_sessions| |done].
    apply (run_event_ids_grow o d d'); [|done]. intros eid ->. discriminate Htm.
Qed.

(** C12 The cascade of an event's [unlink] ([ondelete="cascade"] on
    [training.module.event_id] and on [training.session.module_id]): on
    a database with the links and distinct module ids, unlinking an
    event removes exactly that event, the modules of that event and the
    sessions whose stored [event_id] is that event, archived ones
    included, and keeps every other row. *)
Theorem event_unlink_cascade eid d d' :
  links_ok d -> List.NoDup (map TrainingModule.id (modules d)) -> Event.unlink eid d = Ok d' ->
  (forall e, In e (events d') <-> In e (events d) /\ TrainingEvent.id e <> eid) /\
  (forall m, In m (modules d') <-> In m (modules d) /\ TrainingModule.event_id m <> eid) /\
  (forall s, In s (sessions d') <-> In s (sessions d) /\ TrainingSession.event_id s <> eid) /\
  participants d' = participants d.
Proof.
  intros [_ Hsl] Hnd H. unfold Event.unlink in H. destruct (browse _ _); inv_ok. simpl.
  split; [intros e; by rewrite filter_In, negb_true_iff', Z.eqb_neq|].
  split; [intros m; by rewrite filter_In, negb_true_iff', Z.eqb_neq|].
  split; [|done]. intros s. rewrite filter_In, negb_true_iff'.
  split; intros [Hs Hx]; (split; [done|]); revert Hx;
    eapply Forall_forall in Hsl as (m & Hm & Hev)%session_linked_elim; try exact Hs;
    pose proof (browse_In _ _ _ Hm) as [Hin Hid]; simpl in Hid;
    rewrite <- not_true_iff_false, existsb_exists.
  - intros Hno Heq. apply Hno. exists m. split; [done|].
    by rewrite Hid, Z.eqb_refl, <- Hev, Heq, Z.eqb_refl.
  - intros Hne (m' & Hm' & Hg). apply andb_true_iff in Hg as [He' Hi'].
    apply Z.eqb_eq in He', Hi'. rewrite <- Hid in Hi'.
    rewrite (NoDup_map_eq TrainingModule.id _ m' m Hnd Hm' Hin Hi') in He'. congruence.
Qed.

(** C18 Referential integrity of modules and sessions over every
    history that never writes a session's stored [event_id] directly: if
    every module's event exists and every session's module exists with
    the session's stored [event_id] equal to the module's, this stays so
    whatever such transactions run, committed or rolled back.  The stored
    related field is recomputed wherever the module changes, archived
    sessions included, and the unlinks cascade. *)
Theorem system_links_ok os d :
  Forall (fun o => writes_session_event o = false) os -> links_ok d -> links_ok (run_all os d).
Proof.
  unfold run_all. revert d. induction os as [|o os IH]; intros d Hos Hd; simpl; [done|].
  inversion Hos as [|? ? Ho Hos']; subst.
  apply IH; [exact Hos'|]. destruct (run o d) as [d'|] eqn:H; [by eapply run_links|done].
Qed.

(** C13 The exclusion in [system_links_ok] is needed: the ORM stores a written value of the
    related [event_id] as written, [readonly] only affecting the views.
    On any database with the links, writing [event_id] alone on a session
    to an existing other event with no active session commits (its
    foreign key holds, [_check_overlap] finds nothing) and leaves the
    session's stored [event_id] different from its module's. *)
Theorem session_event_write_breaks_links d sid r e :
  links_ok d -> browse (sessions d) sid = Some r ->
  In e (map TrainingEvent.id (events d)) -> e <> TrainingSession.event_id r ->
  (forall b, In b (sessions d) -> TrainingSession.event_id b = e -> TrainingSession.active b = false) ->
  exists d', Session.write sid (Session.set_event_id e) d = Ok d' /\ ~ links_ok d'.
Proof.
  intros [_ Hsl] Hr He Hne Hidle. pose proof (browse_In _ _ _ Hr) as [Hin Hid].
  destruct (@browse_in_ids _ event_record (events d) e He) as [ev Hev].
  unfold Session.write. rewrite Hr. simpl. rewrite Hev. simpl.
  rewrite Session.check_overlap_complete; simpl.
  - eexists. split; [reflexivity|]. intros [_ Hsl']. simpl in Hsl'.
    eapply Forall_forall in Hsl'; [|eapply In_update_row_self; [exact Hin|reflexivity]].
    eapply Forall_forall in Hsl; [|exact Hin].
    unfold session_linked in *. simpl in *.
    destruct (browse (modules d) (TrainingSession.module_id r)); [|done].
    apply Z.eqb_eq in Hsl, Hsl'. congruence.
  - intros b Hb Hact Hbid Hbe. apply In_update_row in Hb as [->|[Hb _]]; [done|].
    simpl in Hbe. rewrite (Hidle b Hb Hbe) in Hact. discriminate.
Qed.


End Integrity.

(** ** Examples *)

Module IntegrityDemo.
Import System SystemDemo Integrity.

Lemma system_links_ok_witness : links_ok (run_all history empty_db).
Proof. apply system_links_ok; [repeat constructor|split; constructor]. Defined.

(** Session C (id 3) of the history's first event moved by hand to the
    clone (event 2), which has no session. *)
Lemma session_event_write_breaks_links_witness :
  exists d', Session.write 3 (Session.set_event_id 2) (run_all history empty_db) = Ok d' /\
    ~ links_ok d'.
Proof.
  destruct (browse (sessions (run_all history empty_db)) 3) as [r|] eqn:Hr;
    [|vm_compute in Hr; discriminate].
  apply (session_event_write_breaks_links _ 3 r 2).
  - apply links_okb_spec. vm_compute. reflexivity.
  - exact Hr.
  - vm_compute. tauto.
  - vm_compute in Hr. injection Hr as <-. vm_compute. discriminate.
  - intros b Hb Hbe. vm_compute in Hb.
    destruct Hb as [<-|[<-|[<-|[]]]]; vm_compute in Hbe; discriminate.
Defined.

(** Unlinking the history's first event takes its three sessions (A,
    archived, with C and D) with it. *)
Lemma event_unlink_cascade_witness :
  exists d', Event.unlink 1 (run_all history empty_db) = Ok d' /\ sessions d' = [].
Proof.
  destruct (Event.unlink 1 (run_all history empty_db)) as [d'|] eqn:H;
    [|vm_compute in H; discriminate].
  exists d'. split; [done|].
  destruct (event_unlink_cascade 1 (run_all history empty_db) d' ltac:(apply links_okb_spec; vm_compute; reflexivity)
              ltac:(vm_compute; repeat constructor; intros []) H) as (_ & _ & Hs & _).
  destruct (sessions d') as [|s ss]; [done|]. exfalso.
  destruct (proj1 (Hs s) (or_introl eq_refl)) as [Hin Hne]. vm_compute in Hin.
  destruct Hin as [<-|[<-|[<-|[]]]]; by apply Hne.
Defined.

End IntegrityDemo.
